(** * Course scheduler: the scheduling engine of [solver/app.py]

    A shallow embedding of the option generator, the constraint model
    builder, the objective builder, the infeasibility diagnoser and the
    result assembler, followed by the properties of the specification that
    were checked against them.

    Conventions.
    - Python [int] is [Z]; Python [str] is [string]; [Optional[T]] is
      [option T], and the truthiness tests of the source ([if x:]) are
      written out: [None], the empty string, the empty list and [0] are
      falsy.
    - A Python [dict] is an insertion-ordered association list with unique
      keys: assigning to a key that is present overwrites the value in
      place, assigning to a new key appends.
    - [SoftLock.weight] is a Python [float]; it is modelled as a rational
      [Q].  The only float operations of the engine on a weight are
      [w * 1], [0 + w] and [w + w], which are exact on finite doubles
      (overflow apart), the comparison with [0] and [int(...)], which
      truncates toward zero.
    - The CP-SAT solver is external.  A CP model is the list of the
      variables and linear constraints that the source adds to it; a solver
      result is a valuation of the variables. *)

From Stdlib Require Import ZArith List String Ascii QArith Lia Bool.
From Stdlib Require Import DecimalString Lqa.
Import ListNotations.
Open Scope string_scope.
Open Scope Z_scope.

Set Implicit Arguments.

(** ** Tunable weights *)

Definition ROOM_WASTE_WEIGHT : Z := 1.
Definition PREF_DAY_WEIGHT : Z := 10.
Definition PREF_PATTERN_WEIGHT : Z := 5.
Definition ADJUNCT_DAY_EXCESS_WEIGHT : Z := 15.
Definition SOFT_LOCK_BASE_WEIGHT : Z := 1.

(** ** Domain model *)

Record CourseSection := mkSection {
  sec_id : string;
  course_id : string;
  section_code : string;
  instructor_id : string;
  expected_enrollment : Z;
  enrollment_cap : Z;
  allowed_meeting_patterns : list string;
  room_requirements : list string;
  crosslist_group_id : option string;
  tags : list string
}.

Record InstructorPreferences := mkPrefs {
  preferred_days : list string;
  preferred_patterns : list string;
  max_teaching_days : option Z
}.

Record Instructor := mkInstructor {
  inst_id : string;
  rank_type : string;
  unavailable_times : list string;
  preferences : InstructorPreferences
}.

Record Room := mkRoom {
  room_id : string;
  building : string;
  capacity : Z;
  features : list string
}.

Record Timeslot := mkTimeslot {
  slot_id : string;
  day : string;
  start_time : string;
  end_time : string
}.

Record MeetingPattern := mkPattern {
  pat_id : string;
  slots_required : Z;
  allowed_days : list string;
  compatible_timeslot_sets : list (list string)
}.

Record CrossListGroup := mkCrossList {
  xl_id : string;
  xl_member_section_ids : list string;
  require_same_room : bool
}.

Record NoOverlapGroup := mkNoOverlap {
  nol_id : string;
  nol_member_section_ids : list string;
  nol_reason : string
}.

Record BlockedTime := mkBlocked {
  scope : string;
  timeslot_ids : list string;
  blocked_reason : string
}.

Record LockedAssignment := mkLock {
  lock_section_id : string;
  fixed_timeslot_set : option (list string);
  fixed_room : option string
}.

(** [weight] is a Python float.  The model holds the exact rational value
    of a finite float; infinite and NaN weights have no counterpart
    here. *)
Record SoftLock := mkSoftLock {
  soft_section_id : string;
  preferred_timeslot_set : option (list string);
  preferred_room : option string;
  weight : Q
}.

Record SchedulingInput := mkInput {
  sections : list CourseSection;
  instructors : list Instructor;
  rooms : list Room;
  timeslots : list Timeslot;
  meeting_patterns : list MeetingPattern;
  crosslist_groups : list CrossListGroup;
  no_overlap_groups : list NoOverlapGroup;
  blocked_times : list BlockedTime;
  locked_assignments : list LockedAssignment;
  soft_locks : list SoftLock
}.

Record ValidationError := mkError {
  code : string;
  message : string
}.

(** An assignment option, the 4-tuple
    [(pattern_id, timeslot_set, room_id, room_waste)] of the source. *)
Record AssignOption := mkOption {
  opt_pattern : string;
  opt_slots : list string;
  opt_room : string;
  opt_waste : Z
}.

(** ** Python values: truthiness, membership, sets, dicts *)

(** [if s:] on an [Optional[str]]. *)
Definition truthy_str (o : option string) : option string :=
  match o with
  | Some s => if String.eqb s "" then None else Some s
  | None => None
  end.

(** [if l:] on an [Optional[List[str]]]. *)
Definition truthy_list (o : option (list string)) : option (list string) :=
  match o with
  | Some [] => None
  | Some l => Some l
  | None => None
  end.

(** [if n:] on an [Optional[int]]. *)
Definition truthy_int (o : option Z) : option Z :=
  match o with
  | Some n => if Z.eqb n 0 then None else Some n
  | None => None
  end.

(** [x in l] for strings. *)
Definition mem (x : string) (l : list string) : bool :=
  existsb (String.eqb x) l.

(** [set(a) == set(b)]. *)
Definition same_set (a b : list string) : bool :=
  forallb (fun x => mem x b) a && forallb (fun x => mem x a) b.

(** Tuple equality [a == b] on tuples of strings. *)
Fixpoint tuple_eqb (a b : list string) : bool :=
  match a, b with
  | [], [] => true
  | x :: a', y :: b' => String.eqb x y && tuple_eqb a' b'
  | _, _ => false
  end.

Definition dict (V : Type) := list (string * V).

Fixpoint dict_get {V} (k : string) (d : dict V) : option V :=
  match d with
  | [] => None
  | (k', v) :: r => if String.eqb k k' then Some v else dict_get k r
  end.

(** [d[k] = v]. *)
Fixpoint dict_set {V} (k : string) (v : V) (d : dict V) : dict V :=
  match d with
  | [] => [(k, v)]
  | (k', v') :: r =>
      if String.eqb k k' then (k', v) :: r else (k', v') :: dict_set k v r
  end.

Definition dict_get_default {V} (k : string) (dflt : V) (d : dict V) : V :=
  match dict_get k d with Some v => v | None => dflt end.

(** [{key(x): x for x in xs}]. *)
Definition dict_of {A} (key : A -> string) (xs : list A) : dict A :=
  fold_left (fun d x => dict_set (key x) x d) xs [].

Definition dict_keys {V} (d : dict V) : list string := map fst d.

(** [enumerate(l)]. *)
Fixpoint enumerate_from {A} (n : nat) (l : list A) : list (nat * A) :=
  match l with
  | [] => []
  | x :: r => (n, x) :: enumerate_from (S n) r
  end.

Definition enumerate {A} (l : list A) : list (nat * A) := enumerate_from 0 l.

(** [str(n)] for an [int]. *)
Definition show_Z (z : Z) : string := NilZero.string_of_int (Z.to_int z).

(** ** Pre-validator *)

(** [all(feature in room.features for feature in required)]. *)
Definition _has_required_features (room : Room) (required : list string) : bool :=
  forallb (fun feature => mem feature (features room)) required.

(** [totals.setdefault(g, 0); totals[g] += e]. *)
Definition totals_add (totals : dict Z) (s : CourseSection) : dict Z :=
  match truthy_str (crosslist_group_id s) with
  | Some g => dict_set g (dict_get_default g 0 totals + expected_enrollment s) totals
  | None => totals
  end.

Definition _build_crosslist_totals (secs : list CourseSection) : dict Z :=
  fold_left totals_add secs [].

(** [max((room.capacity for room in rooms), default=0)]. *)
Definition max_room_capacity (rs : list Room) : Z :=
  match rs with
  | [] => 0
  | r :: rest => fold_left (fun m r' => Z.max m (capacity r')) rest (capacity r)
  end.

Definition crosslist_capacity_error (g : string) (total maxcap : Z) : ValidationError :=
  mkError "crosslist_capacity"
    ("Cross-list group " ++ g ++ " requires capacity " ++ show_Z total ++
     ", but max room is " ++ show_Z maxcap ++ ".").

Definition _validate_crosslist_capacity
    (crosslists : list CrossListGroup) (secs : list CourseSection)
    (rs : list Room) : list ValidationError :=
  let maxcap := max_room_capacity rs in
  let total_by_group := _build_crosslist_totals secs in
  fold_left
    (fun errors group =>
       let total := dict_get_default (xl_id group) 0 total_by_group in
       if total >? maxcap
       then (errors ++ [crosslist_capacity_error (xl_id group) total maxcap])%list
       else errors)
    crosslists [].

(** ** Option generator *)

Record Flags := mkFlags {
  ignore_blocked_times : bool;
  ignore_locks : bool;
  ignore_room_capacity : bool;
  ignore_room_features : bool;
  ignore_crosslist_capacity : bool
}.

Definition no_flags : Flags := mkFlags false false false false false.

Definition locked_by_section (fl : Flags) (inp : SchedulingInput)
  : dict LockedAssignment :=
  if ignore_locks fl then [] else dict_of lock_section_id (locked_assignments inp).

(** The set comprehension over [blocked_times], kept as the list of its
    elements. *)
Definition blocked_times_global (fl : Flags) (inp : SchedulingInput) : list string :=
  flat_map
    (fun blocked =>
       if String.eqb (scope blocked) "global" && negb (ignore_blocked_times fl)
       then timeslot_ids blocked else [])
    (blocked_times inp).

(** The rooms that pass the capacity and feature tests (first loop), then
    the cross-list aggregate capacity filter. *)
Definition available_rooms (fl : Flags) (inp : SchedulingInput)
    (crosslist_totals : dict Z) (s : CourseSection) : list Room :=
  let base :=
    filter
      (fun room =>
         if negb (ignore_room_capacity fl) && (capacity room <? expected_enrollment s)
         then false
         else if negb (ignore_room_features fl)
                 && negb (_has_required_features room (room_requirements s))
         then false
         else true)
      (rooms inp) in
  match truthy_str (crosslist_group_id s) with
  | Some g =>
      let required_capacity := dict_get_default g 0 crosslist_totals in
      if negb (ignore_crosslist_capacity fl) && negb (ignore_room_capacity fl)
      then filter (fun room => capacity room >=? required_capacity) base
      else base
  | None => base
  end.

(** [lock and lock.fixed_timeslot_set and set(...) != set(timeslot_set)]. *)
Definition lock_rejects_slots (lock : option LockedAssignment)
    (timeslot_set : list string) : bool :=
  match lock with
  | Some l =>
      match truthy_list (fixed_timeslot_set l) with
      | Some fts => negb (same_set fts timeslot_set)
      | None => false
      end
  | None => false
  end.

(** [lock and lock.fixed_room and room.id != lock.fixed_room]. *)
Definition lock_rejects_room (lock : option LockedAssignment) (room : Room) : bool :=
  match lock with
  | Some l =>
      match truthy_str (fixed_room l) with
      | Some fr => negb (String.eqb (room_id room) fr)
      | None => false
      end
  | None => false
  end.

(** The body of the loop over [section.allowed_meeting_patterns]. *)
Definition section_options (fl : Flags) (inp : SchedulingInput)
    (s : CourseSection) : list AssignOption :=
  let pattern_by_id := dict_of pat_id (meeting_patterns inp) in
  let lock := dict_get (sec_id s) (locked_by_section fl inp) in
  let blocked := blocked_times_global fl inp in
  let avail := available_rooms fl inp (_build_crosslist_totals (sections inp)) s in
  flat_map
    (fun pattern_id =>
       match dict_get pattern_id pattern_by_id with
       | None => []
       | Some pattern =>
           flat_map
             (fun timeslot_set =>
                if existsb (fun slot => mem slot blocked) timeslot_set then []
                else if lock_rejects_slots lock timeslot_set then []
                else
                  flat_map
                    (fun room =>
                       if lock_rejects_room lock room then []
                       else [mkOption pattern_id timeslot_set (room_id room)
                               (capacity room - expected_enrollment s)])
                    avail)
             (compatible_timeslot_sets pattern)
       end)
    (allowed_meeting_patterns s).

Definition no_feasible_options_error (sid : string) : ValidationError :=
  mkError "no_feasible_options"
    ("Section " ++ sid ++ " has no feasible assignment options.").

Definition is_nil {A} (l : list A) : bool :=
  match l with [] => true | _ => false end.

(** One iteration of the loop over the sections on the pair
    [(options_by_section, errors)]. *)
Definition build_options_step (fl : Flags) (inp : SchedulingInput)
    (acc : dict (list AssignOption) * list ValidationError)
    (s : CourseSection) : dict (list AssignOption) * list ValidationError :=
  let opts := section_options fl inp s in
  let errors :=
    if is_nil opts then (snd acc ++ [no_feasible_options_error (sec_id s)])%list
    else snd acc in
  (dict_set (sec_id s) opts (fst acc), errors).

Definition _build_options (fl : Flags) (inp : SchedulingInput)
  : dict (list AssignOption) * list ValidationError :=
  fold_left (build_options_step fl inp) (sections inp) ([], []).

(** ** CP models

    The variables the source creates and the constraints it adds.  A
    variable is identified by the place that creates it: [NewBoolVar] and
    [NewIntVar] return a fresh variable at each call, whatever its name. *)

Inductive var :=
| OptVar (sid : string) (idx : nat)
    (** [opt_{section_id}_{idx}], the entry [(section_id, idx)] of [option_vars] *)
| RoomUse (ri ti : nat) (key : string)
    (** [room_use_...], created for the [ri]-th room, the [ti]-th timeslot
        and the roomshare key [key] *)
| DayVar (ii : nat) (d : string)
    (** [day_{instructor}_{day}], created for the [ii]-th instructor *)
| Excess (ii : nat)
    (** [excess_{instructor}], created for the [ii]-th instructor *).

Definition var_eqb (a b : var) : bool :=
  match a, b with
  | OptVar s i, OptVar s' i' => String.eqb s s' && Nat.eqb i i'
  | RoomUse r t k, RoomUse r' t' k' => Nat.eqb r r' && Nat.eqb t t' && String.eqb k k'
  | DayVar i d, DayVar i' d' => Nat.eqb i i' && String.eqb d d'
  | Excess i, Excess i' => Nat.eqb i i'
  | _, _ => false
  end.

Inductive constr :=
| SumEq1 (vs : list var)                      (** [sum(vs) == 1] *)
| SumLe1 (vs : list var)                      (** [sum(vs) <= 1] *)
| VarGe (a b : var)                           (** [a >= b] *)
| ExcessGe (e : var) (ds : list var) (m : Z)  (** [e >= sum(ds) - m] *)
| NonNeg (e : var)                            (** [e >= 0] *).

Record CpModel := mkModel {
  cp_vars : list (var * (Z * Z));     (** each variable with its domain [lo, hi] *)
  cp_constraints : list constr;
  cp_objective : list (Z * var)       (** the terms [var * coefficient] of [Minimize] *)
}.

Definition valuation := var -> Z.

Definition sum_vars (v : valuation) (vs : list var) : Z :=
  fold_right (fun x acc => v x + acc) 0 vs.

Definition holds (v : valuation) (c : constr) : bool :=
  match c with
  | SumEq1 vs => sum_vars v vs =? 1
  | SumLe1 vs => sum_vars v vs <=? 1
  | VarGe a b => v a >=? v b
  | ExcessGe e ds m => v e >=? sum_vars v ds - m
  | NonNeg e => v e >=? 0
  end.

Definition in_domain (v : valuation) (d : var * (Z * Z)) : bool :=
  (fst (snd d) <=? v (fst d)) && (v (fst d) <=? snd (snd d)).

(** [v] is a solution of the model: every variable in its domain, every
    constraint satisfied. *)
Definition model_sat (v : valuation) (m : CpModel) : bool :=
  forallb (in_domain v) (cp_vars m) && forallb (holds v) (cp_constraints m).

Definition objective_value (v : valuation) (m : CpModel) : Z :=
  fold_right (fun t acc => fst t * v (snd t) + acc) 0 (cp_objective m).

Definition bool_var (x : var) : var * (Z * Z) := (x, (0, 1)).

(** ** Constraint model builder *)

(** The items of [option_vars] / [option_data], in insertion order. *)
Definition option_items (opts : dict (list AssignOption))
  : list (string * nat * AssignOption) :=
  flat_map
    (fun so => map (fun io => (fst so, fst io, snd io)) (enumerate (snd so)))
    opts.

Definition item_var (it : string * nat * AssignOption) : var :=
  OptVar (fst (fst it)) (snd (fst it)).

(** One option must be selected per section. *)
Definition one_per_section (opts : dict (list AssignOption)) : list constr :=
  map (fun so => SumEq1 (map (fun io => OptVar (fst so) (fst io)) (enumerate (snd so))))
      opts.

(** The set [crosslist_roomshare]. *)
Definition crosslist_roomshare (inp : SchedulingInput) : list string :=
  map xl_id (filter require_same_room (crosslist_groups inp)).

Definition roomshare_key (inp : SchedulingInput) (s : CourseSection) : string :=
  match crosslist_group_id s with
  | Some g => if mem g (crosslist_roomshare inp) then g else "sec:" ++ sec_id s
  | None => "sec:" ++ sec_id s
  end.

Definition section_to_roomshare_group (inp : SchedulingInput) : dict string :=
  fold_left (fun d s => dict_set (sec_id s) (roomshare_key inp s) d) (sections inp) [].

(** [room_id == room.id and timeslot.id in timeslot_set]. *)
Definition uses (o : AssignOption) (r t : string) : bool :=
  String.eqb (opt_room o) r && mem t (opt_slots o).

(** The body of the loop that fills [vars_by_group]:
    [vars_by_group.setdefault(group_key, []).append(var)] for the options
    that use the room at the timeslot. *)
Definition vars_by_group_step (keys : dict string) (r t : string)
    (d : dict (list var)) (it : string * nat * AssignOption) : dict (list var) :=
  if uses (snd it) r t
  then let group_key := dict_get_default (fst (fst it)) "" keys in
       dict_set group_key (dict_get_default group_key [] d ++ [item_var it])%list d
  else d.

(** [vars_by_group] for one room and one timeslot. *)
Definition vars_by_group (keys : dict string)
    (items : list (string * nat * AssignOption)) (r t : string)
  : dict (list var) :=
  fold_left (vars_by_group_step keys r t) items [].

Definition room_cell_vars (ri ti : nat) (buckets : dict (list var))
  : list (var * (Z * Z)) :=
  map (fun b => bool_var (RoomUse ri ti (fst b))) buckets.

Definition room_cell_constraints (ri ti : nat) (buckets : dict (list var))
  : list constr :=
  match buckets with
  | [] => []
  | _ =>
      (flat_map (fun b => map (fun x => VarGe (RoomUse ri ti (fst b)) x) (snd b)) buckets
       ++ [SumLe1 (map (fun b => RoomUse ri ti (fst b)) buckets)])%list
  end.

(** All (room, timeslot) cells with their positions in the input lists. *)
Definition cells (inp : SchedulingInput) : list ((nat * Room) * (nat * Timeslot)) :=
  flat_map (fun r => map (fun t => (r, t)) (enumerate (timeslots inp)))
           (enumerate (rooms inp)).

Definition cell_buckets (inp : SchedulingInput)
    (items : list (string * nat * AssignOption))
    (c : (nat * Room) * (nat * Timeslot)) : dict (list var) :=
  vars_by_group (section_to_roomshare_group inp) items
    (room_id (snd (fst c))) (slot_id (snd (snd c))).

(** Room usage of the optimization model: overlaps are prevented across
    different roomshare groups. *)
Definition room_usage_vars (inp : SchedulingInput)
    (items : list (string * nat * AssignOption)) : list (var * (Z * Z)) :=
  flat_map (fun c => room_cell_vars (fst (fst c)) (fst (snd c)) (cell_buckets inp items c))
           (cells inp).

Definition room_usage_constraints (inp : SchedulingInput)
    (items : list (string * nat * AssignOption)) : list constr :=
  flat_map
    (fun c => room_cell_constraints (fst (fst c)) (fst (snd c)) (cell_buckets inp items c))
    (cells inp).

(** [model.Add(sum(vars_for_slot) <= 1)] under [if vars_for_slot:]. *)
Definition at_most_one (vs : list var) : list constr :=
  match vs with [] => [] | _ => [SumLe1 vs] end.

(** Room usage of the feasibility check: one sum per (room, timeslot). *)
Definition room_conflict_constraints (inp : SchedulingInput)
    (items : list (string * nat * AssignOption)) : list constr :=
  flat_map
    (fun room =>
       flat_map
         (fun timeslot =>
            at_most_one
              (map item_var
                 (filter (fun it => uses (snd it) (room_id room) (slot_id timeslot))
                         items)))
         (timeslots inp))
    (rooms inp).

Definition sections_by_id (inp : SchedulingInput) : dict CourseSection :=
  dict_of sec_id (sections inp).

Definition instructors_by_id (inp : SchedulingInput) : dict Instructor :=
  dict_of inst_id (instructors inp).

(** [sections_by_id[section_id].instructor_id]; the key is always present
    for the section ids of [option_vars]. *)
Definition item_instructor_id (inp : SchedulingInput) (sid : string) : option string :=
  option_map instructor_id (dict_get sid (sections_by_id inp)).

Definition instructor_constraints (inp : SchedulingInput)
    (items : list (string * nat * AssignOption)) : list constr :=
  flat_map
    (fun instructor =>
       flat_map
         (fun timeslot =>
            at_most_one
              (map item_var
                 (filter
                    (fun it =>
                       match item_instructor_id inp (fst (fst it)) with
                       | Some iid =>
                           String.eqb iid (inst_id instructor)
                           && mem (slot_id timeslot) (opt_slots (snd it))
                       | None => false
                       end)
                    items)))
         (timeslots inp))
    (instructors inp).

Definition no_overlap_constraints (inp : SchedulingInput)
    (opts : dict (list AssignOption)) : list constr :=
  flat_map
    (fun group =>
       flat_map
         (fun timeslot =>
            at_most_one
              (flat_map
                 (fun section_id =>
                    flat_map
                      (fun io =>
                         if mem (slot_id timeslot) (opt_slots (snd io))
                         then [OptVar section_id (fst io)] else [])
                      (enumerate (dict_get_default section_id [] opts)))
                 (nol_member_section_ids group)))
         (timeslots inp))
    (no_overlap_groups inp).

(** [for i, section_a in enumerate(members): for section_b in members[i + 1:]]. *)
Fixpoint member_pairs (members : list string) : list (string * string) :=
  match members with
  | [] => []
  | a :: rest => (map (fun b => (a, b)) rest ++ member_pairs rest)%list
  end.

Definition crosslist_pair_constraints (same_room : bool)
    (opts : dict (list AssignOption)) (ab : string * string) : list constr :=
  flat_map
    (fun ia =>
       flat_map
         (fun ib =>
            if negb (tuple_eqb (opt_slots (snd ia)) (opt_slots (snd ib)))
            then [SumLe1 [OptVar (fst ab) (fst ia); OptVar (snd ab) (fst ib)]]
            else if same_room && negb (String.eqb (opt_room (snd ia)) (opt_room (snd ib)))
            then [SumLe1 [OptVar (fst ab) (fst ia); OptVar (snd ab) (fst ib)]]
            else [])
         (enumerate (dict_get_default (snd ab) [] opts)))
    (enumerate (dict_get_default (fst ab) [] opts)).

Definition crosslist_constraints (inp : SchedulingInput)
    (opts : dict (list AssignOption)) : list constr :=
  flat_map
    (fun group =>
       flat_map (crosslist_pair_constraints (require_same_room group) opts)
                (member_pairs (xl_member_section_ids group)))
    (crosslist_groups inp).

(** ** Objective builder *)

(** [sorted({slot.day for slot in timeslots})]. *)
Fixpoint insert_sorted (x : string) (l : list string) : list string :=
  match l with
  | [] => [x]
  | y :: r =>
      match String.compare x y with
      | Lt => x :: l
      | Eq => l
      | Gt => y :: insert_sorted x r
      end
  end.

Definition unique_days (inp : SchedulingInput) : list string :=
  fold_left (fun l t => insert_sorted (day t) l) (timeslots inp) [].

(** The guard of the adjunct loop:
    [rank_type != "Adjunct" or not preferences.max_teaching_days] skips the
    instructor; otherwise [max_days] is returned. *)
Definition adjunct_max_days (i : Instructor) : option Z :=
  if negb (String.eqb (rank_type i) "Adjunct") then None
  else truthy_int (max_teaching_days (preferences i)).

(** A dict keyed by pairs of strings, as [instructor_day_vars]. *)
Definition pdict (V : Type) := list ((string * string) * V).

Definition pair_eqb (a b : string * string) : bool :=
  String.eqb (fst a) (fst b) && String.eqb (snd a) (snd b).

Fixpoint pd_get {V} (k : string * string) (d : pdict V) : option V :=
  match d with
  | [] => None
  | (k', v) :: r => if pair_eqb k k' then Some v else pd_get k r
  end.

Fixpoint pd_set {V} (k : string * string) (v : V) (d : pdict V) : pdict V :=
  match d with
  | [] => [(k, v)]
  | (k', v') :: r =>
      if pair_eqb k k' then (k', v) :: r else (k', v') :: pd_set k v r
  end.

Definition instructor_day_vars (inp : SchedulingInput) : pdict var :=
  fold_left
    (fun d ii =>
       match adjunct_max_days (snd ii) with
       | Some _ =>
           fold_left (fun d' dy => pd_set (inst_id (snd ii), dy) (DayVar (fst ii) dy) d')
                     (unique_days inp) d
       | None => d
       end)
    (enumerate (instructors inp)) [].

Definition adjunct_day_excess_vars (inp : SchedulingInput) : dict var :=
  fold_left
    (fun d ii =>
       match adjunct_max_days (snd ii) with
       | Some _ => dict_set (inst_id (snd ii)) (Excess (fst ii)) d
       | None => d
       end)
    (enumerate (instructors inp)) [].

Definition adjunct_vars (inp : SchedulingInput) : list (var * (Z * Z)) :=
  flat_map
    (fun ii =>
       match adjunct_max_days (snd ii) with
       | Some _ =>
           (map (fun dy => bool_var (DayVar (fst ii) dy)) (unique_days inp)
            ++ [(Excess (fst ii), (0, Z.of_nat (List.length (unique_days inp))))])%list
       | None => []
       end)
    (enumerate (instructors inp)).

Definition adjunct_constraints (inp : SchedulingInput) : list constr :=
  flat_map
    (fun ii =>
       match adjunct_max_days (snd ii) with
       | Some max_days =>
           [ExcessGe (Excess (fst ii)) (map (DayVar (fst ii)) (unique_days inp)) max_days;
            NonNeg (Excess (fst ii))]
       | None => []
       end)
    (enumerate (instructors inp)).

Definition adjunct_terms (inp : SchedulingInput) : list (Z * var) :=
  flat_map
    (fun ii =>
       match adjunct_max_days (snd ii) with
       | Some _ => [(ADJUNCT_DAY_EXCESS_WEIGHT, Excess (fst ii))]
       | None => []
       end)
    (enumerate (instructors inp)).

(** [{slot.id: slot.day for slot in timeslots}]. *)
Definition _timeslot_days (ts : list Timeslot) : dict string :=
  fold_left (fun d t => dict_set (slot_id t) (day t) d) ts [].

(** The elements of a Python set built from a list (the iteration order of
    a Python set is unspecified; duplicates are removed). *)
Fixpoint set_of (l : list string) : list string :=
  match l with
  | [] => []
  | x :: r => if mem x r then set_of r else x :: set_of r
  end.

(** [[timeslot_day[slot_id] for slot_id in timeslot_set]]; [None] is the
    [KeyError] of a slot id that no timeslot carries. *)
Fixpoint lookup_days (td : dict string) (slots : list string) : option (list string) :=
  match slots with
  | [] => Some []
  | s :: r =>
      match dict_get s td, lookup_days td r with
      | Some d, Some ds => Some (d :: ds)
      | _, _ => None
      end
  end.

Definition option_days (inp : SchedulingInput) (o : AssignOption) : option (list string) :=
  option_map set_of (lookup_days (_timeslot_days (timeslots inp)) (opt_slots o)).

(** [instructors_by_id.get(section.instructor_id)] for the section
    [sections_by_id[section_id]]; the outer [None] is the [KeyError] of an
    unknown section id. *)
Definition item_instructor (inp : SchedulingInput) (sid : string)
  : option (option Instructor) :=
  match dict_get sid (sections_by_id inp) with
  | Some s => Some (dict_get (instructor_id s) (instructors_by_id inp))
  | None => None
  end.

Definition pref_day_penalty (instructor : option Instructor) (days : list string) : Z :=
  let preferred := match instructor with
                   | Some i => preferred_days (preferences i)
                   | None => []
                   end in
  if existsb (fun d => mem d preferred) days then 0 else PREF_DAY_WEIGHT.

Definition pref_pattern_penalty (instructor : option Instructor) (pattern_id : string) : Z :=
  let preferred := match instructor with
                   | Some i => preferred_patterns (preferences i)
                   | None => []
                   end in
  if mem pattern_id preferred then 0 else PREF_PATTERN_WEIGHT.

(** [total_penalty] of one option. *)
Definition total_penalty (instructor : option Instructor) (days : list string)
    (o : AssignOption) : Z :=
  opt_waste o * ROOM_WASTE_WEIGHT + pref_day_penalty instructor days
  + pref_pattern_penalty instructor (opt_pattern o).

(** The term [var * total_penalty] of one entry of [option_vars]. *)
Definition option_term (inp : SchedulingInput) (it : string * nat * AssignOption)
  : option (Z * var) :=
  match item_instructor inp (fst (fst it)), option_days inp (snd it) with
  | Some instructor, Some days => Some (total_penalty instructor days (snd it), item_var it)
  | _, _ => None
  end.

(** Link a chosen option to the adjunct day usage. *)
Definition option_day_links (inp : SchedulingInput) (it : string * nat * AssignOption)
  : option (list constr) :=
  match item_instructor inp (fst (fst it)), option_days inp (snd it) with
  | Some instructor, Some days =>
      Some
        match instructor with
        | Some i =>
            if String.eqb (rank_type i) "Adjunct"
            then flat_map
                   (fun dy =>
                      match pd_get (inst_id i, dy) (instructor_day_vars inp) with
                      | Some day_var => [VarGe day_var (item_var it)]
                      | None => []
                      end)
                   days
            else []
        | None => []
        end
  | _, _ => None
  end.

(** Run a fallible step over a list; the first failure aborts. *)
Fixpoint traverse {A B} (f : A -> option B) (l : list A) : option (list B) :=
  match l with
  | [] => Some []
  | x :: r =>
      match f x, traverse f r with
      | Some y, Some ys => Some (y :: ys)
      | _, _ => None
      end
  end.

Definition soft_lock_by_section (inp : SchedulingInput) : dict SoftLock :=
  dict_of soft_section_id (soft_locks inp).

Definition time_mismatch (sl : SoftLock) (o : AssignOption) : bool :=
  match truthy_list (preferred_timeslot_set sl) with
  | Some pts => negb (same_set (opt_slots o) pts)
  | None => false
  end.

Definition room_mismatch (sl : SoftLock) (o : AssignOption) : bool :=
  match truthy_str (preferred_room sl) with
  | Some pr => negb (String.eqb (opt_room o) pr)
  | None => false
  end.

(** The accumulated [soft_penalty] of one option. *)
Definition soft_penalty (sl : SoftLock) (o : AssignOption) : Q :=
  let p0 := 0%Q in
  let p1 := if time_mismatch sl o
            then (p0 + weight sl * inject_Z SOFT_LOCK_BASE_WEIGHT)%Q else p0 in
  if room_mismatch sl o
  then (p1 + weight sl * inject_Z SOFT_LOCK_BASE_WEIGHT)%Q else p1.

(** [int(x)] on a float: truncation toward zero. *)
Definition int_of (x : Q) : Z := Z.quot (Qnum x) (Zpos (Qden x)).

(** [x > 0]. *)
Definition Qpositive (x : Q) : bool := 0 <? Qnum x.

(** The soft-lock term of one entry of [option_vars], when one is appended.
    For a finite weight [w] the float penalty of the source is [w] or
    [w + w] exactly, unless [w + w] overflows a double: then
    [int(soft_penalty)] raises [OverflowError], a path that is outside the
    model. *)
Definition soft_lock_term (inp : SchedulingInput) (it : string * nat * AssignOption)
  : option (Z * var) :=
  match dict_get (fst (fst it)) (soft_lock_by_section inp) with
  | None => None
  | Some soft_lock =>
      let p := soft_penalty soft_lock (snd it) in
      if Qpositive p then Some (int_of p, item_var it) else None
  end.

Definition soft_lock_terms (inp : SchedulingInput)
    (items : list (string * nat * AssignOption)) : list (Z * var) :=
  flat_map (fun it => match soft_lock_term inp it with Some t => [t] | None => [] end)
           items.

(** The hard constraints of the optimization model. *)
Definition hard_constraints (inp : SchedulingInput) (opts : dict (list AssignOption))
  : list constr :=
  let items := option_items opts in
  (one_per_section opts
   ++ room_usage_constraints inp items
   ++ instructor_constraints inp items
   ++ no_overlap_constraints inp opts
   ++ crosslist_constraints inp opts)%list.

(** The model [_solve_schedule] hands to the solver for the options
    [opts]; [None] when its construction raises the [KeyError] of
    [timeslot_day[slot_id]].  Failures of the arithmetic (a soft penalty
    that overflows a double, numbers beyond the integers of the solver)
    are outside the model. *)
Definition build_model (inp : SchedulingInput) (opts : dict (list AssignOption))
  : option CpModel :=
  let items := option_items opts in
  match traverse (option_term inp) items, traverse (option_day_links inp) items with
  | Some terms, Some links =>
      Some
        (mkModel
           (map (fun it => bool_var (item_var it)) items
            ++ room_usage_vars inp items
            ++ adjunct_vars inp)%list
           (hard_constraints inp opts
            ++ adjunct_constraints inp
            ++ List.concat links)%list
           (adjunct_terms inp ++ terms ++ soft_lock_terms inp items)%list)
  | _, _ => None
  end.

(** ** Infeasibility diagnoser *)

Definition relax_flags (relax : list string) : Flags :=
  mkFlags (mem "blocked_times" relax) (mem "locks" relax)
          (mem "room_capacity" relax) (mem "room_features" relax)
          (mem "crosslist_capacity" relax).

(** The hard-constraint model [_check_feasible] hands to the solver;
    [None] when it returns [False] before building one. *)
Definition check_feasible_model (inp : SchedulingInput) (relax : list string)
  : option CpModel :=
  let errors :=
    if mem "crosslist_capacity" relax then []
    else _validate_crosslist_capacity (crosslist_groups inp) (sections inp) (rooms inp) in
  if negb (is_nil errors) then None
  else
    let built := _build_options (relax_flags relax) inp in
    if negb (is_nil (snd built)) then None
    else
      let opts := fst built in
      let items := option_items opts in
      Some
        (mkModel
           (map (fun it => bool_var (item_var it)) items)
           (one_per_section opts
            ++ (if mem "room_conflicts" relax then []
                else room_conflict_constraints inp items)
            ++ (if mem "instructor_conflicts" relax then []
                else instructor_constraints inp items)
            ++ (if mem "no_overlap_groups" relax then []
                else no_overlap_constraints inp opts)
            ++ (if mem "crosslist_time_room" relax then []
                else crosslist_constraints inp opts))%list
           []).

Definition _strip_section (inp : SchedulingInput) (section_id : string)
  : SchedulingInput :=
  let keep := fun sid => negb (String.eqb sid section_id) in
  mkInput
    (filter (fun s => keep (sec_id s)) (sections inp))
    (instructors inp) (rooms inp) (timeslots inp) (meeting_patterns inp)
    (flat_map
       (fun g =>
          let members := filter keep (xl_member_section_ids g) in
          if (2 <=? List.length members)%nat
          then [mkCrossList (xl_id g) members (require_same_room g)] else [])
       (crosslist_groups inp))
    (flat_map
       (fun g =>
          let members := filter keep (nol_member_section_ids g) in
          if (2 <=? List.length members)%nat
          then [mkNoOverlap (nol_id g) members (nol_reason g)] else [])
       (no_overlap_groups inp))
    (blocked_times inp)
    (filter (fun l => keep (lock_section_id l)) (locked_assignments inp))
    (filter (fun l => keep (soft_section_id l)) (soft_locks inp)).

Definition relax_candidates : list (string * string) :=
  [("blocked_times", "Blocked time constraints");
   ("locks", "Locked assignments");
   ("room_capacity", "Room capacity");
   ("room_features", "Room feature requirements");
   ("crosslist_capacity", "Cross-list capacity");
   ("room_conflicts", "Room overlap constraints");
   ("instructor_conflicts", "Instructor overlap constraints");
   ("no_overlap_groups", "No-overlap groups");
   ("crosslist_time_room", "Cross-list time/room equality")].

(** ** Result assembler *)

Record ScheduleAssignment := mkAssignment {
  asg_section_id : string;
  meeting_pattern_id : string;
  asg_timeslot_ids : list string;
  asg_room_id : string
}.

(** The entries are Python floats.  The model adds them as exact
    rationals, which is what the source computes whenever its float sums
    are exact, in particular when every value added is an integer and the
    sums stay within 2^53 in magnitude. *)
Record PenaltyBreakdown := mkBreakdown {
  room_waste : Q;
  instructor_day_preference : Q;
  instructor_pattern_preference : Q;
  adjunct_day_excess : Q;
  soft_lock_time : Q;
  soft_lock_room : Q
}.

Record ScheduleSolution := mkSolution {
  assignments : list ScheduleAssignment;
  total_score : Q;
  penalty_breakdown : PenaltyBreakdown;
  explanations : list string
}.

Definition zero_breakdown : PenaltyBreakdown := mkBreakdown 0 0 0 0 0 0.

(** [sum(penalty_breakdown.values())], in exact arithmetic. *)
Definition breakdown_sum (b : PenaltyBreakdown) : Q :=
  (0 + room_waste b + instructor_day_preference b + instructor_pattern_preference b
   + adjunct_day_excess b + soft_lock_time b + soft_lock_room b)%Q.

(** The first index of [options] whose variable has value 1. *)
Definition chosen_idx (v : valuation) (sid : string) (options : list AssignOption)
  : option nat :=
  find (fun idx => v (OptVar sid idx) =? 1) (seq 0 (List.length options)).

(** What one section adds to the breakdown for its chosen option, in exact
    arithmetic. *)
Definition add_option_penalties (inp : SchedulingInput) (sid : string)
    (instructor : option Instructor) (days : list string) (o : AssignOption)
    (b : PenaltyBreakdown) : PenaltyBreakdown :=
  let soft := dict_get sid (soft_lock_by_section inp) in
  let soft_amount (mismatch : SoftLock -> AssignOption -> bool) :=
    match soft with
    | Some sl =>
        if mismatch sl o then (weight sl * inject_Z SOFT_LOCK_BASE_WEIGHT)%Q else 0%Q
    | None => 0%Q
    end in
  mkBreakdown
    (room_waste b + inject_Z (opt_waste o * ROOM_WASTE_WEIGHT))%Q
    (instructor_day_preference b + inject_Z (pref_day_penalty instructor days))%Q
    (instructor_pattern_preference b
     + inject_Z (pref_pattern_penalty instructor (opt_pattern o)))%Q
    (adjunct_day_excess b)
    (soft_lock_time b + soft_amount time_mismatch)%Q
    (soft_lock_room b + soft_amount room_mismatch)%Q.

Definition explanation (sid : string) (o : AssignOption) : string :=
  "Section " ++ sid ++ " assigned to " ++ opt_room o ++ " at "
  ++ String.concat ", " (opt_slots o) ++ ".".

(** One iteration of the loop over [options_by_section.items()]; [None]
    is a [KeyError]. *)
Definition assemble_step (inp : SchedulingInput) (v : valuation)
    (acc : option (list ScheduleAssignment * list string * PenaltyBreakdown))
    (so : string * list AssignOption)
  : option (list ScheduleAssignment * list string * PenaltyBreakdown) :=
  match acc with
  | None => None
  | Some (asgs, expl, b) =>
      match chosen_idx v (fst so) (snd so) with
      | None => Some (asgs, expl, b)
      | Some idx =>
          match nth_error (snd so) idx with
          | None => None
          | Some o =>
              match item_instructor inp (fst so), option_days inp o with
              | Some instructor, Some days =>
                  Some
                    ((asgs ++ [mkAssignment (fst so) (opt_pattern o) (opt_slots o)
                                 (opt_room o)])%list,
                     (expl ++ [explanation (fst so) o])%list,
                     add_option_penalties inp (fst so) instructor days o b)
              | _, _ => None
              end
          end
      end
  end.

(** One iteration of the loop over [adjunct_day_excess_vars.items()]. *)
Definition add_excess_step (v : valuation) (b : PenaltyBreakdown) (kv : string * var)
  : PenaltyBreakdown :=
  let excess_days := v (snd kv) in
  if excess_days =? 0 then b
  else mkBreakdown (room_waste b) (instructor_day_preference b)
         (instructor_pattern_preference b)
         (adjunct_day_excess b + inject_Z (excess_days * ADJUNCT_DAY_EXCESS_WEIGHT))%Q
         (soft_lock_time b) (soft_lock_room b).

Definition add_excess (inp : SchedulingInput) (v : valuation) (b : PenaltyBreakdown)
  : PenaltyBreakdown :=
  fold_left (add_excess_step v) (adjunct_day_excess_vars inp) b.

Definition assemble (inp : SchedulingInput) (opts : dict (list AssignOption))
    (v : valuation) : option ScheduleSolution :=
  match fold_left (assemble_step inp v) opts (Some ([], [], zero_breakdown)) with
  | None => None
  | Some (asgs, expl, b) =>
      let b' := add_excess inp v b in
      Some (mkSolution asgs (breakdown_sum b') b' expl)
  end.

(** ** The solve entry point *)

Record Diagnostics := mkDiagnostics {
  feasible_if_relax : list string;
  feasible_if_remove_section : list string
}.

Inductive Response :=
| RespError (errors : list ValidationError)
    (** [{"status": "error", "errors": errors}] *)
| RespInfeasible (diagnostics : Diagnostics)
    (** the error [infeasible] with its diagnostics *)
| RespOk (solution : ScheduleSolution)
    (** [{"status": "ok", ...}] *).

Section Solver.

(** The solver: [Some v] when its status is [OPTIMAL] or [FEASIBLE], with
    [v] the values it reports; [None] otherwise.  The first argument is
    [max_time_in_seconds] in tenths of a second. *)
Variable solve : Z -> CpModel -> option valuation.

Definition _check_feasible (inp : SchedulingInput) (relax : list string) : bool :=
  match check_feasible_model inp relax with
  | None => false
  | Some m => match solve 20 m with Some _ => true | None => false end
  end.

Definition _diagnose_infeasibility (inp : SchedulingInput) : Diagnostics :=
  mkDiagnostics
    (map snd (filter (fun c => _check_feasible inp [fst c]) relax_candidates))
    (map sec_id
         (filter (fun s => _check_feasible (_strip_section inp (sec_id s)) [])
                 (sections inp))).

(** [None] is an exception escaping the function. *)
Definition _solve_schedule (inp : SchedulingInput) : option Response :=
  let built := _build_options no_flags inp in
  let errors :=
    (_validate_crosslist_capacity (crosslist_groups inp) (sections inp) (rooms inp)
     ++ snd built)%list in
  if negb (is_nil errors) then Some (RespError errors)
  else
    match build_model inp (fst built) with
    | None => None
    | Some m =>
        match solve 50 m with
        | None => Some (RespInfeasible (_diagnose_infeasibility inp))
        | Some v => option_map RespOk (assemble inp (fst built) v)
        end
    end.

End Solver.

(** ** Vocabulary of the properties *)

(** The last element of a list that satisfies [p]. *)
Fixpoint find_last {A} (p : A -> bool) (l : list A) : option A :=
  match l with
  | [] => None
  | x :: r =>
      match find_last p r with
      | Some y => Some y
      | None => if p x then Some x else None
      end
  end.

(** The section names the cross-list group [g]: its [crosslist_group_id]
    is set, not empty, and equal to [g]. *)
Definition carries (g : string) (s : CourseSection) : bool :=
  match truthy_str (crosslist_group_id s) with
  | Some g' => String.eqb g g'
  | None => false
  end.

(** Summed expected enrollment of the sections that name [g]. *)
Definition group_total (secs : list CourseSection) (g : string) : Z :=
  fold_right (fun s acc => if carries g s then expected_enrollment s + acc else acc) 0 secs.

(** The lock the generator applies to a section: the last locked
    assignment listed for its id. *)
Definition effective_lock (inp : SchedulingInput) (sid : string)
  : option LockedAssignment :=
  find_last (fun l => String.eqb sid (lock_section_id l)) (locked_assignments inp).

(** The slot belongs to a blocked time of scope ["global"]. *)
Definition globally_blocked (inp : SchedulingInput) (t : string) : Prop :=
  exists b, In b (blocked_times inp) /\ scope b = "global" /\ In t (timeslot_ids b).

(** The soft-lock contribution to the objective coefficient of one option
    variable: the coefficient of its soft-lock term, [0] when no term is
    appended. *)
Definition soft_coefficient (inp : SchedulingInput) (it : string * nat * AssignOption)
  : Z :=
  match soft_lock_term inp it with
  | Some t => fst t
  | None => 0
  end.

(** The penalty accumulated over the two mismatches, before truncation. *)
Definition accumulated_penalty (sl : SoftLock) (o : AssignOption) : Q :=
  ((if time_mismatch sl o then weight sl * inject_Z SOFT_LOCK_BASE_WEIGHT else 0)
   + (if room_mismatch sl o then weight sl * inject_Z SOFT_LOCK_BASE_WEIGHT else 0))%Q.


(** The value of a list of objective terms under a valuation. *)
Definition terms_value (v : valuation) (l : list (Z * var)) : Z :=
  fold_right (fun t acc => fst t * v (snd t) + acc) 0 l.

Definition sum_over {A} (f : A -> Z) (l : list A) : Z :=
  fold_right (fun x acc => f x + acc) 0 l.

(** [total_penalty] of an option, as it enters the objective. *)
Definition item_cost (inp : SchedulingInput) (it : string * nat * AssignOption) : Z :=
  match option_term inp it with
  | Some t => fst t
  | None => 0
  end.

(** Every soft-lock weight is a non-negative integer. *)
Definition integral_weights (inp : SchedulingInput) : Prop :=
  forall sl, In sl (soft_locks inp) -> exists n, 0 <= n /\ (weight sl == inject_Z n)%Q.

(** What the options of one section contribute to the objective. *)
Definition entry_value (inp : SchedulingInput) (v : valuation)
    (so : string * list AssignOption) : Z :=
  sum_over
    (fun io => (item_cost inp (fst so, fst io, snd io)
                + soft_coefficient inp (fst so, fst io, snd io))
               * v (OptVar (fst so) (fst io)))
    (enumerate (snd so)).

(** The variables of one section are 0/1 with sum 1 and the penalties of
    its options are defined. *)
Definition entry_ready (inp : SchedulingInput) (v : valuation)
    (so : string * list AssignOption) : Prop :=
  (forall io, In io (enumerate (snd so)) ->
     v (OptVar (fst so) (fst io)) = 0 \/ v (OptVar (fst so) (fst io)) = 1)
  /\ sum_vars v (map (fun io => OptVar (fst so) (fst io)) (enumerate (snd so))) = 1
  /\ (forall io, In io (enumerate (snd so)) ->
        option_term inp (fst so, fst io, snd io) <> None).

(** ** Example inputs *)

Module Examples.

Definition S1 : CourseSection :=
  mkSection "S1" "C1" "001" "I1" 20 25 ["P1"] [] None [].

Definition I1 : Instructor :=
  mkInstructor "I1" "Professor" [] (mkPrefs [] [] None).

Definition R1 : Room := mkRoom "R1" "B" 30 [].
Definition R2 : Room := mkRoom "R2" "B" 30 [].
Definition T1 : Timeslot := mkTimeslot "T1" "Mon" "09:00" "10:00".
Definition T2 : Timeslot := mkTimeslot "T2" "Tue" "09:00" "10:00".
Definition P1 : MeetingPattern := mkPattern "P1" 1 ["Mon"] [["T1"]].
Definition P12 : MeetingPattern := mkPattern "P1" 1 ["Mon"; "Tue"] [["T1"]; ["T2"]].

(** One section, one room, one pattern with the single set [{T1}]. *)
Definition single : SchedulingInput :=
  mkInput [S1] [I1] [R1] [T1] [P1] [] [] [] [] [].

(** [single] with one soft lock on its section. *)
Definition with_soft_lock (sl : SoftLock) : SchedulingInput :=
  mkInput [S1] [I1] [R1] [T1] [P1] [] [] [] [] [sl].

(** The only option of [S1] in these inputs. *)
Definition S1_item : string * nat * AssignOption :=
  ("S1", 0%nat, mkOption "P1" ["T1"] "R1" 10).


(** The preferred room is missed, with weight -3. *)
Definition negative_weight : SoftLock := mkSoftLock "S1" None (Some "R2") (-3 # 1).

(** The preferred room is missed, with weight 3/2. *)
Definition fractional_weight : SoftLock := mkSoftLock "S1" None (Some "R2") (3 # 2).

(** Two locked assignments for one section: the first pins the room, the
    second pins the timeslot set. *)
Definition two_locks : SchedulingInput :=
  mkInput [S1] [I1] [R1; R2] [T1; T2] [P12] [] [] []
    [mkLock "S1" None (Some "R1"); mkLock "S1" (Some ["T2"]) None] [].

(** A lock whose [fixed_timeslot_set] is the empty list. *)
Definition empty_lock : SchedulingInput :=
  mkInput [S1] [I1] [R1] [T1] [P1] [] [] [] [mkLock "S1" (Some []) None] [].

(** A section without any allowed meeting pattern. *)
Definition S0 : CourseSection :=
  mkSection "S0" "C0" "001" "I1" 20 25 [] [] None [].

Definition no_pattern : SchedulingInput :=
  mkInput [S0; S1] [I1] [R1] [T1] [P1] [] [] [] [] [].

(** An adjunct whose [max_teaching_days] is set to 0. *)
Definition adjunct_zero : Instructor :=
  mkInstructor "I1" "Adjunct" [] (mkPrefs [] [] (Some 0)).

Definition zero_max_days : SchedulingInput :=
  mkInput [S1] [adjunct_zero] [R1] [T1] [P1] [] [] [] [] [].

(** An adjunct who may teach on one day. *)
Definition adjunct_one : Instructor :=
  mkInstructor "I1" "Adjunct" [] (mkPrefs [] [] (Some 1)).

Definition one_max_day : SchedulingInput :=
  mkInput [S1] [adjunct_one] [R1] [T1] [P1] [] [] [] [] [].

(** A section whose [crosslist_group_id] names a group that is not in
    the input, while a group of the input lists the section as a member. *)
Definition S1_dangling : CourseSection :=
  mkSection "S1" "C1" "001" "I1" 20 25 ["P1"] [] (Some "GX") [].

Definition S2 : CourseSection :=
  mkSection "S2" "C2" "001" "I2" 20 25 ["P1"] [] None [].

Definition I2 : Instructor :=
  mkInstructor "I2" "Professor" [] (mkPrefs [] [] None).

Definition foreign_member : SchedulingInput :=
  mkInput [S1_dangling; S2] [I1; I2] [R1; R2] [T1; T2] [P12]
    [mkCrossList "G1" ["S1"; "S2"] false] [] [] [] [].

(** The dangling group id alone. *)
Definition dangling_only : SchedulingInput :=
  mkInput [S1_dangling; S2] [I1; I2] [R1; R2] [T1; T2] [P12] [] [] [] [] [].

(** Two cross-listed sections that must share the only room at the only
    timeslot. *)
Definition S1_G : CourseSection :=
  mkSection "S1" "C1" "001" "I1" 15 20 ["P1"] [] (Some "G") [].

Definition S2_G : CourseSection :=
  mkSection "S2" "C2" "001" "I2" 15 20 ["P1"] [] (Some "G") [].

Definition R40 : Room := mkRoom "R1" "B" 40 [].

Definition same_room : SchedulingInput :=
  mkInput [S1_G; S2_G] [I1; I2] [R40] [T1] [P1]
    [mkCrossList "G" ["S1"; "S2"] true] [] [] [] [].

(** Both sections in the room at the timeslot, the room being used by the
    roomshare group "G". *)
Definition pick_both : valuation :=
  fun x => if var_eqb x (OptVar "S1" 0) || var_eqb x (OptVar "S2" 0)
              || var_eqb x (RoomUse 0 0 "G")
           then 1 else 0.

(** Option 0 of [S1], its room being used by the section's own key. *)
Definition pick_S1_room : valuation :=
  fun x => if var_eqb x (OptVar "S1" 0) || var_eqb x (RoomUse 0 0 "sec:S1")
           then 1 else 0.

(** The optimization model of [with_soft_lock fractional_weight]. *)
Definition fractional_model : CpModel :=
  mkModel
    [(OptVar "S1" 0, (0, 1)); (RoomUse 0 0 "sec:S1", (0, 1))]
    [SumEq1 [OptVar "S1" 0];
     VarGe (RoomUse 0 0 "sec:S1") (OptVar "S1" 0);
     SumLe1 [RoomUse 0 0 "sec:S1"]; SumLe1 [OptVar "S1" 0]]
    [(25, OptVar "S1" 0); (1, OptVar "S1" 0)].

(** The solution assembled for it. *)
Definition fractional_solution : ScheduleSolution :=
  mkSolution
    [mkAssignment "S1" "P1" ["T1"] "R1"]
    (53 # 2)
    (mkBreakdown 10 10 5 0 0 (3 # 2))
    ["Section S1 assigned to R1 at T1."].

(** A solver that proposes one valuation and reports it when it is a
    solution of the model. *)
Definition propose (v : valuation) : Z -> CpModel -> option valuation :=
  fun _ m => if model_sat v m then Some v else None.

(** Option 0 of [S1] for the adjunct of [one_max_day]: Monday is a teaching
    day and no day is in excess. *)
Definition pick_adjunct : valuation :=
  fun x => if var_eqb x (OptVar "S1" 0) || var_eqb x (RoomUse 0 0 "sec:S1")
              || var_eqb x (DayVar 0 "Mon")
           then 1 else 0.

(** Two sections with one id: the first has no allowed meeting pattern,
    the second is [S1]. *)
Definition S1_no_pattern : CourseSection :=
  mkSection "S1" "C0" "002" "I1" 20 25 [] [] None [].

Definition repeated_id : SchedulingInput :=
  mkInput [S1_no_pattern; S1] [I1] [R1] [T1] [P1] [] [] [] [] [].

(** Two sections of 100 seats that a group lists as members, without a
    [crosslist_group_id] of their own, and the same two sections naming
    the group. *)
Definition S1_100 : CourseSection :=
  mkSection "S1" "C1" "001" "I1" 100 120 ["P1"] [] None [].

Definition S2_100 : CourseSection :=
  mkSection "S2" "C2" "001" "I2" 100 120 ["P1"] [] None [].

Definition S1_100_G : CourseSection :=
  mkSection "S1" "C1" "001" "I1" 100 120 ["P1"] [] (Some "G") [].

Definition S2_100_G : CourseSection :=
  mkSection "S2" "C2" "001" "I2" 100 120 ["P1"] [] (Some "G") [].

Definition group_G : CrossListGroup := mkCrossList "G" ["S1"; "S2"] true.

(** A group whose id is the empty string, named by both sections. *)
Definition S1_100_empty : CourseSection :=
  mkSection "S1" "C1" "001" "I1" 100 120 ["P1"] [] (Some "") [].

Definition S2_100_empty : CourseSection :=
  mkSection "S2" "C2" "001" "I2" 100 120 ["P1"] [] (Some "") [].

Definition group_empty_id : CrossListGroup := mkCrossList "" ["S1"; "S2"] true.

(** A group with [require_same_room] whose id is the per-section key of
    [S1]; the section [S2] names it, [S1] names no group and is no member
    of it. *)
Definition S2_sec : CourseSection :=
  mkSection "S2" "C2" "001" "I2" 20 25 ["P1"] [] (Some "sec:S1") [].

Definition key_collision : SchedulingInput :=
  mkInput [S1; S2_sec] [I1; I2] [R40] [T1] [P1]
    [mkCrossList "sec:S1" ["S2"] true] [] [] [] [].

(** Both sections in the room at the timeslot, under the one key. *)
Definition pick_collision : valuation :=
  fun x => if var_eqb x (OptVar "S1" 0) || var_eqb x (OptVar "S2" 0)
              || var_eqb x (RoomUse 0 0 "sec:S1")
           then 1 else 0.

(** A pattern whose only timeslot set names a timeslot that is not in the
    input. *)
Definition P_unknown : MeetingPattern := mkPattern "P1" 1 ["Mon"] [["T9"]].

Definition unknown_slot : SchedulingInput :=
  mkInput [S1] [I1] [R1] [T1] [P_unknown] [] [] [] [] [].

(** The preferred room is missed, with weight 2. *)
Definition integral_lock : SoftLock := mkSoftLock "S1" None (Some "R2") 2.

End Examples.

(** The variables a constraint mentions. *)
Definition constr_vars (c : constr) : list var :=
  match c with
  | SumEq1 vs => vs
  | SumLe1 vs => vs
  | VarGe a b => [a; b]
  | ExcessGe e ds _ => e :: ds
  | NonNeg e => [e]
  end.

(** The constraint mentions option variables only. *)
Definition only_option_vars (c : constr) : Prop :=
  forall x, In x (constr_vars c) -> exists sid idx, x = OptVar sid idx.

(** [section_to_roomshare_group[section_id]]: the roomshare key of the
    section registered under an id. *)
Definition roomshare_of (inp : SchedulingInput) (sid : string) : string :=
  dict_get_default sid "" (section_to_roomshare_group inp).

(** A valuation of the room-usage indicators for a selection [x] of the
    option variables: the indicator of a bucket is 1 when one of its
    options is selected. *)
Definition room_use_value (inp : SchedulingInput)
    (items : list (string * nat * AssignOption)) (x : valuation) : valuation :=
  fun y =>
    match y with
    | RoomUse ri ti k =>
        match nth_error (rooms inp) ri, nth_error (timeslots inp) ti with
        | Some room, Some tslot =>
            if existsb
                 (fun it => uses (snd it) (room_id room) (slot_id tslot)
                            && String.eqb (roomshare_of inp (fst (fst it))) k
                            && (x (item_var it) =? 1))
                 items
            then 1 else 0
        | _, _ => 0
        end
    | _ => x y
    end.

(** ** Vocabulary of the further properties *)

(** The distinct elements of a list, in order of first appearance. *)
Definition first_occurrences (l : list string) : list string :=
  fold_left (fun acc x => if mem x acc then acc else (acc ++ [x])%list) l [].

(** The assignment the assembler emits for the option [o] of section [sid]. *)
Definition assignment_of (p : string * nat * AssignOption) : ScheduleAssignment :=
  mkAssignment (fst (fst p)) (opt_pattern (snd p)) (opt_slots (snd p)) (opt_room (snd p)).

(** [p] is a selected option of the map entry [so]. *)
Definition picked (v : valuation) (so : string * list AssignOption)
    (p : string * nat * AssignOption) : Prop :=
  fst (fst p) = fst so
  /\ nth_error (snd so) (snd (fst p)) = Some (snd p)
  /\ v (OptVar (fst so) (snd (fst p))) = 1.

(** [fl2] relaxes at least what [fl1] relaxes. *)
Definition flags_le (fl1 fl2 : Flags) : Prop :=
  (ignore_blocked_times fl1 = true -> ignore_blocked_times fl2 = true)
  /\ (ignore_locks fl1 = true -> ignore_locks fl2 = true)
  /\ (ignore_room_capacity fl1 = true -> ignore_room_capacity fl2 = true)
  /\ (ignore_room_features fl1 = true -> ignore_room_features fl2 = true)
  /\ (ignore_crosslist_capacity fl1 = true -> ignore_crosslist_capacity fl2 = true).

(** Two assignments meet at a common timeslot. *)
Definition clash (a1 a2 : ScheduleAssignment) : Prop :=
  exists t, In t (asg_timeslot_ids a1) /\ In t (asg_timeslot_ids a2).

(** The values the solver reports for the optimization model of the input
    are a solution of it. *)
Definition sound_on (solve : Z -> CpModel -> option valuation)
    (inp : SchedulingInput) : Prop :=
  forall m v,
    build_model inp (fst (_build_options no_flags inp)) = Some m ->
    solve 50 m = Some v -> model_sat v m = true.

(** The section names the group [g] by a [crosslist_group_id] that is set,
    not the empty string, and equal to [g]. *)
Definition names_group (g : string) (s : CourseSection) : bool :=
  match crosslist_group_id s with
  | Some g' => negb (String.eqb g' "") && String.eqb g' g
  | None => false
  end.

(** Summed expected enrollment of the sections that name the group [g]. *)
Definition named_total (secs : list CourseSection) (g : string) : Z :=
  fold_right (fun s acc => if names_group g s then expected_enrollment s + acc else acc)
             0 secs.

(** Summed expected enrollment of the sections that the group lists in its
    [member_section_ids]. *)
Definition member_total (secs : list CourseSection) (g : CrossListGroup) : Z :=
  fold_right
    (fun s acc =>
       if mem (sec_id s) (xl_member_section_ids g) then expected_enrollment s + acc
       else acc)
    0 secs.

(** The option occupies room [r] at timeslot [t]. *)
Definition occupies (o : AssignOption) (r t : string) : Prop :=
  opt_room o = r /\ In t (opt_slots o).

(** The section names, by its [crosslist_group_id], a group of the input
    with id [g] that requires one room. *)
Definition in_same_room_group (inp : SchedulingInput) (s : CourseSection)
    (g : string) : Prop :=
  crosslist_group_id s = Some g
  /\ exists grp, In grp (crosslist_groups inp) /\ xl_id grp = g
                 /\ require_same_room grp = true.

(** The section names no such group. *)
Definition in_no_same_room_group (inp : SchedulingInput) (s : CourseSection) : Prop :=
  forall g, ~ in_same_room_group inp s g.

(** An integer between 0 and 2^53: a value that a double holds exactly. *)
Definition double_exact (x : Q) : Prop :=
  exists k : Z, 0 <= k <= 2 ^ 53 /\ (x == inject_Z k)%Q.

(** Every entry of the breakdown is such a value. *)
Definition breakdown_exact (b : PenaltyBreakdown) : Prop :=
  double_exact (room_waste b)
  /\ double_exact (instructor_day_preference b)
  /\ double_exact (instructor_pattern_preference b)
  /\ double_exact (adjunct_day_excess b)
  /\ double_exact (soft_lock_time b)
  /\ double_exact (soft_lock_room b).

(** [y] is [x] plus a non-negative integer. *)
Definition adds_nonneg (x y : Q) : Prop :=
  exists d : Z, 0 <= d /\ (y == x + inject_Z d)%Q.

(** Every entry of [b'] is the entry of [b] plus a non-negative integer. *)
Definition breakdown_grows (b b' : PenaltyBreakdown) : Prop :=
  adds_nonneg (room_waste b) (room_waste b')
  /\ adds_nonneg (instructor_day_preference b) (instructor_day_preference b')
  /\ adds_nonneg (instructor_pattern_preference b) (instructor_pattern_preference b')
  /\ adds_nonneg (adjunct_day_excess b) (adjunct_day_excess b')
  /\ adds_nonneg (soft_lock_time b) (soft_lock_time b')
  /\ adds_nonneg (soft_lock_room b) (soft_lock_room b').

(** * Properties *)

(** ** Dicts *)

Lemma dict_get_set_eq {V} (k : string) (v : V) (d : dict V) :
  dict_get k (dict_set k v d) = Some v.
Proof.
  induction d as [|[k' v'] r IH]; simpl.
  - now rewrite String.eqb_refl.
  - destruct (String.eqb_spec k k') as [->|Hne]; simpl.
    + now rewrite String.eqb_refl.
    + destruct (String.eqb_spec k k'); [contradiction|exact IH].
Qed.

Lemma dict_get_set_neq {V} (k k' : string) (v : V) (d : dict V) :
  k <> k' -> dict_get k (dict_set k' v d) = dict_get k d.
Proof.
  intros Hne. induction d as [|[k2 v2] r IH]; simpl.
  - destruct (String.eqb_spec k k'); [contradiction|reflexivity].
  - destruct (String.eqb_spec k' k2) as [->|Hne2]; simpl.
    + destruct (String.eqb_spec k k2); [contradiction|reflexivity].
    + destruct (String.eqb_spec k k2); [reflexivity|exact IH].
Qed.

Lemma dict_get_set {V} (k k' : string) (v : V) (d : dict V) :
  dict_get k (dict_set k' v d) = if String.eqb k k' then Some v else dict_get k d.
Proof.
  destruct (String.eqb_spec k k') as [->|Hne].
  - apply dict_get_set_eq.
  - now apply dict_get_set_neq.
Qed.

Lemma find_last_some {A} (p : A -> bool) (l : list A) (x : A) :
  find_last p l = Some x -> In x l /\ p x = true.
Proof.
  induction l as [|y r IH]; simpl; [discriminate|].
  destruct (find_last p r) as [z|] eqn:E.
  - intros [= ->]. destruct (IH eq_refl); auto.
  - destruct (p y) eqn:Ey; [|discriminate]. intros [= ->]. auto.
Qed.

Lemma find_last_none {A} (p : A -> bool) (l : list A) :
  find_last p l = None -> forall x, In x l -> p x = false.
Proof.
  induction l as [|y r IH]; simpl; [contradiction|].
  destruct (find_last p r) eqn:E; [discriminate|].
  destruct (p y) eqn:Ey; [discriminate|].
  intros _ x [<-|Hin]; auto.
Qed.

(** A dict filled by successive assignments holds, under each key, the
    value of the last assignment to it. *)
Lemma dict_fold_get {A V} (key : A -> string) (f : A -> V) (l : list A)
    (d : dict V) (k : string) :
  dict_get k (fold_left (fun d' x => dict_set (key x) (f x) d') l d) =
  match find_last (fun x => String.eqb k (key x)) l with
  | Some x => Some (f x)
  | None => dict_get k d
  end.
Proof.
  revert d. induction l as [|x r IH]; intros d; simpl; [reflexivity|].
  rewrite IH. destruct (find_last _ r); [reflexivity|].
  rewrite dict_get_set. now destruct (String.eqb k (key x)).
Qed.

Lemma dict_of_get {A} (key : A -> string) (l : list A) (k : string) :
  dict_get k (dict_of key l) = find_last (fun x => String.eqb k (key x)) l.
Proof.
  unfold dict_of. rewrite (dict_fold_get key (fun x => x)).
  now destruct (find_last _ l).
Qed.

Lemma find_last_nodup {A} (key : A -> string) (l : list A) (x : A) :
  NoDup (map key l) -> In x l ->
  find_last (fun y => String.eqb (key x) (key y)) l = Some x.
Proof.
  induction l as [|y r IH]; simpl; [contradiction|].
  intros Hnd Hin. inversion Hnd as [|? ? Hny Hnr]; subst.
  destruct Hin as [->|Hin].
  - destruct (find_last _ r) as [z|] eqn:E.
    + apply find_last_some in E as [Hz Hk].
      apply String.eqb_eq in Hk. exfalso. apply Hny. rewrite Hk. now apply in_map.
    + now rewrite String.eqb_refl.
  - now rewrite (IH Hnr Hin).
Qed.

(** [errors.append] under a test, over a loop. *)
Lemma fold_left_append_if {A B} (p : A -> bool) (f : A -> B) (l : list A) (acc : list B) :
  fold_left (fun errs x => if p x then (errs ++ [f x])%list else errs) l acc =
  (acc ++ map f (filter p l))%list.
Proof.
  revert acc. induction l as [|x r IH]; intros acc; simpl.
  - now rewrite app_nil_r.
  - rewrite IH. destruct (p x); simpl; [|reflexivity].
    now rewrite <- app_assoc.
Qed.

(** ** Pre-validator *)

Lemma totals_add_get (d : dict Z) (s : CourseSection) (g : string) :
  dict_get_default g 0 (totals_add d s) =
  dict_get_default g 0 d + (if carries g s then expected_enrollment s else 0).
Proof.
  unfold totals_add, carries, dict_get_default.
  destruct (truthy_str (crosslist_group_id s)) as [g'|]; [|lia].
  rewrite dict_get_set. destruct (String.eqb_spec g g') as [->|Hne]; lia.
Qed.

Lemma crosslist_totals_from (secs : list CourseSection) (d : dict Z) (g : string) :
  dict_get_default g 0 (fold_left totals_add secs d) =
  dict_get_default g 0 d + group_total secs g.
Proof.
  revert d. induction secs as [|s r IH]; intros d; simpl; [lia|].
  rewrite IH, totals_add_get. destruct (carries g s); lia.
Qed.

Lemma crosslist_totals_get (secs : list CourseSection) (g : string) :
  dict_get_default g 0 (_build_crosslist_totals secs) = group_total secs g.
Proof.
  unfold _build_crosslist_totals. now rewrite crosslist_totals_from.
Qed.

Lemma fold_max_spec (rest : list Room) (m0 : Z) :
  let m := fold_left (fun m r' => Z.max m (capacity r')) rest m0 in
  (m = m0 \/ In m (map capacity rest))
  /\ m0 <= m /\ forall r, In r rest -> capacity r <= m.
Proof.
  revert m0. induction rest as [|x r IH]; intros m0; simpl.
  - split; [now left|]. split; [lia|]. intros r [].
  - specialize (IH (Z.max m0 (capacity x))). simpl in IH.
    destruct IH as (Hm & Hle & Hall). split; [|split].
    + destruct Hm as [Hm|Hm]; [|now right; right].
      rewrite Hm. destruct (Z.max_spec m0 (capacity x)) as [[_ ->]|[_ ->]]; auto.
    + lia.
    + intros y [<-|Hy]; [lia|auto].
Qed.

Lemma max_room_capacity_spec (rs : list Room) :
  (rs = [] /\ max_room_capacity rs = 0)
  \/ (In (max_room_capacity rs) (map capacity rs)
      /\ forall r, In r rs -> capacity r <= max_room_capacity rs).
Proof.
  destruct rs as [|x r]; [now left|right]. simpl.
  destruct (fold_max_spec r (capacity x)) as (Hm & Hle & Hall). split.
  - destruct Hm as [->|Hm]; auto.
  - intros y [<-|Hy]; auto.
Qed.

Lemma names_group_carries (g : string) (s : CourseSection) :
  names_group g s = carries g s.
Proof.
  unfold names_group, carries, truthy_str.
  destruct (crosslist_group_id s) as [g'|]; [|reflexivity].
  destruct (String.eqb g' ""); simpl; [reflexivity|apply String.eqb_sym].
Qed.

Lemma named_total_group_total (secs : list CourseSection) (g : string) :
  named_total secs g = group_total secs g.
Proof.
  induction secs as [|s r IH]; simpl; [reflexivity|].
  now rewrite names_group_carries, IH.
Qed.

Lemma named_total_empty_id (secs : list CourseSection) : named_total secs "" = 0.
Proof.
  induction secs as [|s r IH]; simpl; [reflexivity|].
  unfold names_group. destruct (crosslist_group_id s) as [g'|]; [|exact IH].
  destruct (String.eqb_spec g' ""); simpl; [exact IH|].
  destruct (String.eqb_spec g' ""); [contradiction|exact IH].
Qed.

(** C5 (amended).  [_validate_crosslist_capacity] returns, in the order of
    the groups, one [crosslist_capacity] error with the message
    "Cross-list group G requires capacity T, but max room is M." (T and M
    in decimal) for each group whose total [T] exceeds the maximum room
    capacity [M], and nothing for the other groups, where [T] is the summed
    expected enrollment of the sections whose [crosslist_group_id] is set,
    not empty and equal to the id of the group: the [member_section_ids]
    of the group are not read, and a group whose id is the empty string has
    total 0.  [M] is [0] for an empty room list and the largest capacity
    otherwise. *)
Theorem validate_crosslist_capacity_spec
    (groups : list CrossListGroup) (secs : list CourseSection) (rs : list Room) :
  _validate_crosslist_capacity groups secs rs =
    map (fun g =>
           mkError "crosslist_capacity"
             ("Cross-list group " ++ xl_id g ++ " requires capacity "
              ++ NilZero.string_of_int (Z.to_int (named_total secs (xl_id g)))
              ++ ", but max room is "
              ++ NilZero.string_of_int (Z.to_int (max_room_capacity rs)) ++ "."))
        (filter (fun g => named_total secs (xl_id g) >? max_room_capacity rs) groups)
  /\ ((rs = [] /\ max_room_capacity rs = 0)
      \/ (In (max_room_capacity rs) (map capacity rs)
          /\ forall r, In r rs -> capacity r <= max_room_capacity rs))
  /\ named_total secs "" = 0.
Proof.
  split; [|split; [apply max_room_capacity_spec|apply named_total_empty_id]].
  unfold _validate_crosslist_capacity.
  rewrite (fold_left_append_if
             (fun g => dict_get_default (xl_id g) 0 (_build_crosslist_totals secs)
                       >? max_room_capacity rs)
             (fun g => crosslist_capacity_error (xl_id g)
                         (dict_get_default (xl_id g) 0 (_build_crosslist_totals secs))
                         (max_room_capacity rs))).
  simpl. erewrite filter_ext; [apply map_ext|]; intros g;
    now rewrite crosslist_totals_get, named_total_group_total.
Qed.

(** The group lists two sections of 100 seats as members, far beyond the
    room of 40, and gets no error, because neither section names the
    group; when they do, the error carries the total in its message; and
    a group whose id is the empty string gets no error even when both
    sections name it. *)
Lemma validate_crosslist_capacity_counterexample :
  member_total [Examples.S1_100; Examples.S2_100] Examples.group_G = 200
  /\ max_room_capacity [Examples.R40] = 40
  /\ _validate_crosslist_capacity [Examples.group_G]
       [Examples.S1_100; Examples.S2_100] [Examples.R40] = []
  /\ _validate_crosslist_capacity [Examples.group_G]
       [Examples.S1_100_G; Examples.S2_100_G] [Examples.R40]
     = [mkError "crosslist_capacity"
          "Cross-list group G requires capacity 200, but max room is 40."]
  /\ member_total [Examples.S1_100_empty; Examples.S2_100_empty]
       Examples.group_empty_id = 200
  /\ _validate_crosslist_capacity [Examples.group_empty_id]
       [Examples.S1_100_empty; Examples.S2_100_empty] [Examples.R40] = [].
Proof. repeat split; reflexivity. Qed.

(** ** Option generator *)

Lemma mem_In (x : string) (l : list string) : mem x l = true <-> In x l.
Proof.
  unfold mem. rewrite existsb_exists. split.
  - intros (y & Hy & He). apply String.eqb_eq in He. now subst.
  - intros H. exists x. split; [assumption|apply String.eqb_refl].
Qed.

Lemma mem_false (x : string) (l : list string) : mem x l = false <-> ~ In x l.
Proof.
  rewrite <- mem_In. destruct (mem x l); split; intro H; congruence.
Qed.

Lemma same_set_spec (a b : list string) :
  same_set a b = true <-> forall x, In x a <-> In x b.
Proof.
  unfold same_set. rewrite andb_true_iff, !forallb_forall. split.
  - intros [Hab Hba] x. split; intro H; apply mem_In; auto.
  - intros H. split; intros x Hx; apply mem_In, H, Hx.
Qed.

Lemma tuple_eqb_spec (a b : list string) : tuple_eqb a b = true <-> a = b.
Proof.
  revert b. induction a as [|x a IH]; intros [|y b]; simpl; split; try congruence.
  - rewrite andb_true_iff, String.eqb_eq, IH. now intros [-> ->].
  - intros [= -> ->]. rewrite String.eqb_refl. now apply IH.
Qed.

Lemma truthy_str_some (o : option string) (s : string) :
  truthy_str o = Some s <-> o = Some s /\ s <> "".
Proof.
  unfold truthy_str. destruct o as [x|]; [|split; [discriminate|intros [[=] _]]].
  destruct (String.eqb_spec x "") as [->|Hne]; split.
  - discriminate.
  - intros [[= <-] H]. now elim H.
  - intros [= ->]. auto.
  - now intros [[= ->] _].
Qed.

Lemma truthy_list_some (o : option (list string)) (l : list string) :
  truthy_list o = Some l <-> o = Some l /\ l <> [].
Proof.
  unfold truthy_list. destruct o as [[|x r]|]; split; try discriminate.
  - intros [[= <-] H]. now elim H.
  - intros [= <-]. split; [reflexivity|discriminate].
  - now intros [[= <-] _].
  - intros [[=] _].
Qed.

Lemma truthy_int_some (o : option Z) (n : Z) :
  truthy_int o = Some n <-> o = Some n /\ n <> 0.
Proof.
  unfold truthy_int. destruct o as [x|]; [|split; [discriminate|intros [[=] _]]].
  destruct (Z.eqb_spec x 0) as [->|Hne]; split.
  - discriminate.
  - intros [[= <-] H]. now elim H.
  - intros [= ->]. auto.
  - now intros [[= ->] _].
Qed.

(** The map and the error list of [_build_options] evolve independently. *)
Lemma build_options_fold_fst (fl : Flags) (inp : SchedulingInput)
    (l : list CourseSection) (acc : dict (list AssignOption) * list ValidationError) :
  fst (fold_left (build_options_step fl inp) l acc) =
  fold_left (fun d s => dict_set (sec_id s) (section_options fl inp s) d) l (fst acc).
Proof.
  revert acc. induction l as [|s r IH]; intros acc; simpl; [reflexivity|].
  now rewrite IH.
Qed.

Lemma build_options_fold_snd (fl : Flags) (inp : SchedulingInput)
    (l : list CourseSection) (acc : dict (list AssignOption) * list ValidationError) :
  snd (fold_left (build_options_step fl inp) l acc) =
  (snd acc
   ++ map (fun s => no_feasible_options_error (sec_id s))
          (filter (fun s => is_nil (section_options fl inp s)) l))%list.
Proof.
  revert acc. induction l as [|s r IH]; intros acc; simpl.
  - now rewrite app_nil_r.
  - rewrite IH. simpl. destruct (is_nil (section_options fl inp s)); simpl; [|reflexivity].
    now rewrite <- app_assoc.
Qed.

(** The entry of the returned map under a key is the option list of the
    last section with that id. *)
Lemma build_options_get (fl : Flags) (inp : SchedulingInput) (sid : string) :
  dict_get sid (fst (_build_options fl inp)) =
  option_map (section_options fl inp)
             (find_last (fun s => String.eqb sid (sec_id s)) (sections inp)).
Proof.
  unfold _build_options. rewrite build_options_fold_fst.
  rewrite (dict_fold_get sec_id (section_options fl inp)). simpl.
  now destruct (find_last _ (sections inp)).
Qed.

Lemma find_last_in {A} (p : A -> bool) (l : list A) (x : A) :
  In x l -> p x = true -> exists y, find_last p l = Some y.
Proof.
  intros Hin Hp. destruct (find_last p l) as [y|] eqn:E; [now exists y|].
  rewrite (find_last_none _ _ E _ Hin) in Hp. discriminate.
Qed.

Lemma string_length_append (a s : string) :
  String.length (a ++ s) = (String.length a + String.length s)%nat.
Proof. induction a as [|c a IH]; simpl; [reflexivity|now rewrite IH]. Qed.

Lemma string_append_cancel_r (a b s : string) : a ++ s = b ++ s -> a = b.
Proof.
  revert b. induction a as [|c a IH]; intros [|c' b] H; simpl in H.
  - reflexivity.
  - apply (f_equal String.length) in H. simpl in H.
    rewrite string_length_append in H. lia.
  - apply (f_equal String.length) in H. simpl in H.
    rewrite string_length_append in H. lia.
  - injection H as -> H. f_equal. now apply IH.
Qed.

Lemma no_feasible_options_error_inj (a b : string) :
  no_feasible_options_error a = no_feasible_options_error b -> a = b.
Proof.
  unfold no_feasible_options_error. intros [= H].
  now apply string_append_cancel_r in H.
Qed.

(** C8 (amended).  [_build_options] appends a [no_feasible_options] error
    for a section exactly when the option list generated for it is empty,
    in section order; the returned map has an entry under the id of every
    input section, which is the option list of the last section with that
    id: it is the empty list for a section that got an error when section
    ids are distinct, and may be non-empty when a later section repeats
    the id; and when the validation errors followed by the
    option-generation errors are not empty, [_solve_schedule] returns the
    error response with that list, whatever the solver is. *)
Theorem build_options_errors_short_circuit (fl : Flags) (inp : SchedulingInput) :
  snd (_build_options fl inp) =
    map (fun s =>
           mkError "no_feasible_options"
             ("Section " ++ sec_id s ++ " has no feasible assignment options."))
        (filter (fun s => is_nil (section_options fl inp s)) (sections inp))
  /\ (forall s, In s (sections inp) ->
        exists s', find_last (fun x => String.eqb (sec_id s) (sec_id x)) (sections inp)
                   = Some s'
                   /\ In s' (sections inp)
                   /\ sec_id s' = sec_id s
                   /\ dict_get (sec_id s) (fst (_build_options fl inp))
                      = Some (section_options fl inp s'))
  /\ (NoDup (map sec_id (sections inp)) ->
      forall s, In s (sections inp) ->
        dict_get (sec_id s) (fst (_build_options fl inp)) = Some (section_options fl inp s)
        /\ (In (no_feasible_options_error (sec_id s)) (snd (_build_options fl inp))
            <-> dict_get (sec_id s) (fst (_build_options fl inp)) = Some []))
  /\ (forall solve errors,
        errors = (_validate_crosslist_capacity (crosslist_groups inp) (sections inp)
                    (rooms inp)
                  ++ snd (_build_options no_flags inp))%list ->
        errors <> [] ->
        _solve_schedule solve inp = Some (RespError errors)).
Proof.
  assert (Herr : snd (_build_options fl inp) =
                 map (fun s => no_feasible_options_error (sec_id s))
                     (filter (fun s => is_nil (section_options fl inp s)) (sections inp))).
  { unfold _build_options. now rewrite build_options_fold_snd. }
  split; [exact Herr|]. split; [|split].
  - intros s Hin. rewrite build_options_get.
    destruct (find_last_in (fun x => String.eqb (sec_id s) (sec_id x)) _ _ Hin
                (String.eqb_refl _)) as [s' Hs'].
    exists s'. rewrite Hs'. split; [reflexivity|].
    apply find_last_some in Hs' as [Hin' He]. apply String.eqb_eq in He.
    split; [assumption|]. split; [now symmetry|reflexivity].
  - intros Hnd s Hin. rewrite build_options_get, (find_last_nodup sec_id _ _ Hnd Hin).
    simpl. split; [reflexivity|]. rewrite Herr, in_map_iff. split.
    + intros (s' & He & Hs'). apply filter_In in Hs' as [Hin' Hnil].
      apply no_feasible_options_error_inj in He.
      assert (s' = s) as ->.
      { pose proof (find_last_nodup sec_id _ _ Hnd Hin) as E1.
        pose proof (find_last_nodup sec_id _ _ Hnd Hin') as E2.
        rewrite He in E2. congruence. }
      destruct (section_options fl inp s); [reflexivity|discriminate].
    + intros [= E]. exists s. split; [reflexivity|].
      apply filter_In. split; [assumption|]. now rewrite E.
  - intros solve errors -> Hne. unfold _solve_schedule.
    destruct (_ ++ _)%list; [now elim Hne|reflexivity].
Qed.

Lemma locked_by_section_get (inp : SchedulingInput) (sid : string) :
  dict_get sid (locked_by_section no_flags inp) = effective_lock inp sid.
Proof. unfold locked_by_section. simpl. apply dict_of_get. Qed.

Lemma blocked_times_global_In (inp : SchedulingInput) (t : string) :
  In t (blocked_times_global no_flags inp) <-> globally_blocked inp t.
Proof.
  unfold blocked_times_global, globally_blocked. rewrite in_flat_map. simpl.
  split; intros (b & Hb & H); exists b; (split; [assumption|]).
  - rewrite andb_true_r in H. destruct (String.eqb_spec (scope b) "global"); [auto|contradiction].
  - destruct H as [-> H]. exact H.
Qed.

Lemma has_required_features_spec (room : Room) (required : list string) :
  _has_required_features room required = true <->
  forall f, In f required -> In f (features room).
Proof.
  unfold _has_required_features. rewrite forallb_forall.
  split; intros H f Hf; apply mem_In; auto.
Qed.

Lemma available_rooms_In (inp : SchedulingInput) (s : CourseSection) (room : Room) :
  In room (available_rooms no_flags inp (_build_crosslist_totals (sections inp)) s) <->
  In room (rooms inp)
  /\ capacity room >= expected_enrollment s
  /\ (forall f, In f (room_requirements s) -> In f (features room))
  /\ (forall g, crosslist_group_id s = Some g -> g <> "" ->
        capacity room >= group_total (sections inp) g).
Proof.
  assert (Hbase : forall l,
    In room (filter
      (fun room0 =>
         if negb (ignore_room_capacity no_flags)
            && (capacity room0 <? expected_enrollment s)
         then false
         else if negb (ignore_room_features no_flags)
                 && negb (_has_required_features room0 (room_requirements s))
         then false else true) l) <->
    In room l /\ capacity room >= expected_enrollment s
    /\ (forall f, In f (room_requirements s) -> In f (features room))).
  { intros l. rewrite filter_In. simpl.
    rewrite <- has_required_features_spec.
    destruct (Z.ltb_spec (capacity room) (expected_enrollment s));
      destruct (_has_required_features room (room_requirements s)); simpl;
      intuition (try discriminate; try lia). }
  unfold available_rooms.
  destruct (truthy_str (crosslist_group_id s)) as [g|] eqn:Eg.
  - simpl. rewrite filter_In, Hbase, crosslist_totals_get.
    apply truthy_str_some in Eg as [Eg Hne].
    rewrite Z.geb_le. split.
    + intros ((H1 & H2 & H3) & H4). repeat split; auto.
      intros g' Eg' _. rewrite Eg in Eg'. injection Eg' as <-. lia.
    + intros (H1 & H2 & H3 & H4). repeat split; auto.
      specialize (H4 g Eg Hne). lia.
  - rewrite Hbase. split.
    + intros (H1 & H2 & H3). repeat split; auto.
      intros g Eg' Hne. assert (truthy_str (crosslist_group_id s) = Some g) as E
        by now apply truthy_str_some. congruence.
    + intros (H1 & H2 & H3 & _). auto.
Qed.

(** What every option generated for a section satisfies, all relaxation
    flags being false. *)
Lemma section_options_invariant (inp : SchedulingInput) (s : CourseSection)
    (o : AssignOption) :
  In o (section_options no_flags inp s) ->
  exists room,
    In room (rooms inp) /\ opt_room o = room_id room
    /\ capacity room >= expected_enrollment s
    /\ (forall f, In f (room_requirements s) -> In f (features room))
    /\ (forall t, In t (opt_slots o) -> ~ globally_blocked inp t)
    /\ (forall lock, effective_lock inp (sec_id s) = Some lock ->
          (forall fts, fixed_timeslot_set lock = Some fts -> fts <> [] ->
             forall x, In x (opt_slots o) <-> In x fts)
          /\ (forall fr, fixed_room lock = Some fr -> fr <> "" -> opt_room o = fr))
    /\ (forall g, crosslist_group_id s = Some g -> g <> "" ->
          capacity room >= group_total (sections inp) g)
    /\ opt_waste o = capacity room - expected_enrollment s.
Proof.
  unfold section_options. rewrite locked_by_section_get.
  intros H. apply in_flat_map in H as (pid & _ & H).
  destruct (dict_get pid _) as [pattern|]; [|contradiction].
  apply in_flat_map in H as (ts & _ & H).
  destruct (existsb _ ts) eqn:Eb; [contradiction|].
  destruct (lock_rejects_slots _ ts) eqn:Els; [contradiction|].
  apply in_flat_map in H as (room & Hroom & H).
  destruct (lock_rejects_room _ room) eqn:Elr; [contradiction|].
  destruct H as [<-|[]]. simpl.
  apply available_rooms_In in Hroom as (H1 & H2 & H3 & H4).
  exists room. split; [assumption|]. split; [reflexivity|]. split; [assumption|].
  split; [assumption|]. split; [|split; [|split; [assumption|reflexivity]]].
  - intros t Ht Hbl. apply blocked_times_global_In in Hbl.
    assert (existsb (fun slot => mem slot (blocked_times_global no_flags inp)) ts = true)
      as E by (apply existsb_exists; exists t; split; [assumption|now apply mem_In]).
    congruence.
  - intros lock Hl. rewrite Hl in Els, Elr. split.
    + intros fts Hf Hne. unfold lock_rejects_slots in Els.
      assert (truthy_list (fixed_timeslot_set lock) = Some fts) as E
        by now apply truthy_list_some.
      rewrite E in Els. apply negb_false_iff in Els.
      pose proof (proj1 (same_set_spec _ _) Els) as Hs.
      intros x. symmetry. apply Hs.
    + intros fr Hfr Hne. unfold lock_rejects_room in Elr.
      assert (truthy_str (fixed_room lock) = Some fr) as E by now apply truthy_str_some.
      rewrite E in Elr. apply negb_false_iff in Elr. now apply String.eqb_eq in Elr.
Qed.

(** C7 (amended).  Every option of the map returned by [_build_options]
    with all relaxation flags false belongs to an input section with the
    key as id and uses an input room such that: the room's capacity is at
    least the section's expected enrollment; the required features are
    among the room's features; no slot of the option is globally blocked;
    when the lock applied to the section (the last locked assignment
    listed for it) has a non-empty [fixed_timeslot_set], the option's slots
    are the same set; when it has a non-empty [fixed_room], the option's
    room is that room; when the section names a cross-list group (a
    non-empty [crosslist_group_id]), the room's capacity is at least the
    summed expected enrollment of the sections naming it; and [room_waste]
    is the room's capacity minus the section's expected enrollment. *)
Theorem build_options_invariant (inp : SchedulingInput) (sid : string)
    (opts : list AssignOption) (o : AssignOption) :
  dict_get sid (fst (_build_options no_flags inp)) = Some opts ->
  In o opts ->
  exists s room,
    In s (sections inp) /\ sec_id s = sid
    /\ In room (rooms inp) /\ opt_room o = room_id room
    /\ capacity room >= expected_enrollment s
    /\ (forall f, In f (room_requirements s) -> In f (features room))
    /\ (forall t, In t (opt_slots o) -> ~ globally_blocked inp t)
    /\ (forall lock, effective_lock inp sid = Some lock ->
          (forall fts, fixed_timeslot_set lock = Some fts -> fts <> [] ->
             forall x, In x (opt_slots o) <-> In x fts)
          /\ (forall fr, fixed_room lock = Some fr -> fr <> "" -> opt_room o = fr))
    /\ (forall g, crosslist_group_id s = Some g -> g <> "" ->
          capacity room >= group_total (sections inp) g)
    /\ opt_waste o = capacity room - expected_enrollment s.
Proof.
  rewrite build_options_get. intros Hget Hin.
  destruct (find_last _ (sections inp)) as [s|] eqn:Es; [|discriminate].
  injection Hget as <-. apply find_last_some in Es as [Hs He].
  apply String.eqb_eq in He. subst sid.
  destruct (section_options_invariant _ _ _ Hin) as (room & H).
  exists s, room. intuition.
Qed.

(** ** Soft locks *)

Lemma Qpositive_spec (x : Q) : Qpositive x = true <-> (0 < x)%Q.
Proof.
  unfold Qpositive, Qlt. simpl. rewrite Z.ltb_lt. lia.
Qed.

Lemma int_of_Qeq (x y : Q) : (x == y)%Q -> int_of x = int_of y.
Proof.
  unfold Qeq, int_of. intros H.
  rewrite <- (Z.quot_mul_cancel_r (Qnum x) (Zpos (Qden x)) (Zpos (Qden y))) by lia.
  rewrite <- (Z.quot_mul_cancel_r (Qnum y) (Zpos (Qden y)) (Zpos (Qden x))) by lia.
  rewrite H. f_equal. lia.
Qed.

(** [int_of] truncates toward zero: on a non-negative number it is the
    integer part. *)
Lemma int_of_trunc (x : Q) :
  (0 <= x)%Q -> 0 <= int_of x /\ (inject_Z (int_of x) <= x)%Q /\ (x < inject_Z (int_of x) + 1)%Q.
Proof.
  destruct x as [n d]. unfold Qle, Qlt, int_of. simpl. intros Hn.
  assert (H0 : 0 <= n) by lia.
  pose proof (Z.quot_rem' n (Zpos d)) as Hqr.
  pose proof (Z.rem_bound_pos n (Zpos d) H0 ltac:(lia)) as Hr.
  pose proof (Z.quot_pos n (Zpos d) H0 ltac:(lia)) as Hq.
  split; [assumption|]. split; nia.
Qed.

Lemma soft_penalty_accumulated (sl : SoftLock) (o : AssignOption) :
  (soft_penalty sl o == accumulated_penalty sl o)%Q.
Proof.
  unfold soft_penalty, accumulated_penalty.
  destruct (time_mismatch sl o), (room_mismatch sl o); lra.
Qed.

Lemma soft_lock_term_cases (inp : SchedulingInput) (it : string * nat * AssignOption)
    (sl : SoftLock) :
  dict_get (fst (fst it)) (soft_lock_by_section inp) = Some sl ->
  ((0 < accumulated_penalty sl (snd it))%Q
   /\ soft_lock_term inp it = Some (int_of (accumulated_penalty sl (snd it)), item_var it))
  \/ ((accumulated_penalty sl (snd it) <= 0)%Q /\ soft_lock_term inp it = None).
Proof.
  intros Hsl. unfold soft_lock_term. rewrite Hsl.
  pose proof (soft_penalty_accumulated sl (snd it)) as He.
  destruct (Qpositive (soft_penalty sl (snd it))) eqn:Ep.
  - left. apply Qpositive_spec in Ep. split; [lra|].
    now rewrite (int_of_Qeq He).
  - right. split; [|reflexivity].
    destruct (Qlt_le_dec 0 (soft_penalty sl (snd it))) as [Hlt|Hle]; [|lra].
    apply Qpositive_spec in Hlt. congruence.
Qed.

Lemma accumulated_penalty_sign (sl : SoftLock) (o : AssignOption) :
  (weight sl <= 0)%Q -> (accumulated_penalty sl o <= 0)%Q.
Proof.
  unfold accumulated_penalty, SOFT_LOCK_BASE_WEIGHT.
  change (inject_Z 1) with 1%Q.
  destruct (time_mismatch sl o), (room_mismatch sl o); lra.
Qed.

(** C9.  The soft-lock term of an option never has a negative
    coefficient.  For an option of a section with a soft lock, a term is
    appended exactly when the accumulated soft penalty is strictly
    positive; a weight that is zero or negative gives no term; and an
    accumulated penalty strictly between 0 and 1 gives a term with
    coefficient 0. *)
Theorem soft_lock_term_never_negative (inp : SchedulingInput)
    (it : string * nat * AssignOption) :
  (forall c x, soft_lock_term inp it = Some (c, x) -> 0 <= c /\ x = item_var it)
  /\ (forall c x, In (c, x) (soft_lock_terms inp (option_items (fst (_build_options no_flags inp))))
        -> 0 <= c)
  /\ forall sl, dict_get (fst (fst it)) (soft_lock_by_section inp) = Some sl ->
       (soft_lock_term inp it <> None <-> (0 < soft_penalty sl (snd it))%Q)
       /\ ((weight sl <= 0)%Q -> soft_lock_term inp it = None)
       /\ ((0 < soft_penalty sl (snd it))%Q -> (soft_penalty sl (snd it) < 1)%Q ->
           soft_lock_term inp it = Some (0, item_var it)).
Proof.
  assert (Hnn : forall it' c x, soft_lock_term inp it' = Some (c, x) ->
                                0 <= c /\ x = item_var it').
  { intros it' c x. unfold soft_lock_term.
    destruct (dict_get _ _) as [sl|]; [|discriminate].
    destruct (Qpositive _) eqn:Ep; [|discriminate].
    intros [= <- <-]. split; [|reflexivity].
    apply Qpositive_spec in Ep. apply int_of_trunc. lra. }
  split; [apply Hnn|]. split.
  - intros c x Hin. unfold soft_lock_terms in Hin.
    apply in_flat_map in Hin as (it' & _ & Hin).
    destruct (soft_lock_term inp it') as [[c' x']|] eqn:E; [|contradiction].
    destruct Hin as [[= <- <-]|[]]. now apply (Hnn it' c' x').
  - intros sl Hsl.
    pose proof (soft_penalty_accumulated sl (snd it)) as He.
    destruct (soft_lock_term_cases inp it Hsl) as [[Hpos Ht]|[Hle Ht]]; rewrite Ht.
    + split; [split; [intros _; lra|discriminate]|]. split.
      * intros Hw. pose proof (@accumulated_penalty_sign sl (snd it) Hw). lra.
      * intros _ Hlt1. f_equal. f_equal.
        destruct (@int_of_trunc (accumulated_penalty sl (snd it))) as (H0 & Hlo & _); [lra|].
        assert (inject_Z (int_of (accumulated_penalty sl (snd it))) < 1)%Q as Hlt by lra.
        unfold Qlt in Hlt. simpl in Hlt. lia.
    + split; [split; [congruence|intros; lra]|]. split; [reflexivity|intros; lra].
Qed.





Lemma soft_lock_term_never_negative_witness :
  dict_get "S1" (soft_lock_by_section (Examples.with_soft_lock Examples.negative_weight))
    = Some Examples.negative_weight
  /\ (weight Examples.negative_weight <= 0)%Q
  /\ soft_lock_term (Examples.with_soft_lock Examples.negative_weight) Examples.S1_item
     = None.
Proof.
  split; [reflexivity|]. split; [vm_compute; discriminate|].
  destruct (soft_lock_term_never_negative
              (Examples.with_soft_lock Examples.negative_weight) Examples.S1_item)
    as (_ & _ & H).
  destruct (H Examples.negative_weight eq_refl) as (_ & Hneg & _).
  apply Hneg. vm_compute. discriminate.
Defined.

(** The section [S1] has a locked assignment with [fixed_room = R1], yet
    an option in room [R2] is emitted: the later lock of the same section
    replaces it.  And a lock whose [fixed_timeslot_set] is the empty list
    filters nothing. *)
Lemma build_options_invariant_counterexample :
  (dict_get "S1" (fst (_build_options no_flags Examples.two_locks))
     = Some [mkOption "P1" ["T2"] "R1" 10; mkOption "P1" ["T2"] "R2" 10]
   /\ In (mkLock "S1" None (Some "R1")) (locked_assignments Examples.two_locks)
   /\ opt_room (mkOption "P1" ["T2"] "R2" 10) <> "R1")
  /\ (dict_get "S1" (fst (_build_options no_flags Examples.empty_lock))
        = Some [mkOption "P1" ["T1"] "R1" 10]
      /\ In (mkLock "S1" (Some []) None) (locked_assignments Examples.empty_lock)
      /\ ~ (forall x, In x (opt_slots (mkOption "P1" ["T1"] "R1" 10)) <-> In x [])).
Proof.
  split; (split; [reflexivity|split; [simpl; auto|]]).
  - discriminate.
  - intros H. apply (proj1 (H "T1")). simpl. auto.
Qed.

Lemma build_options_invariant_witness :
  dict_get "S1" (fst (_build_options no_flags Examples.two_locks))
    = Some [mkOption "P1" ["T2"] "R1" 10; mkOption "P1" ["T2"] "R2" 10]
  /\ In (mkOption "P1" ["T2"] "R2" 10)
        [mkOption "P1" ["T2"] "R1" 10; mkOption "P1" ["T2"] "R2" 10]
  /\ exists s room,
       In s (sections Examples.two_locks) /\ In room (rooms Examples.two_locks)
       /\ opt_room (mkOption "P1" ["T2"] "R2" 10) = room_id room
       /\ 10 = capacity room - expected_enrollment s.
Proof.
  split; [reflexivity|]. split; [simpl; auto|].
  destruct (@build_options_invariant Examples.two_locks "S1" _
              (mkOption "P1" ["T2"] "R2" 10) eq_refl (or_intror (or_introl eq_refl)))
    as (s & room & Hs & _ & Hr & Hid & _ & _ & _ & _ & _ & Hw).
  exists s, room. auto.
Defined.

Lemma build_options_errors_short_circuit_witness :
  NoDup (map sec_id (sections Examples.no_pattern))
  /\ dict_get "S0" (fst (_build_options no_flags Examples.no_pattern)) = Some []
  /\ snd (_build_options no_flags Examples.no_pattern)
     = [mkError "no_feasible_options" "Section S0 has no feasible assignment options."]
  /\ forall solve,
       _solve_schedule solve Examples.no_pattern
       = Some (RespError [mkError "no_feasible_options"
                            "Section S0 has no feasible assignment options."]).
Proof.
  assert (Hnd : NoDup (map sec_id (sections Examples.no_pattern))).
  { simpl. repeat constructor; simpl; intuition discriminate. }
  destruct (build_options_errors_short_circuit no_flags Examples.no_pattern)
    as (Herr & _ & Huniq & Hshort).
  split; [exact Hnd|]. split; [|split].
  - destruct (Huniq Hnd Examples.S0 (or_introl eq_refl)) as [H _]. exact H.
  - rewrite Herr. reflexivity.
  - intros solve. apply Hshort; [reflexivity|discriminate].
Defined.

(** With a repeated section id the first section gets the error although
    the entry under its id is not empty: it holds the option of the later
    section. *)
Lemma build_options_errors_counterexample :
  In Examples.S1_no_pattern (sections Examples.repeated_id)
  /\ section_options no_flags Examples.repeated_id Examples.S1_no_pattern = []
  /\ snd (_build_options no_flags Examples.repeated_id)
     = [mkError "no_feasible_options" "Section S1 has no feasible assignment options."]
  /\ dict_get (sec_id Examples.S1_no_pattern)
       (fst (_build_options no_flags Examples.repeated_id))
     = Some [mkOption "P1" ["T1"] "R1" 10]
  /\ dict_get (sec_id Examples.S1_no_pattern)
       (fst (_build_options no_flags Examples.repeated_id))
     <> Some [].
Proof.
  split; [now left|]. split; [reflexivity|]. split; [reflexivity|].
  split; [reflexivity|]. discriminate.
Qed.

(** ** Lists, enumerations and fallible loops *)

Lemma enumerate_from_In {A} (l : list A) (k n : nat) (x : A) :
  In (n, x) (enumerate_from k l) <-> (k <= n)%nat /\ nth_error l (n - k) = Some x.
Proof.
  revert k. induction l as [|y r IH]; intros k; simpl.
  - split; [contradiction|]. intros [_ H]. destruct (n - k)%nat; discriminate.
  - rewrite IH. split.
    + intros [[= <- <-]|[Hle Hn]].
      * split; [lia|]. now rewrite Nat.sub_diag.
      * split; [lia|]. replace (n - k)%nat with (S (n - S k)) by lia. exact Hn.
    + intros [Hle Hn]. destruct (n - k)%nat as [|j] eqn:E.
      * left. injection Hn as <-. f_equal. lia.
      * right. split; [lia|]. replace (n - S k)%nat with j by lia. exact Hn.
Qed.

Lemma enumerate_In {A} (l : list A) (n : nat) (x : A) :
  In (n, x) (enumerate l) <-> nth_error l n = Some x.
Proof.
  unfold enumerate. rewrite enumerate_from_In, Nat.sub_0_r. intuition lia.
Qed.

Lemma nth_error_unique_key {A} (key : A -> string) (l : list A) (n n' : nat) (x x' : A) :
  NoDup (map key l) -> nth_error l n = Some x -> nth_error l n' = Some x' ->
  key x = key x' -> n = n' /\ x = x'.
Proof.
  intros Hnd Hn Hn' Hk.
  assert (n = n') as <-.
  { apply (proj1 (NoDup_nth_error (map key l)) Hnd).
    - rewrite length_map. apply nth_error_Some. congruence.
    - rewrite !nth_error_map, Hn, Hn'. simpl. now rewrite Hk. }
  split; [reflexivity|congruence].
Qed.

Lemma find_last_unique {A} (p : A -> bool) (l : list A) (x : A) :
  In x l -> p x = true -> (forall y, In y l -> p y = true -> y = x) ->
  find_last p l = Some x.
Proof.
  intros Hin Hp Hu. destruct (find_last_in p l x Hin Hp) as [y Hy].
  rewrite Hy. f_equal. apply find_last_some in Hy as [Hy1 Hy2]. auto.
Qed.

Lemma traverse_In {A B} (f : A -> option B) (l : list A) (ys : list B) :
  traverse f l = Some ys ->
  forall x, In x l -> exists y, f x = Some y /\ In y ys.
Proof.
  revert ys. induction l as [|a r IH]; intros ys; simpl.
  - intros _ x [].
  - destruct (f a) as [b|] eqn:Ea; [|discriminate].
    destruct (traverse f r) as [bs|]; [|discriminate].
    intros [= <-] x [<-|Hx].
    + exists b. simpl. auto.
    + destruct (IH bs eq_refl x Hx) as (y & Hy & Hin). exists y. simpl. auto.
Qed.

Lemma traverse_image {A B} (f : A -> option B) (l : list A) (ys : list B) :
  traverse f l = Some ys ->
  forall y, In y ys -> exists x, In x l /\ f x = Some y.
Proof.
  revert ys. induction l as [|a r IH]; intros ys; simpl.
  - intros [= <-] y [].
  - destruct (f a) as [b|] eqn:Ea; [|discriminate].
    destruct (traverse f r) as [bs|]; [|discriminate].
    intros [= <-] y [<-|Hy].
    + exists a. auto.
    + destruct (IH bs eq_refl y Hy) as (x & Hx & Hf). exists x. auto.
Qed.

Lemma set_of_In (x : string) (l : list string) : In x (set_of l) <-> In x l.
Proof.
  induction l as [|y r IH]; simpl; [reflexivity|].
  destruct (mem y r) eqn:E.
  - rewrite IH. apply mem_In in E. split; [auto|]. intros [<-|H]; auto.
  - simpl. rewrite IH. reflexivity.
Qed.

Lemma insert_sorted_In (x y : string) (l : list string) :
  In x (insert_sorted y l) <-> x = y \/ In x l.
Proof.
  induction l as [|z r IH]; simpl; [intuition|].
  destruct (String.compare y z) eqn:E; simpl.
  - apply String.compare_eq_iff in E. subst. intuition.
  - intuition.
  - rewrite IH. intuition.
Qed.

Lemma unique_days_In (inp : SchedulingInput) (d : string) :
  In d (unique_days inp) <-> exists t, In t (timeslots inp) /\ day t = d.
Proof.
  unfold unique_days.
  assert (H : forall ts acc,
            In d (fold_left (fun l t => insert_sorted (day t) l) ts acc) <->
            In d acc \/ exists t, In t ts /\ day t = d).
  { induction ts as [|t r IH]; intros acc; simpl.
    - split; [auto|]. intros [H|(t & [] & _)]. exact H.
    - rewrite IH, insert_sorted_In. split.
      + intros [[->|H]|(t' & Ht' & Hd)]; eauto.
      + intros [H|(t' & [<-|Ht'] & Hd)]; eauto. }
  rewrite H. simpl. split; [intros [[]|H']; exact H'|auto].
Qed.

Lemma timeslot_days_get (ts : list Timeslot) (slot d : string) :
  dict_get slot (_timeslot_days ts) = Some d ->
  exists t, In t ts /\ slot_id t = slot /\ day t = d.
Proof.
  unfold _timeslot_days. rewrite (dict_fold_get slot_id day). simpl.
  destruct (find_last _ ts) as [t|] eqn:E; [|discriminate].
  intros [= <-]. apply find_last_some in E as [Hin He].
  apply String.eqb_eq in He. exists t. auto.
Qed.

Lemma lookup_days_In (td : dict string) (slots ds : list string) :
  lookup_days td slots = Some ds ->
  (forall slot, In slot slots -> exists d, dict_get slot td = Some d /\ In d ds)
  /\ (forall d, In d ds -> exists slot, In slot slots /\ dict_get slot td = Some d).
Proof.
  revert ds. induction slots as [|s r IH]; intros ds; simpl.
  - intros [= <-]. split; [intros ? []|intros ? []].
  - destruct (dict_get s td) as [d0|] eqn:E; [|discriminate].
    destruct (lookup_days td r) as [ds0|]; [|discriminate].
    intros [= <-]. destruct (IH ds0 eq_refl) as [H1 H2]. split.
    + intros slot [<-|Hs]; [exists d0; simpl; auto|].
      destruct (H1 slot Hs) as (d & Hd & Hin). exists d. simpl. auto.
    + intros d [<-|Hd]; [exists s; auto|].
      destruct (H2 d Hd) as (slot & Hs & Hg). exists slot. auto.
Qed.

(** ** Adjunct day excess *)

Lemma pair_eqb_spec (a b : string * string) : pair_eqb a b = true <-> a = b.
Proof.
  destruct a as [a1 a2], b as [b1 b2]. unfold pair_eqb. simpl.
  rewrite andb_true_iff, !String.eqb_eq. split; [intros [-> ->]|intros [= -> ->]]; auto.
Qed.

Lemma pd_get_set {V} (k k' : string * string) (v : V) (d : pdict V) :
  pd_get k (pd_set k' v d) = if pair_eqb k k' then Some v else pd_get k d.
Proof.
  induction d as [|[k2 v2] r IH]; simpl.
  - reflexivity.
  - destruct (pair_eqb k' k2) eqn:E2; simpl.
    + apply pair_eqb_spec in E2. subst k2.
      now destruct (pair_eqb k k').
    + destruct (pair_eqb k k2) eqn:E; [|exact IH].
      destruct (pair_eqb k k') eqn:E'; [|reflexivity].
      apply pair_eqb_spec in E, E'. subst.
      assert (pair_eqb k2 k2 = true) by now apply pair_eqb_spec. congruence.
Qed.

Lemma adjunct_max_days_some (i : Instructor) (M : Z) :
  adjunct_max_days i = Some M <->
  rank_type i = "Adjunct" /\ max_teaching_days (preferences i) = Some M /\ M <> 0.
Proof.
  unfold adjunct_max_days.
  destruct (String.eqb_spec (rank_type i) "Adjunct") as [E|E]; simpl.
  - rewrite truthy_int_some. intuition.
  - split; [discriminate|]. intros [H _]. contradiction.
Qed.

(** The day variables registered for one instructor. *)
Lemma day_vars_fold_get (id : string) (n : nat) (days : list string)
    (d : pdict var) (k : string * string) :
  pd_get k (fold_left (fun d' dy => pd_set (id, dy) (DayVar n dy) d') days d) =
  if String.eqb (fst k) id && mem (snd k) days then Some (DayVar n (snd k))
  else pd_get k d.
Proof.
  revert d. induction days as [|dy r IH]; intros d; simpl.
  - now rewrite andb_false_r.
  - rewrite IH, pd_get_set. unfold pair_eqb. simpl.
    destruct (String.eqb (fst k) id); simpl; [|reflexivity].
    destruct (mem (snd k) r); [now rewrite orb_true_r|].
    rewrite orb_false_r. destruct (String.eqb_spec (snd k) dy) as [->|]; reflexivity.
Qed.

Lemma instructor_day_vars_fold (days : list string) (l : list (nat * Instructor))
    (d : pdict var) (k : string * string) :
  pd_get k
    (fold_left
       (fun d0 ii =>
          match adjunct_max_days (snd ii) with
          | Some _ =>
              fold_left (fun d' dy => pd_set (inst_id (snd ii), dy) (DayVar (fst ii) dy) d')
                        days d0
          | None => d0
          end) l d) =
  match find_last
          (fun ii => match adjunct_max_days (snd ii) with
                     | Some _ => String.eqb (fst k) (inst_id (snd ii)) && mem (snd k) days
                     | None => false
                     end) l with
  | Some ii => Some (DayVar (fst ii) (snd k))
  | None => pd_get k d
  end.
Proof.
  revert d. induction l as [|ii r IH]; intros d; simpl; [reflexivity|].
  rewrite IH. destruct (find_last _ r); [reflexivity|].
  destruct (adjunct_max_days (snd ii)); [|reflexivity].
  rewrite day_vars_fold_get.
  now destruct (String.eqb (fst k) (inst_id (snd ii)) && mem (snd k) days).
Qed.

(** With distinct instructor ids, the day variable found under
    [(instructor.id, day)] is the one created for that instructor. *)
Lemma instructor_day_vars_get (inp : SchedulingInput) (ii : nat) (i : Instructor)
    (M : Z) (d : string) :
  NoDup (map inst_id (instructors inp)) ->
  nth_error (instructors inp) ii = Some i ->
  adjunct_max_days i = Some M ->
  In d (unique_days inp) ->
  pd_get (inst_id i, d) (instructor_day_vars inp) = Some (DayVar ii d).
Proof.
  intros Hnd Hn Hadj Hd. unfold instructor_day_vars.
  rewrite instructor_day_vars_fold. simpl.
  rewrite (@find_last_unique _ _ _ (ii, i)); [reflexivity| | |].
  - now apply enumerate_In.
  - simpl. rewrite Hadj, String.eqb_refl. simpl. now apply mem_In.
  - intros [n' i'] Hin Hp. simpl in Hp. apply enumerate_In in Hin.
    destruct (adjunct_max_days i'); [|discriminate].
    apply andb_true_iff in Hp as [He _]. apply String.eqb_eq in He.
    destruct (nth_error_unique_key inst_id _ _ _ Hnd Hn Hin He) as [-> ->].
    reflexivity.
Qed.

Lemma adjunct_terms_In (inp : SchedulingInput) (c : Z) (x : var) :
  In (c, x) (adjunct_terms inp) <->
  exists ii i M, x = Excess ii /\ c = ADJUNCT_DAY_EXCESS_WEIGHT
                 /\ nth_error (instructors inp) ii = Some i
                 /\ adjunct_max_days i = Some M.
Proof.
  unfold adjunct_terms. rewrite in_flat_map. split.
  - intros ([ii i] & Hin & H). simpl in H. apply enumerate_In in Hin.
    destruct (adjunct_max_days i) as [M|] eqn:E; [|contradiction].
    destruct H as [[= <- <-]|[]]. exists ii, i, M. auto.
  - intros (ii & i & M & -> & -> & Hn & Hadj). exists (ii, i).
    split; [now apply enumerate_In|]. simpl. rewrite Hadj. simpl. auto.
Qed.

Lemma adjunct_constraints_In (inp : SchedulingInput) (ii : nat) (i : Instructor) (M : Z) :
  nth_error (instructors inp) ii = Some i -> adjunct_max_days i = Some M ->
  In (ExcessGe (Excess ii) (map (DayVar ii) (unique_days inp)) M) (adjunct_constraints inp)
  /\ In (NonNeg (Excess ii)) (adjunct_constraints inp).
Proof.
  intros Hn Hadj. unfold adjunct_constraints.
  split; apply in_flat_map; exists (ii, i);
    (split; [now apply enumerate_In|]); simpl; rewrite Hadj; simpl; auto.
Qed.

Lemma adjunct_vars_In (inp : SchedulingInput) (ii : nat) (i : Instructor) (M : Z) :
  nth_error (instructors inp) ii = Some i -> adjunct_max_days i = Some M ->
  In (Excess ii, (0, Z.of_nat (List.length (unique_days inp)))) (adjunct_vars inp)
  /\ forall d, In d (unique_days inp) -> In (bool_var (DayVar ii d)) (adjunct_vars inp).
Proof.
  intros Hn Hadj. unfold adjunct_vars.
  split; [|intros d Hd]; apply in_flat_map; exists (ii, i);
    (split; [now apply enumerate_In|]); simpl; rewrite Hadj; apply in_or_app.
  - right. simpl. auto.
  - left. apply in_map_iff. exists d. auto.
Qed.

Lemma instructors_by_id_get (inp : SchedulingInput) (i : Instructor) :
  NoDup (map inst_id (instructors inp)) -> In i (instructors inp) ->
  dict_get (inst_id i) (instructors_by_id inp) = Some i.
Proof.
  intros Hnd Hin. unfold instructors_by_id. rewrite dict_of_get.
  now apply find_last_nodup.
Qed.

Lemma option_terms_vars (inp : SchedulingInput)
    (items : list (string * nat * AssignOption)) (terms : list (Z * var)) :
  traverse (option_term inp) items = Some terms ->
  forall c x, In (c, x) terms -> exists it, In it items /\ x = item_var it.
Proof.
  intros Ht c x Hin.
  destruct (traverse_image _ _ Ht _ Hin) as (it & Hit & Hf).
  exists it. split; [assumption|]. unfold option_term in Hf.
  destruct (item_instructor inp (fst (fst it))); [|discriminate].
  destruct (option_days inp (snd it)); [|discriminate].
  now injection Hf as _ <-.
Qed.

Lemma soft_lock_terms_vars (inp : SchedulingInput)
    (items : list (string * nat * AssignOption)) (c : Z) (x : var) :
  In (c, x) (soft_lock_terms inp items) -> exists it, In it items /\ x = item_var it.
Proof.
  unfold soft_lock_terms. rewrite in_flat_map. intros (it & Hit & H).
  exists it. split; [assumption|]. unfold soft_lock_term in H.
  destruct (dict_get _ _); [|contradiction].
  destruct (Qpositive _); [|contradiction].
  now destruct H as [[= _ <-]|[]].
Qed.

Lemma build_model_parts (inp : SchedulingInput) (opts : dict (list AssignOption))
    (m : CpModel) :
  build_model inp opts = Some m ->
  exists terms links,
    traverse (option_term inp) (option_items opts) = Some terms
    /\ traverse (option_day_links inp) (option_items opts) = Some links
    /\ cp_vars m = (map (fun it => bool_var (item_var it)) (option_items opts)
                    ++ room_usage_vars inp (option_items opts)
                    ++ adjunct_vars inp)%list
    /\ cp_constraints m = (hard_constraints inp opts ++ adjunct_constraints inp
                           ++ List.concat links)%list
    /\ cp_objective m = (adjunct_terms inp ++ terms
                         ++ soft_lock_terms inp (option_items opts))%list.
Proof.
  unfold build_model.
  destruct (traverse (option_term inp) _) as [terms|]; [|discriminate].
  destruct (traverse (option_day_links inp) _) as [links|]; [|discriminate].
  intros [= <-]. exists terms, links. simpl. auto.
Qed.

(** The link constraints of one option of a section taught by an adjunct
    with a day limit. *)
Lemma option_day_link_In (inp : SchedulingInput) (opts : dict (list AssignOption))
    (m : CpModel) (ii : nat) (i : Instructor) (M : Z)
    (sid : string) (idx : nat) (o : AssignOption) (s : CourseSection) (slot d : string) :
  build_model inp opts = Some m ->
  NoDup (map inst_id (instructors inp)) ->
  nth_error (instructors inp) ii = Some i ->
  adjunct_max_days i = Some M ->
  In (sid, idx, o) (option_items opts) ->
  dict_get sid (sections_by_id inp) = Some s ->
  instructor_id s = inst_id i ->
  In slot (opt_slots o) ->
  dict_get slot (_timeslot_days (timeslots inp)) = Some d ->
  In d (unique_days inp) /\ In (VarGe (DayVar ii d) (OptVar sid idx)) (cp_constraints m).
Proof.
  intros Hm Hnd Hn Hadj Hit Hs Hinst Hslot Hd.
  assert (Hud : In d (unique_days inp)).
  { apply unique_days_In. destruct (timeslot_days_get _ _ Hd) as (t & Ht & _ & Hday).
    exists t. auto. }
  split; [exact Hud|].
  destruct (build_model_parts _ _ Hm) as (terms & links & _ & Hl & _ & Hc & _).
  rewrite Hc. apply in_or_app. right. apply in_or_app. right.
  destruct (traverse_In _ _ Hl _ Hit) as (lk & Hlk & Hin).
  apply in_concat. exists lk. split; [assumption|].
  unfold option_day_links, item_instructor in Hlk. simpl in Hlk.
  rewrite Hs, Hinst in Hlk.
  rewrite (instructors_by_id_get inp i Hnd (nth_error_In _ _ Hn)) in Hlk.
  unfold option_days in Hlk.
  destruct (lookup_days _ (opt_slots o)) as [ds|] eqn:Eds; [|discriminate].
  simpl in Hlk. injection Hlk as <-.
  apply adjunct_max_days_some in Hadj as Hadj'. destruct Hadj' as (Hrank & _).
  rewrite Hrank. simpl. apply in_flat_map. exists d. split.
  - apply set_of_In. destruct (lookup_days_In _ _ Eds) as [H1 _].
    destruct (H1 slot Hslot) as (d' & Hd' & Hin'). congruence.
  - rewrite (@instructor_day_vars_get inp ii i M d Hnd Hn Hadj Hud). simpl. auto.
Qed.

(** C6 (amended).  In the model built by [_solve_schedule], the adjunct
    day-excess term [e * 15] is in the objective exactly for the
    instructors whose [rank_type] is "Adjunct" and whose
    [max_teaching_days] is set to a value [M] other than 0.  For each of
    them the model has a boolean [d] per day of the timeslots, an integer
    [e] with [e >= 0] and [e >= sum of the d - M], and, instructor ids being
    distinct, [d >= x] for every option [x] of every section taught by the
    instructor whose timeslot set touches the day. *)
Theorem adjunct_day_excess_model (inp : SchedulingInput) (m : CpModel) :
  build_model inp (fst (_build_options no_flags inp)) = Some m ->
  (forall ii c,
      In (c, Excess ii) (cp_objective m) <->
      c = 15 /\ exists i M, nth_error (instructors inp) ii = Some i
                            /\ rank_type i = "Adjunct"
                            /\ max_teaching_days (preferences i) = Some M /\ M <> 0)
  /\ (forall ii i M,
        nth_error (instructors inp) ii = Some i ->
        rank_type i = "Adjunct" ->
        max_teaching_days (preferences i) = Some M -> M <> 0 ->
        (forall d, In d (unique_days inp) -> In (DayVar ii d, (0, 1)) (cp_vars m))
        /\ In (Excess ii, (0, Z.of_nat (List.length (unique_days inp)))) (cp_vars m)
        /\ In (NonNeg (Excess ii)) (cp_constraints m)
        /\ In (ExcessGe (Excess ii) (map (DayVar ii) (unique_days inp)) M)
              (cp_constraints m)
        /\ (NoDup (map inst_id (instructors inp)) ->
            forall sid idx o s slot d,
              In (sid, idx, o) (option_items (fst (_build_options no_flags inp))) ->
              dict_get sid (sections_by_id inp) = Some s ->
              instructor_id s = inst_id i ->
              In slot (opt_slots o) ->
              dict_get slot (_timeslot_days (timeslots inp)) = Some d ->
              In d (unique_days inp)
              /\ In (VarGe (DayVar ii d) (OptVar sid idx)) (cp_constraints m))).
Proof.
  intros Hm.
  destruct (build_model_parts _ _ Hm) as (terms & links & Ht & Hl & Hv & Hc & Ho).
  split.
  - intros ii c. rewrite Ho. split.
    + intros H. apply in_app_or in H as [H|H].
      * apply adjunct_terms_In in H as (ii' & i & M & [= <-] & -> & Hn & Hadj).
        apply adjunct_max_days_some in Hadj. split; [reflexivity|]. exists i, M. tauto.
      * exfalso. apply in_app_or in H as [H|H].
        -- destruct (option_terms_vars _ _ Ht _ _ H) as (it & _ & E). discriminate.
        -- destruct (soft_lock_terms_vars _ _ _ _ H) as (it & _ & E). discriminate.
    + intros (-> & i & M & Hn & Hr & Hmax & Hne).
      apply in_or_app. left. apply adjunct_terms_In. exists ii, i, M.
      repeat split; auto. apply adjunct_max_days_some. auto.
  - intros ii i M Hn Hr Hmax Hne.
    assert (Hadj : adjunct_max_days i = Some M) by (apply adjunct_max_days_some; auto).
    destruct (@adjunct_vars_In inp ii i M Hn Hadj) as [Hve Hvd].
    destruct (@adjunct_constraints_In inp ii i M Hn Hadj) as [Hce Hcn].
    split; [|split; [|split; [|split]]].
    + intros d Hd. rewrite Hv. apply in_or_app. right. apply in_or_app. right.
      now apply Hvd.
    + rewrite Hv. apply in_or_app. right. apply in_or_app. now right.
    + rewrite Hc. apply in_or_app. right. apply in_or_app. now left.
    + rewrite Hc. apply in_or_app. right. apply in_or_app. now left.
    + intros Hnd sid idx o s slot d Hit Hs Hinst Hslot Hd.
      exact (@option_day_link_In inp _ m ii i M sid idx o s slot d
               Hm Hnd Hn Hadj Hit Hs Hinst Hslot Hd).
Qed.

(** An adjunct with [max_teaching_days = 0] gets no day-excess term and no
    day-excess constraint: the whole objective is the term of the only
    option. *)
Lemma adjunct_day_excess_counterexample :
  nth_error (instructors Examples.zero_max_days) 0 = Some Examples.adjunct_zero
  /\ rank_type Examples.adjunct_zero = "Adjunct"
  /\ max_teaching_days (preferences Examples.adjunct_zero) = Some 0
  /\ exists m,
       build_model Examples.zero_max_days
         (fst (_build_options no_flags Examples.zero_max_days)) = Some m
       /\ cp_objective m = [(25, OptVar "S1" 0)]
       /\ forall c, ~ In (c, Excess 0) (cp_objective m).
Proof.
  split; [reflexivity|]. split; [reflexivity|]. split; [reflexivity|].
  eexists. split; [reflexivity|]. split; [reflexivity|].
  intros c [H|[]]. discriminate.
Qed.

Lemma adjunct_day_excess_model_witness :
  (exists m,
     build_model Examples.one_max_day
       (fst (_build_options no_flags Examples.one_max_day)) = Some m
     /\ In (15, Excess 0) (cp_objective m)
     /\ In (ExcessGe (Excess 0) [DayVar 0 "Mon"] 1) (cp_constraints m)
     /\ In (VarGe (DayVar 0 "Mon") (OptVar "S1" 0)) (cp_constraints m))
  /\ NoDup (map inst_id (instructors Examples.one_max_day)).
Proof.
  assert (Hnd : NoDup (map inst_id (instructors Examples.one_max_day))).
  { simpl. repeat constructor. simpl. tauto. }
  split; [|exact Hnd].
  eexists. split; [reflexivity|].
  match goal with
  | |- In _ (cp_objective ?m) /\ _ =>
      destruct (@adjunct_day_excess_model Examples.one_max_day m eq_refl) as [Hobj Hmod]
  end.
  split; [apply Hobj; split; [reflexivity|]; exists Examples.adjunct_one, 1;
          repeat split; discriminate|].
  destruct (Hmod 0%nat Examples.adjunct_one 1 eq_refl eq_refl eq_refl ltac:(discriminate))
    as (_ & _ & _ & Hge & Hlink).
  split; [exact Hge|].
  exact (proj2 (Hlink Hnd "S1" 0%nat (mkOption "P1" ["T1"] "R1" 10) Examples.S1
                  "T1" "Mon" (or_introl eq_refl) eq_refl eq_refl (or_introl eq_refl)
                  eq_refl)).
Defined.

(** ** Cross-list groups and roomshare keys *)

Lemma member_pairs_In (l : list string) (a b : string) :
  In (a, b) (member_pairs l) -> In a l /\ In b l.
Proof.
  induction l as [|x r IH]; simpl; [contradiction|].
  intros H. apply in_app_or in H as [H|H].
  - apply in_map_iff in H as (y & [= <- <-] & Hy). auto.
  - destruct (IH H). auto.
Qed.

(** Every cross-list constraint is a pair constraint between options of
    two members of a group of the input. *)
Lemma crosslist_constraints_In (inp : SchedulingInput) (opts : dict (list AssignOption))
    (c : constr) :
  In c (crosslist_constraints inp opts) ->
  exists grp a b ia ib,
    In grp (crosslist_groups inp)
    /\ In a (xl_member_section_ids grp) /\ In b (xl_member_section_ids grp)
    /\ c = SumLe1 [OptVar a ia; OptVar b ib].
Proof.
  unfold crosslist_constraints. intros H.
  apply in_flat_map in H as (grp & Hg & H).
  apply in_flat_map in H as ([a b] & Hab & H).
  apply member_pairs_In in Hab as [Ha Hb].
  unfold crosslist_pair_constraints in H. simpl in H.
  apply in_flat_map in H as (ia & _ & H).
  apply in_flat_map in H as (ib & _ & H).
  exists grp, a, b, (fst ia), (fst ib). repeat split; auto.
  destruct (negb (tuple_eqb _ _)); [destruct H as [<-|[]]; reflexivity|].
  destruct (require_same_room grp && _); [destruct H as [<-|[]]; reflexivity|contradiction].
Qed.

Lemma crosslist_roomshare_In (inp : SchedulingInput) (g : string) :
  In g (crosslist_roomshare inp) <->
  exists grp, In grp (crosslist_groups inp) /\ require_same_room grp = true /\ xl_id grp = g.
Proof.
  unfold crosslist_roomshare. rewrite in_map_iff. split.
  - intros (grp & <- & H). apply filter_In in H as [H1 H2]. exists grp. auto.
  - intros (grp & H1 & H2 & <-). exists grp. split; [reflexivity|].
    apply filter_In. auto.
Qed.

(** The roomshare key of a section is its group id when a same-room group
    of the input has that id, and the per-section key otherwise. *)
Lemma roomshare_key_cases (inp : SchedulingInput) (s : CourseSection) :
  (roomshare_key inp s = "sec:" ++ sec_id s
   /\ forall g, crosslist_group_id s = Some g -> ~ In g (crosslist_roomshare inp))
  \/ (exists g, crosslist_group_id s = Some g /\ In g (crosslist_roomshare inp)
                /\ roomshare_key inp s = g).
Proof.
  unfold roomshare_key. destruct (crosslist_group_id s) as [g|].
  - destruct (mem g (crosslist_roomshare inp)) eqn:E.
    + right. exists g. apply mem_In in E. auto.
    + left. split; [reflexivity|]. intros g' [= <-]. now apply mem_false.
  - left. split; [reflexivity|]. discriminate.
Qed.

Lemma section_to_roomshare_group_get (inp : SchedulingInput) (sid : string) :
  dict_get sid (section_to_roomshare_group inp) =
  option_map (roomshare_key inp) (dict_get sid (sections_by_id inp)).
Proof.
  unfold section_to_roomshare_group, sections_by_id.
  rewrite (dict_fold_get sec_id (roomshare_key inp)), dict_of_get. simpl.
  now destruct (find_last _ (sections inp)).
Qed.

(** C10 (amended).  For a section of the input whose [crosslist_group_id]
    is a non-empty id [g] that no group of [crosslist_groups] carries:
    every option generated for it is in a room whose capacity is at least
    the summed expected enrollment of the sections naming [g]; every
    cross-list constraint of the model that mentions one of its option
    variables comes from a group of the input that lists the section in
    [member_section_ids] (so there is none when no group lists it); and its
    roomshare key is the per-section key ["sec:<id>"], which another
    section has only with the same id or through a same-room group of the
    input that is itself named ["sec:<id>"]. *)
Theorem dangling_crosslist_group (inp : SchedulingInput) (s : CourseSection) (g : string) :
  In s (sections inp) ->
  crosslist_group_id s = Some g -> g <> "" ->
  (forall grp, In grp (crosslist_groups inp) -> xl_id grp <> g) ->
  (forall o, In o (section_options no_flags inp s) ->
     exists room, In room (rooms inp) /\ opt_room o = room_id room
                  /\ capacity room >= group_total (sections inp) g)
  /\ (forall c idx,
        In c (crosslist_constraints inp (fst (_build_options no_flags inp))) ->
        In (OptVar (sec_id s) idx) (constr_vars c) ->
        exists grp, In grp (crosslist_groups inp)
                    /\ In (sec_id s) (xl_member_section_ids grp) /\ xl_id grp <> g)
  /\ ((forall grp, In grp (crosslist_groups inp) ->
         ~ In (sec_id s) (xl_member_section_ids grp)) ->
      forall c idx,
        In c (crosslist_constraints inp (fst (_build_options no_flags inp))) ->
        ~ In (OptVar (sec_id s) idx) (constr_vars c))
  /\ roomshare_key inp s = "sec:" ++ sec_id s
  /\ (dict_get (sec_id s) (sections_by_id inp) = Some s ->
      dict_get (sec_id s) (section_to_roomshare_group inp) = Some ("sec:" ++ sec_id s))
  /\ (forall s', roomshare_key inp s' = roomshare_key inp s ->
        sec_id s' = sec_id s
        \/ exists grp, In grp (crosslist_groups inp) /\ require_same_room grp = true
                       /\ xl_id grp = "sec:" ++ sec_id s
                       /\ crosslist_group_id s' = Some (xl_id grp)).
Proof.
  intros Hs Hg Hne Hnone.
  assert (Hmention : forall c idx,
            In c (crosslist_constraints inp (fst (_build_options no_flags inp))) ->
            In (OptVar (sec_id s) idx) (constr_vars c) ->
            exists grp, In grp (crosslist_groups inp)
                        /\ In (sec_id s) (xl_member_section_ids grp) /\ xl_id grp <> g).
  { intros c idx Hc Hv.
    destruct (crosslist_constraints_In _ _ _ Hc)
      as (grp & a & b & ia & ib & Hgrp & Ha & Hb & ->).
    exists grp. split; [assumption|]. split; [|now apply Hnone].
    simpl in Hv. destruct Hv as [[= <- _]|[[= <- _]|[]]]; assumption. }
  assert (Hkey : roomshare_key inp s = "sec:" ++ sec_id s).
  { destruct (roomshare_key_cases inp s) as [[H _]|(g' & Hg' & Hin & _)]; [exact H|].
    rewrite Hg in Hg'. injection Hg' as <-.
    apply crosslist_roomshare_In in Hin as (grp & Hgrp & _ & He).
    now elim (Hnone grp Hgrp). }
  split; [|split; [exact Hmention|split; [|split; [exact Hkey|split]]]].
  - intros o Ho.
    destruct (section_options_invariant _ _ _ Ho)
      as (room & Hr & Hid & _ & _ & _ & _ & Hcap & _).
    exists room. auto.
  - intros Hno c idx Hc Hv.
    destruct (Hmention c idx Hc Hv) as (grp & Hgrp & Hin & _).
    exact (Hno grp Hgrp Hin).
  - intros Hres. rewrite section_to_roomshare_group_get, Hres. simpl. now rewrite Hkey.
  - intros s' He. rewrite Hkey in He.
    destruct (roomshare_key_cases inp s') as [[H _]|(g' & Hg' & Hin & Hk)].
    + left. rewrite H in He. now injection He.
    + right. rewrite Hk in He. subst g'.
      apply crosslist_roomshare_In in Hin as (grp & Hgrp & Hsame & Hid).
      exists grp. rewrite Hid. auto.
Qed.

(** The section [S1] names the group "GX", which is not in the input, and
    the group "G1" of the input lists it: the model forbids option 0 of
    [S1] (slot T1) together with option 2 of [S2] (slot T2). *)
Lemma dangling_crosslist_group_counterexample :
  In Examples.S1_dangling (sections Examples.foreign_member)
  /\ crosslist_group_id Examples.S1_dangling = Some "GX"
  /\ (forall grp, In grp (crosslist_groups Examples.foreign_member) -> xl_id grp <> "GX")
  /\ In (SumLe1 [OptVar "S1" 0; OptVar "S2" 2])
        (crosslist_constraints Examples.foreign_member
           (fst (_build_options no_flags Examples.foreign_member)))
  /\ In (OptVar (sec_id Examples.S1_dangling) 0)
        (constr_vars (SumLe1 [OptVar "S1" 0; OptVar "S2" 2])).
Proof.
  split; [simpl; auto|]. split; [reflexivity|]. split.
  - intros grp [<-|[]]. discriminate.
  - split; [vm_compute; tauto|simpl; auto].
Qed.

Lemma dangling_crosslist_group_witness :
  In Examples.S1_dangling (sections Examples.dangling_only)
  /\ crosslist_group_id Examples.S1_dangling = Some "GX"
  /\ (forall grp, In grp (crosslist_groups Examples.dangling_only) -> xl_id grp <> "GX")
  /\ roomshare_key Examples.dangling_only Examples.S1_dangling = "sec:S1"
  /\ dict_get "S1" (section_to_roomshare_group Examples.dangling_only) = Some "sec:S1".
Proof.
  assert (H1 : In Examples.S1_dangling (sections Examples.dangling_only))
    by (simpl; auto).
  assert (H2 : forall grp, In grp (crosslist_groups Examples.dangling_only) ->
                           xl_id grp <> "GX") by (intros grp []).
  destruct (@dangling_crosslist_group Examples.dangling_only Examples.S1_dangling "GX"
              H1 eq_refl ltac:(discriminate) H2) as (_ & _ & _ & Hk & Hd & _).
  split; [exact H1|]. split; [reflexivity|]. split; [exact H2|].
  split; [exact Hk|]. exact (Hd eq_refl).
Defined.

(** ** Room usage *)

Lemma dict_set_In {V} (k k' : string) (v v' : V) (d : dict V) :
  In (k, v) (dict_set k' v' d) -> (k = k' /\ v = v') \/ In (k, v) d.
Proof.
  induction d as [|[k2 v2] r IH]; simpl.
  - intros [[= <- <-]|[]]. auto.
  - destruct (String.eqb_spec k' k2) as [->|Hne]; simpl.
    + intros [[= <- <-]|H]; auto.
    + intros [H|H]; [auto|]. destruct (IH H); auto.
Qed.

Lemma dict_set_keys {V} (k : string) (v : V) (d : dict V) :
  forall x, In x (map fst (dict_set k v d)) <-> x = k \/ In x (map fst d).
Proof.
  induction d as [|[k2 v2] r IH]; intros x; simpl.
  - intuition.
  - destruct (String.eqb_spec k k2) as [->|Hne]; simpl.
    + intuition.
    + rewrite IH. intuition.
Qed.

Lemma dict_set_NoDup {V} (k : string) (v : V) (d : dict V) :
  NoDup (map fst d) -> NoDup (map fst (dict_set k v d)).
Proof.
  induction d as [|[k2 v2] r IH]; simpl; intros Hnd.
  - repeat constructor. simpl. tauto.
  - inversion Hnd as [|? ? Hnin Hr]; subst.
    destruct (String.eqb_spec k k2) as [->|Hne]; simpl.
    + now constructor.
    + constructor; [|now apply IH].
      rewrite dict_set_keys. intros [E|E]; [now elim Hne|contradiction].
Qed.

Lemma dict_get_In {V} (k : string) (v : V) (d : dict V) :
  dict_get k d = Some v -> In (k, v) d.
Proof.
  induction d as [|[k2 v2] r IH]; simpl; [discriminate|].
  destruct (String.eqb_spec k k2) as [->|Hne].
  - intros [= ->]. auto.
  - auto.
Qed.

Lemma dict_In_get {V} (k : string) (v : V) (d : dict V) :
  NoDup (map fst d) -> In (k, v) d -> dict_get k d = Some v.
Proof.
  induction d as [|[k2 v2] r IH]; simpl; [contradiction|].
  intros Hnd. inversion Hnd as [|? ? Hnin Hr]; subst.
  intros [[= -> ->]|Hin].
  - now rewrite String.eqb_refl.
  - destruct (String.eqb_spec k k2) as [->|Hne]; [|auto].
    elim Hnin. apply in_map_iff. exists (k2, v). auto.
Qed.

Lemma dict_get_default_set {V} (k k' : string) (dflt v : V) (d : dict V) :
  dict_get_default k dflt (dict_set k' v d) =
  if String.eqb k k' then v else dict_get_default k dflt d.
Proof.
  unfold dict_get_default. rewrite dict_get_set. now destruct (String.eqb k k').
Qed.

(** The items that fall into the bucket [k] of the cell [(r, t)]. *)
Lemma vars_by_group_fold (keys : dict string) (r t : string)
    (items : list (string * nat * AssignOption)) (d : dict (list var)) :
  (NoDup (map fst d) ->
   NoDup (map fst (fold_left (vars_by_group_step keys r t) items d)))
  /\ forall k,
       dict_get k (fold_left (vars_by_group_step keys r t) items d) =
       match filter (fun it => uses (snd it) r t
                               && String.eqb (dict_get_default (fst (fst it)) "" keys) k)
                    items with
       | [] => dict_get k d
       | l => Some (dict_get_default k [] d ++ map item_var l)%list
       end.
Proof.
  revert d. induction items as [|it rest IH]; intros d; simpl.
  - split; [auto|reflexivity].
  - destruct (IH (vars_by_group_step keys r t d it)) as [IHnd IHget]. split.
    + intros Hnd. apply IHnd. unfold vars_by_group_step.
      destruct (uses (snd it) r t); [now apply dict_set_NoDup|assumption].
    + intros k. rewrite IHget. unfold vars_by_group_step.
      destruct (uses (snd it) r t) eqn:Eu; simpl; [|reflexivity].
      rewrite dict_get_set, dict_get_default_set.
      rewrite (String.eqb_sym k).
      destruct (String.eqb_spec (dict_get_default (fst (fst it)) "" keys) k)
        as [<-|Hne].
      * destruct (filter _ rest) as [|y l]; simpl; [reflexivity|].
        now rewrite <- app_assoc.
      * reflexivity.
Qed.

Lemma vars_by_group_NoDup (keys : dict string) (r t : string)
    (items : list (string * nat * AssignOption)) :
  NoDup (map fst (vars_by_group keys items r t)).
Proof.
  unfold vars_by_group.
  apply (proj1 (vars_by_group_fold keys r t items [])). constructor.
Qed.

(** The bucket of key [k] holds the variables of the items that use the
    cell and have that key, and exists exactly when there is one. *)
Lemma vars_by_group_In (keys : dict string) (r t : string)
    (items : list (string * nat * AssignOption)) (k : string) (vs : list var) :
  In (k, vs) (vars_by_group keys items r t) <->
  vs <> []
  /\ vs = map item_var
            (filter (fun it => uses (snd it) r t
                               && String.eqb (dict_get_default (fst (fst it)) "" keys) k)
                    items).
Proof.
  pose proof (vars_by_group_NoDup keys r t items) as Hnd.
  pose proof (proj2 (vars_by_group_fold keys r t items []) k) as Hget.
  simpl in Hget. fold (vars_by_group keys items r t) in Hget.
  split.
  - intros Hin. apply (dict_In_get _ _ _ Hnd) in Hin. rewrite Hget in Hin.
    destruct (filter _ items) as [|y l]; [discriminate|].
    injection Hin as <-. split; [discriminate|reflexivity].
  - intros [Hne ->]. apply dict_get_In. rewrite Hget.
    destruct (filter _ items) as [|y l]; [now elim Hne|reflexivity].
Qed.

Lemma cells_In (inp : SchedulingInput) (ri ti : nat) (room : Room) (tslot : Timeslot) :
  In ((ri, room), (ti, tslot)) (cells inp) <->
  nth_error (rooms inp) ri = Some room /\ nth_error (timeslots inp) ti = Some tslot.
Proof.
  unfold cells. rewrite in_flat_map. split.
  - intros ([ri' room'] & Hr & H). apply in_map_iff in H as ([ti' tslot'] & [= -> -> -> ->] & Ht).
    split; now apply enumerate_In.
  - intros [Hr Ht]. exists (ri, room). split; [now apply enumerate_In|].
    apply in_map_iff. exists (ti, tslot). split; [reflexivity|now apply enumerate_In].
Qed.

Lemma sum_vars_nonneg (v : valuation) (l : list var) :
  (forall x, In x l -> 0 <= v x) -> 0 <= sum_vars v l.
Proof.
  induction l as [|a r IH]; simpl; intros H; [lia|].
  pose proof (H a (or_introl eq_refl)). assert (0 <= sum_vars v r) by auto. lia.
Qed.

Lemma sum_vars_ge_member (v : valuation) (l : list var) (a : var) :
  (forall x, In x l -> 0 <= v x) -> In a l -> v a <= sum_vars v l.
Proof.
  induction l as [|b r IH]; simpl; intros H Hin; [contradiction|].
  assert (0 <= sum_vars v r) by (apply sum_vars_nonneg; auto).
  pose proof (H b (or_introl eq_refl)).
  destruct Hin as [->|Hin]; [lia|]. assert (v a <= sum_vars v r) by auto. lia.
Qed.

Lemma sum_vars_two_members (v : valuation) (l : list var) (a b : var) :
  (forall x, In x l -> 0 <= v x) -> In a l -> In b l -> a <> b ->
  v a + v b <= sum_vars v l.
Proof.
  induction l as [|c r IH]; simpl; intros H Ha Hb Hne; [contradiction|].
  assert (Hr : forall x, In x r -> 0 <= v x) by auto.
  pose proof (H c (or_introl eq_refl)).
  destruct Ha as [->|Ha], Hb as [->|Hb].
  - now elim Hne.
  - pose proof (sum_vars_ge_member v r b Hr Hb). lia.
  - pose proof (sum_vars_ge_member v r a Hr Ha). lia.
  - pose proof (IH Hr Ha Hb Hne). lia.
Qed.

Lemma sum_vars_zero (v : valuation) (l : list var) :
  (forall x, In x l -> v x = 0) -> sum_vars v l = 0.
Proof.
  induction l as [|c r IH]; simpl; intros H; [reflexivity|].
  rewrite (H c (or_introl eq_refl)), IH; auto.
Qed.

Lemma sum_vars_at_most_one (v : valuation) (l : list var) :
  NoDup l ->
  (forall x, In x l -> v x = 0 \/ v x = 1) ->
  (forall a b, In a l -> In b l -> v a = 1 -> v b = 1 -> a = b) ->
  sum_vars v l <= 1.
Proof.
  induction l as [|c r IH]; simpl; intros Hnd H01 Huniq; [lia|].
  inversion Hnd as [|? ? Hnin Hr]; subst.
  assert (IHr : sum_vars v r <= 1) by (apply IH; auto).
  destruct (H01 c (or_introl eq_refl)) as [E|E]; [lia|].
  assert (sum_vars v r = 0); [|lia].
  apply sum_vars_zero. intros x Hx.
  destruct (H01 x (or_intror Hx)) as [Ex|Ex]; [exact Ex|].
  exfalso. apply Hnin.
  now rewrite (Huniq c x (or_introl eq_refl) (or_intror Hx) E Ex).
Qed.

Lemma option_items_In (opts : dict (list AssignOption)) (sid : string) (idx : nat)
    (o : AssignOption) :
  In (sid, idx, o) (option_items opts) <->
  exists os, In (sid, os) opts /\ nth_error os idx = Some o.
Proof.
  unfold option_items. rewrite in_flat_map. split.
  - intros ([sid' os] & Hin & H). simpl in H.
    apply in_map_iff in H as ([idx' o'] & [= -> -> ->] & Hio).
    exists os. split; [assumption|now apply enumerate_In].
  - intros (os & Hin & Hn). exists (sid, os). split; [assumption|]. simpl.
    apply in_map_iff. exists (idx, o). split; [reflexivity|now apply enumerate_In].
Qed.

Lemma build_options_entries (fl : Flags) (inp : SchedulingInput) (sid : string)
    (os : list AssignOption) :
  In (sid, os) (fst (_build_options fl inp)) ->
  exists s, In s (sections inp) /\ sec_id s = sid /\ os = section_options fl inp s.
Proof.
  unfold _build_options. rewrite build_options_fold_fst. simpl.
  assert (H : forall l d,
            In (sid, os)
               (fold_left (fun d0 s => dict_set (sec_id s) (section_options fl inp s) d0)
                          l d) ->
            In (sid, os) d
            \/ exists s, In s l /\ sec_id s = sid /\ os = section_options fl inp s).
  { induction l as [|s r IH]; intros d; simpl; [auto|].
    intros Hin. destruct (IH _ Hin) as [Hd|(s' & Hs' & He)].
    - apply dict_set_In in Hd as [[-> ->]|Hd]; [|auto].
      right. exists s. auto.
    - right. exists s'. auto. }
  intros Hin. destruct (H _ _ Hin) as [[]|Hex]. exact Hex.
Qed.

(** The room of a generated option is a room of the input. *)
Lemma built_item_room (inp : SchedulingInput) (it : string * nat * AssignOption) :
  In it (option_items (fst (_build_options no_flags inp))) ->
  exists ri room, nth_error (rooms inp) ri = Some room
                  /\ opt_room (snd it) = room_id room.
Proof.
  destruct it as [[sid idx] o]. intros H.
  apply option_items_In in H as (os & Hos & Hn).
  apply build_options_entries in Hos as (s & _ & _ & ->).
  apply nth_error_In in Hn.
  destruct (section_options_invariant _ _ _ Hn) as (room & Hr & Hid & _).
  apply In_nth_error in Hr as [ri Hri]. exists ri, room. auto.
Qed.

(** When the model is built, every slot of every option is the id of a
    timeslot of the input. *)
Lemma built_item_slot (inp : SchedulingInput) (opts : dict (list AssignOption))
    (m : CpModel) (it : string * nat * AssignOption) (t : string) :
  build_model inp opts = Some m ->
  In it (option_items opts) -> In t (opt_slots (snd it)) ->
  exists ti tslot, nth_error (timeslots inp) ti = Some tslot /\ slot_id tslot = t.
Proof.
  intros Hm Hit Ht.
  destruct (build_model_parts _ _ Hm) as (terms & links & Hterms & _).
  destruct (traverse_In _ _ Hterms _ Hit) as (y & Hy & _).
  unfold option_term in Hy.
  destruct (item_instructor inp (fst (fst it))); [|discriminate].
  unfold option_days in Hy.
  destruct (lookup_days _ (opt_slots (snd it))) as [ds|] eqn:E; [|discriminate].
  destruct (lookup_days_In _ _ E) as [H1 _].
  destruct (H1 t Ht) as (d & Hd & _).
  destruct (timeslot_days_get _ _ Hd) as (tslot & Hin & Hid & _).
  apply In_nth_error in Hin as [ti Hti]. exists ti, tslot. auto.
Qed.

Lemma model_sat_spec (v : valuation) (m : CpModel) :
  model_sat v m = true <->
  (forall d, In d (cp_vars m) -> in_domain v d = true)
  /\ (forall c, In c (cp_constraints m) -> holds v c = true).
Proof.
  unfold model_sat. now rewrite andb_true_iff, !forallb_forall.
Qed.

Lemma room_cell_constraints_In (ri ti : nat) (buckets : dict (list var))
    (k : string) (vs : list var) (x : var) :
  In (k, vs) buckets -> In x vs ->
  In (VarGe (RoomUse ri ti k) x) (room_cell_constraints ri ti buckets)
  /\ In (SumLe1 (map (fun b => RoomUse ri ti (fst b)) buckets))
        (room_cell_constraints ri ti buckets).
Proof.
  intros Hb Hx. unfold room_cell_constraints.
  destruct buckets as [|b0 rest] eqn:E; [contradiction|]. rewrite <- E in *.
  split; apply in_or_app.
  - left. apply in_flat_map. exists (k, vs). split; [assumption|].
    apply in_map_iff. exists x. auto.
  - right. simpl. auto.
Qed.

Lemma room_cell_constraints_inv (ri ti : nat) (buckets : dict (list var)) (c : constr) :
  In c (room_cell_constraints ri ti buckets) ->
  (exists k vs x, In (k, vs) buckets /\ In x vs /\ c = VarGe (RoomUse ri ti k) x)
  \/ c = SumLe1 (map (fun b => RoomUse ri ti (fst b)) buckets).
Proof.
  unfold room_cell_constraints. destruct buckets as [|b0 rest] eqn:E; [contradiction|].
  rewrite <- E. intros H. apply in_app_or in H as [H|[<-|[]]]; [left|now right].
  apply in_flat_map in H as ([k vs] & Hb & H).
  apply in_map_iff in H as (x & <- & Hx). exists k, vs, x. auto.
Qed.

Lemma room_use_vars_NoDup (ri ti : nat) (buckets : dict (list var)) :
  NoDup (map fst buckets) ->
  NoDup (map (fun b => RoomUse ri ti (fst b)) buckets).
Proof.
  induction buckets as [|b r IH]; simpl; intros H; [constructor|].
  inversion H as [|? ? Hnin Hr]; subst. constructor; [|now apply IH].
  intros Hin. apply in_map_iff in Hin as (b' & [= E] & Hb').
  apply Hnin. rewrite <- E. now apply in_map.
Qed.

(** In a solution of a model that contains the room-usage family, two
    selected options that use the same cell have the same roomshare key. *)
Lemma room_usage_forces_same_key (inp : SchedulingInput)
    (items : list (string * nat * AssignOption)) (v : valuation)
    (ri ti : nat) (room : Room) (tslot : Timeslot)
    (it1 it2 : string * nat * AssignOption) :
  (forall d, In d (room_usage_vars inp items) -> in_domain v d = true) ->
  (forall c, In c (room_usage_constraints inp items) -> holds v c = true) ->
  nth_error (rooms inp) ri = Some room ->
  nth_error (timeslots inp) ti = Some tslot ->
  In it1 items -> In it2 items ->
  v (item_var it1) = 1 -> v (item_var it2) = 1 ->
  uses (snd it1) (room_id room) (slot_id tslot) = true ->
  uses (snd it2) (room_id room) (slot_id tslot) = true ->
  roomshare_of inp (fst (fst it1)) = roomshare_of inp (fst (fst it2)).
Proof.
  intros Hdom Hcon Hr Ht Hi1 Hi2 Hv1 Hv2 Hu1 Hu2.
  set (c := ((ri, room), (ti, tslot))).
  assert (Hc : In c (cells inp)) by now apply cells_In.
  set (b := cell_buckets inp items c).
  assert (Hbucket : forall it, In it items ->
            uses (snd it) (room_id room) (slot_id tslot) = true ->
            exists vs, In (roomshare_of inp (fst (fst it)), vs) b
                       /\ In (item_var it) vs).
  { intros it Hit Hu.
    assert (Hin : In it (filter
              (fun it0 => uses (snd it0) (room_id room) (slot_id tslot)
                          && String.eqb
                               (dict_get_default (fst (fst it0)) ""
                                  (section_to_roomshare_group inp))
                               (roomshare_of inp (fst (fst it)))) items)).
    { apply filter_In. split; [assumption|].
      rewrite Hu. simpl. apply String.eqb_refl. }
    eexists. split.
    - unfold b, cell_buckets, c. simpl.
      apply vars_by_group_In. split; [|reflexivity].
      intros E. apply map_eq_nil in E. rewrite E in Hin. contradiction.
    - now apply in_map. }
  destruct (Hbucket it1 Hi1 Hu1) as (vs1 & Hb1 & Hx1).
  destruct (Hbucket it2 Hi2 Hu2) as (vs2 & Hb2 & Hx2).
  assert (Hge : forall k vs x, In (k, vs) b -> In x vs -> v x <= v (RoomUse ri ti k)).
  { intros k vs x Hb Hx.
    destruct (room_cell_constraints_In ri ti b k vs x Hb Hx) as [Hg _].
    assert (Hin : In (VarGe (RoomUse ri ti k) x) (room_usage_constraints inp items)).
    { unfold room_usage_constraints. apply in_flat_map. exists c. auto. }
    specialize (Hcon _ Hin). simpl in Hcon. lia. }
  assert (Hsum : sum_vars v (map (fun b0 => RoomUse ri ti (fst b0)) b) <= 1).
  { destruct (room_cell_constraints_In ri ti b _ vs1 _ Hb1 Hx1) as [_ Hs].
    assert (Hin : In (SumLe1 (map (fun b0 => RoomUse ri ti (fst b0)) b))
                     (room_usage_constraints inp items)).
    { unfold room_usage_constraints. apply in_flat_map. exists c. auto. }
    specialize (Hcon _ Hin). simpl in Hcon. lia. }
  assert (Hnn : forall x, In x (map (fun b0 => RoomUse ri ti (fst b0)) b) -> 0 <= v x).
  { intros x Hx. apply in_map_iff in Hx as (b0 & <- & Hb0).
    assert (Hin : In (bool_var (RoomUse ri ti (fst b0))) (room_usage_vars inp items)).
    { unfold room_usage_vars. apply in_flat_map. exists c. split; [assumption|].
      unfold room_cell_vars. apply in_map_iff. exists b0. auto. }
    specialize (Hdom _ Hin). unfold in_domain in Hdom. simpl in Hdom. lia. }
  destruct (string_dec (roomshare_of inp (fst (fst it1)))
                       (roomshare_of inp (fst (fst it2)))) as [E|Hne]; [exact E|].
  exfalso.
  pose proof (Hge _ _ _ Hb1 Hx1) as G1. pose proof (Hge _ _ _ Hb2 Hx2) as G2.
  assert (H2 : v (RoomUse ri ti (roomshare_of inp (fst (fst it1))))
               + v (RoomUse ri ti (roomshare_of inp (fst (fst it2))))
               <= sum_vars v (map (fun b0 => RoomUse ri ti (fst b0)) b)).
  { apply sum_vars_two_members; [exact Hnn| | |].
    - apply in_map_iff. exists (roomshare_of inp (fst (fst it1)), vs1). auto.
    - apply in_map_iff. exists (roomshare_of inp (fst (fst it2)), vs2). auto.
    - intros [= E]. now elim Hne. }
  lia.
Qed.

(** A selection in which the selected options of every cell share one
    roomshare key satisfies the room-usage family, with the indicators of
    [room_use_value]. *)
Lemma room_usage_satisfiable (inp : SchedulingInput)
    (items : list (string * nat * AssignOption)) (x : valuation) :
  (forall it, In it items -> x (item_var it) = 0 \/ x (item_var it) = 1) ->
  (forall it1 it2 room tslot,
      In it1 items -> In it2 items ->
      In room (rooms inp) -> In tslot (timeslots inp) ->
      x (item_var it1) = 1 -> x (item_var it2) = 1 ->
      uses (snd it1) (room_id room) (slot_id tslot) = true ->
      uses (snd it2) (room_id room) (slot_id tslot) = true ->
      roomshare_of inp (fst (fst it1)) = roomshare_of inp (fst (fst it2))) ->
  (forall sid idx, room_use_value inp items x (OptVar sid idx) = x (OptVar sid idx))
  /\ (forall d, In d (room_usage_vars inp items) ->
        in_domain (room_use_value inp items x) d = true)
  /\ (forall c, In c (room_usage_constraints inp items) ->
        holds (room_use_value inp items x) c = true).
Proof.
  intros H01 Hshare. set (v := room_use_value inp items x).
  assert (Hv01 : forall ri ti k, v (RoomUse ri ti k) = 0 \/ v (RoomUse ri ti k) = 1).
  { intros ri ti k. unfold v. simpl.
    destruct (nth_error (rooms inp) ri); [|auto].
    destruct (nth_error (timeslots inp) ti); [|auto].
    destruct (existsb _ items); auto. }
  split; [reflexivity|]. split.
  - intros d Hd. unfold room_usage_vars in Hd.
    apply in_flat_map in Hd as (c & _ & Hd). unfold room_cell_vars in Hd.
    apply in_map_iff in Hd as (b0 & <- & _). unfold in_domain, bool_var.
    cbn [fst snd].
    destruct (Hv01 (fst (fst c)) (fst (snd c)) (fst b0)) as [E|E];
      rewrite E; reflexivity.
  - intros c Hc. unfold room_usage_constraints in Hc.
    apply in_flat_map in Hc as ([[ri room] [ti tslot]] & Hcell & Hc).
    apply cells_In in Hcell as [Hr Ht]. simpl in Hc.
    unfold cell_buckets in Hc. simpl in Hc.
    set (b := vars_by_group (section_to_roomshare_group inp) items
                (room_id room) (slot_id tslot)) in *.
    assert (Hmember : forall k vs y, In (k, vs) b -> In y vs ->
              exists it, In it items /\ y = item_var it
                         /\ uses (snd it) (room_id room) (slot_id tslot) = true
                         /\ roomshare_of inp (fst (fst it)) = k).
    { intros k vs y Hb Hy. apply vars_by_group_In in Hb as [_ ->].
      apply in_map_iff in Hy as (it & <- & Hit). apply filter_In in Hit as [Hit Hs].
      apply andb_true_iff in Hs as [Hu Hk]. apply String.eqb_eq in Hk.
      exists it. auto. }
    assert (Hone : forall k, v (RoomUse ri ti k) = 1 ->
              exists it, In it items /\ x (item_var it) = 1
                         /\ uses (snd it) (room_id room) (slot_id tslot) = true
                         /\ roomshare_of inp (fst (fst it)) = k).
    { intros k. unfold v. simpl. rewrite Hr, Ht.
      destruct (existsb _ items) eqn:E; [|discriminate]. intros _.
      apply existsb_exists in E as (it & Hit & Hp).
      apply andb_true_iff in Hp as [Hp Hx]. apply andb_true_iff in Hp as [Hu Hk].
      apply String.eqb_eq in Hk. apply Z.eqb_eq in Hx. exists it. auto. }
    destruct (room_cell_constraints_inv _ _ _ _ Hc)
      as [(k & vs & y & Hb & Hy & ->)| ->]; cbn [holds].
    + destruct (Hmember k vs y Hb Hy) as (it & Hit & -> & Hu & Hk).
      apply Z.geb_le. change (v (item_var it)) with (x (item_var it)).
      destruct (H01 it Hit) as [E|E]; rewrite E.
      * destruct (Hv01 ri ti k) as [E'|E']; rewrite E'; lia.
      * assert (v (RoomUse ri ti k) = 1) as ->; [|lia].
        unfold v. simpl. rewrite Hr, Ht.
        assert (existsb
                  (fun it0 => uses (snd it0) (room_id room) (slot_id tslot)
                              && String.eqb (roomshare_of inp (fst (fst it0))) k
                              && (x (item_var it0) =? 1)) items = true) as ->;
          [|reflexivity].
        apply existsb_exists. exists it. split; [assumption|].
        rewrite Hu, Hk, String.eqb_refl, E. reflexivity.
    + apply Z.leb_le. apply sum_vars_at_most_one.
      * apply room_use_vars_NoDup. apply vars_by_group_NoDup.
      * intros y Hy. apply in_map_iff in Hy as (b0 & <- & _). apply Hv01.
      * intros y1 y2 Hy1 Hy2 E1 E2.
        apply in_map_iff in Hy1 as (b1 & <- & _).
        apply in_map_iff in Hy2 as (b2 & <- & _).
        destruct (Hone _ E1) as (it1 & Hi1 & Hx1 & Hu1 & Hk1).
        destruct (Hone _ E2) as (it2 & Hi2 & Hx2 & Hu2 & Hk2).
        rewrite <- Hk1, <- Hk2. f_equal.
        exact (Hshare it1 it2 room tslot Hi1 Hi2 (nth_error_In _ _ Hr)
                 (nth_error_In _ _ Ht) Hx1 Hx2 Hu1 Hu2).
Qed.

Lemma built_item_key (inp : SchedulingInput) (it : string * nat * AssignOption) :
  In it (option_items (fst (_build_options no_flags inp))) ->
  exists s, In s (sections inp) /\ sec_id s = fst (fst it)
            /\ dict_get (fst (fst it)) (sections_by_id inp) = Some s
            /\ roomshare_of inp (fst (fst it)) = roomshare_key inp s.
Proof.
  destruct it as [[sid idx] o]. simpl. intros H.
  apply option_items_In in H as (os & Hos & _).
  apply build_options_entries in Hos as (s0 & Hs0 & Hid & _).
  unfold roomshare_of, dict_get_default.
  rewrite section_to_roomshare_group_get. unfold sections_by_id.
  rewrite dict_of_get.
  destruct (find_last_in (fun x => String.eqb sid (sec_id x)) _ _ Hs0) as [s Hs].
  { rewrite Hid. apply String.eqb_refl. }
  rewrite Hs. simpl. exists s. apply find_last_some in Hs as [Hin He].
  apply String.eqb_eq in He. auto.
Qed.

(** ** The diagnoser's model against the optimization model *)

(** C3 at the input [same_room] (two sections of a same-room cross-list
    group, one room, one timeslot): the model of [_check_feasible] with an
    empty relaxation set has no solution, so the check answers [False] with
    any sound solver, while the hard constraints of the optimization model
    are satisfied by placing both sections in the room. *)
Theorem check_feasible_rejects_shared_room :
  exists m1 m,
    check_feasible_model Examples.same_room [] = Some m1
    /\ (forall v, model_sat v m1 = false)
    /\ (forall solve,
          (forall budget m' v, solve budget m' = Some v -> model_sat v m' = true) ->
          _check_feasible solve Examples.same_room [] = false)
    /\ build_model Examples.same_room (fst (_build_options no_flags Examples.same_room))
       = Some m
    /\ model_sat Examples.pick_both m = true
    /\ forallb (holds Examples.pick_both)
         (hard_constraints Examples.same_room
            (fst (_build_options no_flags Examples.same_room))) = true.
Proof.
  eexists. eexists. split; [reflexivity|].
  assert (Hunsat : forall v m1,
            check_feasible_model Examples.same_room [] = Some m1 ->
            model_sat v m1 = false).
  { intros v m1 [= <-]. destruct (model_sat v _) eqn:E; [|reflexivity].
    apply model_sat_spec in E as [_ Hc].
    pose proof (Hc (SumEq1 [OptVar "S1" 0]) ltac:(simpl; auto)) as H1.
    pose proof (Hc (SumEq1 [OptVar "S2" 0]) ltac:(simpl; auto)) as H2.
    pose proof (Hc (SumLe1 [OptVar "S1" 0; OptVar "S2" 0]) ltac:(simpl; auto)) as H3.
    simpl in H1, H2, H3. lia. }
  split; [intros v; now apply Hunsat|]. split.
  - intros solve Hsound. unfold _check_feasible.
    destruct (check_feasible_model Examples.same_room []) as [m1|] eqn:E; [|reflexivity].
    destruct (solve 20 m1) as [v|] eqn:Es; [|reflexivity].
    apply Hsound in Es. rewrite (Hunsat v m1 eq_refl) in Es. discriminate.
  - split; [reflexivity|]. split; reflexivity.
Qed.

(** ** Score consistency *)

(** The reported total is the sum of the six entries of the breakdown. *)
Lemma assemble_total_score (inp : SchedulingInput) (opts : dict (list AssignOption))
    (v : valuation) (sol : ScheduleSolution) :
  assemble inp opts v = Some sol ->
  total_score sol = breakdown_sum (penalty_breakdown sol).
Proof.
  unfold assemble.
  destruct (fold_left _ opts _) as [[[asgs expl] b]|]; [|discriminate].
  now intros [= <-].
Qed.

(** C1 at the input [with_soft_lock fractional_weight] (one section, its
    soft lock preferring a room that does not exist, weight 1.5): every
    solution of the model has objective value 26 (25 for the option and
    [int(1.5) = 1] for the soft lock), while the assembled breakdown sums
    to 26.5, since it adds the weight itself. *)
Theorem score_differs_from_objective :
  build_model (Examples.with_soft_lock Examples.fractional_weight)
    (fst (_build_options no_flags (Examples.with_soft_lock Examples.fractional_weight)))
  = Some Examples.fractional_model
  /\ model_sat Examples.pick_S1_room Examples.fractional_model = true
  /\ (forall v, model_sat v Examples.fractional_model = true ->
        objective_value v Examples.fractional_model = 26
        /\ assemble (Examples.with_soft_lock Examples.fractional_weight)
             (fst (_build_options no_flags
                     (Examples.with_soft_lock Examples.fractional_weight))) v
           = Some Examples.fractional_solution)
  /\ (forall solve v,
        solve 50 Examples.fractional_model = Some v ->
        model_sat v Examples.fractional_model = true ->
        _solve_schedule solve (Examples.with_soft_lock Examples.fractional_weight)
        = Some (RespOk Examples.fractional_solution))
  /\ soft_lock_room (penalty_breakdown Examples.fractional_solution) = (3 # 2)%Q
  /\ (total_score Examples.fractional_solution == 53 # 2)%Q
  /\ (total_score Examples.fractional_solution
      == breakdown_sum (penalty_breakdown Examples.fractional_solution))%Q
  /\ forall v, model_sat v Examples.fractional_model = true ->
       ~ (total_score Examples.fractional_solution
          == inject_Z (objective_value v Examples.fractional_model))%Q.
Proof.
  assert (Hobj : forall v, model_sat v Examples.fractional_model = true ->
                           v (OptVar "S1" 0) = 1).
  { intros v Hsat. apply model_sat_spec in Hsat as [_ Hc].
    pose proof (Hc (SumEq1 [OptVar "S1" 0]) ltac:(simpl; auto)) as H1.
    simpl in H1. lia. }
  assert (Hasm : forall v, model_sat v Examples.fractional_model = true ->
            assemble (Examples.with_soft_lock Examples.fractional_weight)
              (fst (_build_options no_flags
                      (Examples.with_soft_lock Examples.fractional_weight))) v
            = Some Examples.fractional_solution).
  { intros v Hsat. pose proof (Hobj v Hsat) as H1.
    assert (Hidx : chosen_idx v "S1" [mkOption "P1" ["T1"] "R1" 10] = Some 0%nat).
    { unfold chosen_idx. cbn [List.length seq find]. now rewrite H1. }
    unfold assemble.
    change (fst (_build_options no_flags
                   (Examples.with_soft_lock Examples.fractional_weight)))
      with [("S1", [mkOption "P1" ["T1"] "R1" 10])].
    cbn [fold_left]. unfold assemble_step at 1. cbn [fst snd].
    rewrite Hidx. reflexivity. }
  assert (Hval : forall v, model_sat v Examples.fractional_model = true ->
                           objective_value v Examples.fractional_model = 26).
  { intros v Hsat. pose proof (Hobj v Hsat) as H1.
    unfold objective_value, Examples.fractional_model.
    cbn [cp_objective fold_right fst snd]. rewrite H1. reflexivity. }
  split; [reflexivity|]. split; [reflexivity|]. split; [auto|].
  split; [|split; [reflexivity|split; [reflexivity|split; [reflexivity|]]]].
  - intros solve v Hsolve Hsat. unfold _solve_schedule.
    change (_validate_crosslist_capacity _ _ _ ++ _)%list with (@nil ValidationError).
    cbn [is_nil negb].
    change (build_model (Examples.with_soft_lock Examples.fractional_weight) _)
      with (Some Examples.fractional_model).
    cbn iota. rewrite Hsolve, (Hasm v Hsat). reflexivity.
  - intros v Hsat. rewrite (Hval v Hsat). vm_compute. discriminate.
Qed.

(** ** One direction of the comparison holds

    A solution of the diagnoser's model (empty relaxation set) selects at
    most one option per (room, timeslot), so it extends to a solution of
    the hard constraints of the optimization model.  The converse fails
    on the input [Examples.same_room]. *)

Lemma sum_vars_ext (v v' : valuation) (l : list var) :
  (forall x, In x l -> v x = v' x) -> sum_vars v l = sum_vars v' l.
Proof.
  induction l as [|a r IH]; simpl; intros H; [reflexivity|].
  rewrite (H a (or_introl eq_refl)), IH; auto.
Qed.

Lemma holds_ext (v v' : valuation) (c : constr) :
  (forall x, In x (constr_vars c) -> v x = v' x) -> holds v c = holds v' c.
Proof.
  destruct c as [vs|vs|a b|e ds mx|e]; simpl; intros H.
  - now rewrite (sum_vars_ext v v' vs H).
  - now rewrite (sum_vars_ext v v' vs H).
  - rewrite (H a), (H b); auto.
  - rewrite (H e (or_introl eq_refl)), (sum_vars_ext v v' ds); auto.
  - rewrite (H e); auto.
Qed.

Lemma at_most_one_option_vars (vs : list var) (c : constr) :
  (forall x, In x vs -> exists sid idx, x = OptVar sid idx) ->
  In c (at_most_one vs) -> only_option_vars c.
Proof.
  intros H Hc. destruct vs as [|a r]; [contradiction|].
  destruct Hc as [<-|[]]. exact H.
Qed.

Lemma shared_families_option_vars (inp : SchedulingInput)
    (opts : dict (list AssignOption)) (c : constr) :
  In c (one_per_section opts
        ++ instructor_constraints inp (option_items opts)
        ++ no_overlap_constraints inp opts
        ++ crosslist_constraints inp opts)%list ->
  only_option_vars c.
Proof.
  intros H. apply in_app_or in H as [H|H]; [|apply in_app_or in H as [H|H];
                                              [|apply in_app_or in H as [H|H]]].
  - unfold one_per_section in H. apply in_map_iff in H as (so & <- & _).
    intros x Hx. simpl in Hx. apply in_map_iff in Hx as (io & <- & _). eauto.
  - unfold instructor_constraints in H.
    apply in_flat_map in H as (i & _ & H). apply in_flat_map in H as (t & _ & H).
    apply (at_most_one_option_vars _ c) in H; [exact H|].
    intros x Hx. apply in_map_iff in Hx as (it & <- & _). unfold item_var. eauto.
  - unfold no_overlap_constraints in H.
    apply in_flat_map in H as (g & _ & H). apply in_flat_map in H as (t & _ & H).
    apply (at_most_one_option_vars _ c) in H; [exact H|].
    intros x Hx. apply in_flat_map in Hx as (sid & _ & Hx).
    apply in_flat_map in Hx as (io & _ & Hx).
    destruct (mem _ _); [|contradiction]. destruct Hx as [<-|[]]. eauto.
  - destruct (crosslist_constraints_In _ _ _ H) as (g & a & b & ia & ib & _ & _ & _ & ->).
    intros x [<-|[<-|[]]]; eauto.
Qed.

(** X9.  The diagnoser's model is at least as strong as the hard constraints of
    the optimization model. *)
Lemma check_feasible_model_implies_hard_constraints (inp : SchedulingInput)
    (m1 : CpModel) (v : valuation) :
  check_feasible_model inp [] = Some m1 ->
  model_sat v m1 = true ->
  exists v',
    (forall sid idx, v' (OptVar sid idx) = v (OptVar sid idx))
    /\ (forall d, In d (room_usage_vars inp
                          (option_items (fst (_build_options no_flags inp)))) ->
                  in_domain v' d = true)
    /\ forall c, In c (hard_constraints inp (fst (_build_options no_flags inp))) ->
                 holds v' c = true.
Proof.
  unfold check_feasible_model. simpl.
  destruct (negb (is_nil (_validate_crosslist_capacity _ _ _))); [discriminate|].
  change (relax_flags []) with no_flags.
  destruct (negb (is_nil (snd (_build_options no_flags inp)))); [discriminate|].
  set (opts := fst (_build_options no_flags inp)). set (items := option_items opts).
  intros [= <-] Hsat. apply model_sat_spec in Hsat as [Hdom Hcon]. simpl in Hdom, Hcon.
  assert (H01 : forall it, In it items -> v (item_var it) = 0 \/ v (item_var it) = 1).
  { intros it Hit.
    assert (Hd : in_domain v (bool_var (item_var it)) = true).
    { apply Hdom. apply in_map_iff. exists it. auto. }
    unfold in_domain in Hd. simpl in Hd. lia. }
  assert (Hshare : forall it1 it2 room tslot,
            In it1 items -> In it2 items ->
            In room (rooms inp) -> In tslot (timeslots inp) ->
            v (item_var it1) = 1 -> v (item_var it2) = 1 ->
            uses (snd it1) (room_id room) (slot_id tslot) = true ->
            uses (snd it2) (room_id room) (slot_id tslot) = true ->
            roomshare_of inp (fst (fst it1)) = roomshare_of inp (fst (fst it2))).
  { intros it1 it2 room tslot Hi1 Hi2 Hr Ht Hv1 Hv2 Hu1 Hu2.
    destruct (string_dec (fst (fst it1)) (fst (fst it2))) as [E|Hne]; [now rewrite E|].
    exfalso.
    set (l := map item_var
                (filter (fun it => uses (snd it) (room_id room) (slot_id tslot)) items)).
    assert (Hl1 : In (item_var it1) l)
      by (apply in_map, filter_In; auto).
    assert (Hl2 : In (item_var it2) l)
      by (apply in_map, filter_In; auto).
    assert (Hc : holds v (SumLe1 l) = true).
    { apply Hcon. apply in_or_app. right. apply in_or_app. left.
      unfold room_conflict_constraints. apply in_flat_map. exists room.
      split; [assumption|]. apply in_flat_map. exists tslot. split; [assumption|].
      fold items. fold l. destruct l; [contradiction|]. simpl. auto. }
    simpl in Hc.
    assert (v (item_var it1) + v (item_var it2) <= sum_vars v l).
    { apply sum_vars_two_members; auto.
      - intros x Hx. apply in_map_iff in Hx as (it & <- & Hit).
        apply filter_In in Hit as [Hit _]. destruct (H01 it Hit); lia.
      - unfold item_var. intros [= E]. now elim Hne. }
    lia. }
  destruct (room_usage_satisfiable inp items v H01 Hshare) as (Hagree & Hd' & Hc').
  exists (room_use_value inp items v). split; [exact Hagree|]. split; [exact Hd'|].
  intros c Hc. unfold hard_constraints in Hc. fold items in Hc.
  assert (Hother : In c (one_per_section opts ++ instructor_constraints inp items
                         ++ no_overlap_constraints inp opts
                         ++ crosslist_constraints inp opts)%list ->
                   holds (room_use_value inp items v) c = true).
  { intros Hin. rewrite <- (holds_ext v).
    - apply Hcon. apply in_app_or in Hin as [Hin|Hin]; [apply in_or_app; now left|].
      apply in_or_app. right. apply in_or_app. right. exact Hin.
    - intros x Hx.
      destruct (shared_families_option_vars inp opts c Hin x Hx) as (sid & idx & ->).
      symmetry. apply Hagree. }
  apply in_app_or in Hc as [Hc|Hc]; [apply Hother, in_or_app; now left|].
  apply in_app_or in Hc as [Hc|Hc]; [now apply Hc'|].
  apply Hother, in_or_app. now right.
Qed.

(** ** Score consistency for integral weights

    With soft-lock weights that are non-negative integers (and distinct
    instructor ids) the truncation and the guard of the objective builder
    change nothing, and the assembled total is the objective value. *)

Lemma terms_value_app (v : valuation) (a b : list (Z * var)) :
  terms_value v (a ++ b) = terms_value v a + terms_value v b.
Proof.
  induction a as [|t r IH]; simpl; [reflexivity|]. rewrite IH. lia.
Qed.

Lemma sum_over_app {A} (f : A -> Z) (a b : list A) :
  sum_over f (a ++ b) = sum_over f a + sum_over f b.
Proof.
  induction a as [|t r IH]; simpl; [reflexivity|]. rewrite IH. lia.
Qed.

Lemma sum_over_flat_map {A B} (f : B -> Z) (g : A -> list B) (l : list A) :
  sum_over f (flat_map g l) = sum_over (fun x => sum_over f (g x)) l.
Proof.
  induction l as [|x r IH]; simpl; [reflexivity|].
  now rewrite sum_over_app, IH.
Qed.

Lemma sum_over_map {A B} (f : B -> Z) (g : A -> B) (l : list A) :
  sum_over f (map g l) = sum_over (fun x => f (g x)) l.
Proof.
  induction l as [|x r IH]; simpl; [reflexivity|]. now rewrite IH.
Qed.

Lemma sum_over_ext {A} (f g : A -> Z) (l : list A) :
  (forall x, In x l -> f x = g x) -> sum_over f l = sum_over g l.
Proof.
  induction l as [|x r IH]; simpl; intros H; [reflexivity|].
  rewrite (H x (or_introl eq_refl)), IH; auto.
Qed.

Lemma option_terms_value (inp : SchedulingInput) (v : valuation)
    (items : list (string * nat * AssignOption)) (terms : list (Z * var)) :
  traverse (option_term inp) items = Some terms ->
  terms_value v terms = sum_over (fun it => item_cost inp it * v (item_var it)) items.
Proof.
  revert terms. induction items as [|it r IH]; intros terms; simpl.
  - now intros [= <-].
  - destruct (option_term inp it) as [t|] eqn:E; [|discriminate].
    destruct (traverse (option_term inp) r) as [ts|]; [|discriminate].
    intros [= <-]. simpl. rewrite (IH ts eq_refl). unfold item_cost. rewrite E.
    unfold option_term in E.
    destruct (item_instructor inp (fst (fst it))); [|discriminate].
    destruct (option_days inp (snd it)); [|discriminate].
    injection E as <-. reflexivity.
Qed.

Lemma soft_terms_value (inp : SchedulingInput) (v : valuation)
    (items : list (string * nat * AssignOption)) :
  terms_value v (soft_lock_terms inp items)
  = sum_over (fun it => soft_coefficient inp it * v (item_var it)) items.
Proof.
  unfold soft_lock_terms. induction items as [|it r IH]; simpl; [reflexivity|].
  rewrite terms_value_app, IH. unfold soft_coefficient.
  destruct (soft_lock_term inp it) as [[c x]|] eqn:E; simpl; [|lia].
  assert (x = item_var it) as ->; [|lia].
  unfold soft_lock_term in E.
  destruct (dict_get (fst (fst it)) (soft_lock_by_section inp)); [|discriminate].
  destruct (Qpositive _); [|discriminate]. now injection E.
Qed.

Lemma sum_over_zero {A} (f : A -> Z) (l : list A) :
  (forall x, In x l -> f x = 0) -> sum_over f l = 0.
Proof.
  induction l as [|x r IH]; simpl; intros H; [reflexivity|].
  rewrite (H x (or_introl eq_refl)), IH; auto.
Qed.

(** Under [sum == 1] with 0/1 values exactly one option of a section is
    selected: [chosen_idx] finds it and a weighted sum over the options is
    its weight. *)
Lemma one_hot_enumerate (v : valuation) (sid : string)
    (w : nat -> AssignOption -> Z) (os : list AssignOption) (k : nat) :
  (forall io, In io (enumerate_from k os) ->
     v (OptVar sid (fst io)) = 0 \/ v (OptVar sid (fst io)) = 1) ->
  sum_vars v (map (fun io => OptVar sid (fst io)) (enumerate_from k os)) = 1 ->
  exists idx o,
    In (idx, o) (enumerate_from k os)
    /\ find (fun i => v (OptVar sid i) =? 1) (seq k (List.length os)) = Some idx
    /\ sum_over (fun io => w (fst io) (snd io) * v (OptVar sid (fst io)))
                (enumerate_from k os) = w idx o.
Proof.
  revert k. induction os as [|o r IH]; intros k H01 Hsum; simpl in *; [lia|].
  destruct (H01 (k, o) (or_introl eq_refl)) as [E|E]; simpl in E.
  - destruct (IH (S k)) as (idx & o' & Hin & Hfind & Hw).
    + intros io Hio. apply H01. now right.
    + lia.
    + exists idx, o'. split; [now right|]. rewrite E. simpl. split; [exact Hfind|].
      rewrite Hw. lia.
  - exists k, o. split; [now left|]. rewrite E. simpl. split; [reflexivity|].
    assert (Hz : forall io, In io (enumerate_from (S k) r) -> v (OptVar sid (fst io)) = 0).
    { intros io Hio.
      assert (Hnn : forall x, In x (map (fun io0 : nat * AssignOption => OptVar sid (fst io0))
                                        (enumerate_from (S k) r)) -> 0 <= v x).
      { intros x Hx. apply in_map_iff in Hx as (io0 & <- & Hio0).
        destruct (H01 io0 (or_intror Hio0)); lia. }
      pose proof (sum_vars_ge_member v _ (OptVar sid (fst io)) Hnn
                    (in_map (fun io0 : nat * AssignOption => OptVar sid (fst io0)) _ _ Hio)).
      destruct (H01 io (or_intror Hio)); lia. }
    rewrite sum_over_zero; [lia|]. intros io Hio. rewrite (Hz io Hio). lia.
Qed.

Lemma int_of_inject_Z (k : Z) : int_of (inject_Z k) = k.
Proof. unfold int_of. simpl. apply Z.quot_1_r. Qed.

Lemma soft_lock_by_section_In (inp : SchedulingInput) (sid : string) (sl : SoftLock) :
  dict_get sid (soft_lock_by_section inp) = Some sl -> In sl (soft_locks inp).
Proof.
  unfold soft_lock_by_section. rewrite dict_of_get. intros H.
  now apply find_last_some in H.
Qed.

(** With an integral non-negative weight the coefficient of the soft-lock
    term is the accumulated penalty itself. *)
Lemma soft_coefficient_integral (inp : SchedulingInput)
    (it : string * nat * AssignOption) (sl : SoftLock) (n : Z) :
  dict_get (fst (fst it)) (soft_lock_by_section inp) = Some sl ->
  0 <= n -> (weight sl == inject_Z n)%Q ->
  (inject_Z (soft_coefficient inp it) == accumulated_penalty sl (snd it))%Q.
Proof.
  intros Hsl Hn Hw.
  set (k := (if time_mismatch sl (snd it) then n else 0)
            + (if room_mismatch sl (snd it) then n else 0)).
  assert (Hacc : (accumulated_penalty sl (snd it) == inject_Z k)%Q).
  { unfold accumulated_penalty, k, SOFT_LOCK_BASE_WEIGHT.
    change (inject_Z 1) with 1%Q. rewrite inject_Z_plus.
    destruct (time_mismatch sl (snd it)), (room_mismatch sl (snd it));
      change (inject_Z 0) with 0%Q; rewrite ?Hw; lra. }
  assert (Hk : (0 <= inject_Z k)%Q).
  { unfold Qle. simpl. unfold k.
    destruct (time_mismatch sl (snd it)), (room_mismatch sl (snd it)); lia. }
  unfold soft_coefficient.
  destruct (soft_lock_term_cases inp it Hsl) as [[Hpos Ht]|[Hle Ht]]; rewrite Ht; simpl.
  - rewrite (int_of_Qeq Hacc), int_of_inject_Z. now symmetry.
  - change (inject_Z 0) with 0%Q. lra.
Qed.

Lemma assemble_step_sum (inp : SchedulingInput) (v : valuation)
    (asgs : list ScheduleAssignment) (expl : list string) (b : PenaltyBreakdown)
    (so : string * list AssignOption) :
  integral_weights inp -> entry_ready inp v so ->
  exists asgs' expl' b',
    assemble_step inp v (Some (asgs, expl, b)) so = Some (asgs', expl', b')
    /\ (breakdown_sum b' == breakdown_sum b + inject_Z (entry_value inp v so))%Q.
Proof.
  intros Hint (H01 & Hsum & Hterm). destruct so as [sid os]. simpl in *.
  destruct (one_hot_enumerate v sid
              (fun idx o => item_cost inp (sid, idx, o) + soft_coefficient inp (sid, idx, o))
              os 0 H01 Hsum) as (idx & o & Hin & Hfind & Hw).
  unfold entry_value. simpl. unfold enumerate. rewrite Hw.
  unfold assemble_step, chosen_idx. simpl. rewrite Hfind.
  pose proof (proj1 (enumerate_In os idx o) Hin) as Hn. rewrite Hn.
  specialize (Hterm (idx, o) Hin). simpl in Hterm.
  unfold item_cost, option_term in *. simpl in *.
  destruct (item_instructor inp sid) as [instr|]; [|now elim Hterm].
  destruct (option_days inp o) as [days|]; [|now elim Hterm].
  simpl. eexists. eexists. eexists. split; [reflexivity|].
  unfold breakdown_sum, add_option_penalties, total_penalty. simpl.
  assert (Hsoft :
    ((match dict_get sid (soft_lock_by_section inp) with
      | Some sl => if time_mismatch sl o
                   then weight sl * inject_Z SOFT_LOCK_BASE_WEIGHT else 0
      | None => 0
      end)
     + (match dict_get sid (soft_lock_by_section inp) with
        | Some sl => if room_mismatch sl o
                     then weight sl * inject_Z SOFT_LOCK_BASE_WEIGHT else 0
        | None => 0
        end)
     == inject_Z (soft_coefficient inp (sid, idx, o)))%Q).
  { destruct (dict_get sid (soft_lock_by_section inp)) as [sl|] eqn:Esl.
    - destruct (Hint sl (soft_lock_by_section_In _ _ Esl)) as (n & Hn0 & Hwn).
      rewrite (@soft_coefficient_integral inp (sid, idx, o) sl n Esl Hn0 Hwn).
      reflexivity.
    - unfold soft_coefficient, soft_lock_term. simpl. rewrite Esl. reflexivity. }
  rewrite !inject_Z_plus. lra.
Qed.

Lemma assemble_fold_sum (inp : SchedulingInput) (v : valuation)
    (l : dict (list AssignOption))
    (asgs : list ScheduleAssignment) (expl : list string) (b : PenaltyBreakdown) :
  integral_weights inp ->
  (forall so, In so l -> entry_ready inp v so) ->
  exists asgs' expl' b',
    fold_left (assemble_step inp v) l (Some (asgs, expl, b)) = Some (asgs', expl', b')
    /\ (breakdown_sum b' == breakdown_sum b + inject_Z (sum_over (entry_value inp v) l))%Q.
Proof.
  intros Hint. revert asgs expl b. induction l as [|so r IH]; intros asgs expl b Hready.
  - simpl. exists asgs, expl, b. split; [reflexivity|].
    change (inject_Z 0) with 0%Q. lra.
  - destruct (@assemble_step_sum inp v asgs expl b so Hint (Hready so (or_introl eq_refl)))
      as (a1 & e1 & b1 & Hstep & Hb1).
    destruct (IH a1 e1 b1 (fun so' H => Hready so' (or_intror H)))
      as (a2 & e2 & b2 & Hfold & Hb2).
    exists a2, e2, b2. cbn [fold_left]. rewrite Hstep. split; [exact Hfold|].
    change (sum_over (entry_value inp v) (so :: r))
      with (entry_value inp v so + sum_over (entry_value inp v) r).
    rewrite inject_Z_plus, Hb2, Hb1. lra.
Qed.

Lemma add_excess_fold_sum (v : valuation) (d : dict var) (b : PenaltyBreakdown) :
  (breakdown_sum (fold_left (add_excess_step v) d b)
   == breakdown_sum b
      + inject_Z (sum_over (fun kv => (ADJUNCT_DAY_EXCESS_WEIGHT * v (snd kv))%Z) d))%Q.
Proof.
  revert b. induction d as [|kv r IH]; intros b.
  - simpl. change (inject_Z 0) with 0%Q. lra.
  - cbn [fold_left]. rewrite IH.
    change (sum_over (fun kv0 : string * var => ADJUNCT_DAY_EXCESS_WEIGHT * v (snd kv0))
                     (kv :: r))
      with (ADJUNCT_DAY_EXCESS_WEIGHT * v (snd kv)
            + sum_over (fun kv0 : string * var => ADJUNCT_DAY_EXCESS_WEIGHT * v (snd kv0)) r).
    rewrite inject_Z_plus. unfold add_excess_step.
    destruct (Z.eqb_spec (v (snd kv)) 0) as [E|E].
    + rewrite E, Z.mul_0_r. change (inject_Z 0) with 0%Q. lra.
    + unfold breakdown_sum.
      cbn [room_waste instructor_day_preference instructor_pattern_preference
           adjunct_day_excess soft_lock_time soft_lock_room].
      rewrite (Z.mul_comm (v (snd kv))). lra.
Qed.

Lemma dict_set_fresh {V} (k : string) (x : V) (d : dict V) :
  ~ In k (map fst d) -> dict_set k x d = (d ++ [(k, x)])%list.
Proof.
  induction d as [|[k' x'] r IH]; simpl; intros H; [reflexivity|].
  destruct (String.eqb_spec k k') as [->|Hne]; [elim H; now left|].
  rewrite IH; [reflexivity|]. intros Hin. apply H. now right.
Qed.

Lemma map_snd_enumerate_from {A} (l : list A) (k : nat) :
  map snd (enumerate_from k l) = l.
Proof.
  revert k. induction l as [|x r IH]; intros k; simpl; [reflexivity|]. now rewrite IH.
Qed.

(** With distinct instructor ids no entry of [adjunct_day_excess_vars] is
    overwritten: it lists the excess variables in creation order. *)
Lemma adjunct_day_excess_vars_fold (l : list (nat * Instructor)) (d : dict var) :
  NoDup (map fst d ++ map (fun ii => inst_id (snd ii)) l) ->
  fold_left
    (fun d0 ii =>
       match adjunct_max_days (snd ii) with
       | Some _ => dict_set (inst_id (snd ii)) (Excess (fst ii)) d0
       | None => d0
       end) l d
  = (d ++ flat_map
            (fun ii => match adjunct_max_days (snd ii) with
                       | Some _ => [(inst_id (snd ii), Excess (fst ii))]
                       | None => []
                       end) l)%list.
Proof.
  revert d. induction l as [|ii r IH]; intros d Hnd; simpl.
  - now rewrite app_nil_r.
  - simpl in Hnd. destruct (adjunct_max_days (snd ii)).
    + rewrite dict_set_fresh.
      * rewrite IH; [now rewrite <- app_assoc|].
        rewrite map_app. simpl. now rewrite <- app_assoc.
      * intros Hin. apply NoDup_remove_2 in Hnd. apply Hnd.
        apply in_or_app. now left.
    + apply IH. now apply NoDup_remove_1 in Hnd.
Qed.

Lemma adjunct_terms_value (inp : SchedulingInput) (v : valuation) :
  NoDup (map inst_id (instructors inp)) ->
  terms_value v (adjunct_terms inp)
  = sum_over (fun kv => ADJUNCT_DAY_EXCESS_WEIGHT * v (snd kv))
             (adjunct_day_excess_vars inp).
Proof.
  intros Hnd. unfold adjunct_day_excess_vars, adjunct_terms.
  rewrite adjunct_day_excess_vars_fold.
  - simpl. induction (enumerate (instructors inp)) as [|ii r IH]; simpl; [reflexivity|].
    rewrite terms_value_app, sum_over_app, IH.
    destruct (adjunct_max_days (snd ii)); reflexivity.
  - simpl. unfold enumerate.
    rewrite <- (map_map snd inst_id), map_snd_enumerate_from. exact Hnd.
Qed.

Lemma sum_over_plus {A} (f g : A -> Z) (l : list A) :
  sum_over f l + sum_over g l = sum_over (fun x => f x + g x) l.
Proof.
  induction l as [|x r IH]; simpl; [reflexivity|]. rewrite <- IH. lia.
Qed.

(** In exact arithmetic the assembled total is the objective value when
    every soft-lock weight is a non-negative integer and instructor ids are
    distinct. *)
Lemma score_consistency_integral (inp : SchedulingInput)
    (opts : dict (list AssignOption)) (m : CpModel) (v : valuation) :
  build_model inp opts = Some m ->
  model_sat v m = true ->
  NoDup (map inst_id (instructors inp)) ->
  integral_weights inp ->
  exists sol,
    assemble inp opts v = Some sol
    /\ (total_score sol == inject_Z (objective_value v m))%Q.
Proof.
  intros Hm Hsat Hnd Hint.
  destruct (build_model_parts _ _ Hm) as (terms & links & Ht & _ & Hv & Hc & Ho).
  apply model_sat_spec in Hsat as [Hdom Hcon].
  assert (Hready : forall so, In so opts -> entry_ready inp v so).
  { intros [sid os] Hso. unfold entry_ready. simpl.
    assert (Hitem : forall io, In io (enumerate os) ->
                               In (sid, fst io, snd io) (option_items opts)).
    { intros [idx o] Hio. apply option_items_In. exists os.
      split; [assumption|now apply enumerate_In]. }
    split; [|split].
    - intros io Hio.
      assert (Hd : in_domain v (bool_var (item_var (sid, fst io, snd io))) = true).
      { apply Hdom. rewrite Hv. apply in_or_app. left.
        apply in_map_iff. exists (sid, fst io, snd io). auto. }
      unfold in_domain, bool_var, item_var in Hd. cbn [fst snd] in Hd.
      apply andb_true_iff in Hd as [Hlo Hhi].
      apply Z.leb_le in Hlo, Hhi. lia.
    - assert (Hh : holds v (SumEq1 (map (fun io => OptVar sid (fst io)) (enumerate os)))
                   = true).
      { apply Hcon. rewrite Hc. unfold hard_constraints.
        apply in_or_app. left. apply in_or_app. left.
        unfold one_per_section. apply in_map_iff. exists (sid, os). auto. }
      simpl in Hh. lia.
    - intros io Hio. destruct (traverse_In _ _ Ht _ (Hitem io Hio)) as (y & Hy & _).
      congruence. }
  destruct (@assemble_fold_sum inp v opts [] [] zero_breakdown Hint Hready)
    as (asgs & expl & b & Hfold & Hb).
  unfold assemble. rewrite Hfold. eexists. split; [reflexivity|].
  cbn [total_score]. unfold add_excess. rewrite add_excess_fold_sum, Hb.
  unfold objective_value. fold (terms_value v (cp_objective m)). rewrite Ho.
  rewrite !terms_value_app, (adjunct_terms_value inp v Hnd).
  rewrite (option_terms_value inp v _ Ht), soft_terms_value, sum_over_plus.
  unfold option_items. rewrite sum_over_flat_map.
  assert (He : sum_over
                 (fun x : string * list AssignOption =>
                    sum_over
                      (fun it => item_cost inp it * v (item_var it)
                                 + soft_coefficient inp it * v (item_var it))
                      (map (fun io => (fst x, fst io, snd io)) (enumerate (snd x))))
                 opts
               = sum_over (entry_value inp v) opts).
  { apply sum_over_ext. intros so _. rewrite sum_over_map. unfold entry_value.
    apply sum_over_ext. intros io _. unfold item_var. simpl. lia. }
  rewrite He, !inject_Z_plus. unfold breakdown_sum, zero_breakdown. simpl. lra.
Qed.

(** * Further properties of the engine *)

(** ** The option map *)

Lemma dict_set_keys_list {V} (k : string) (x : V) (d : dict V) :
  dict_keys (dict_set k x d)
  = if mem k (dict_keys d) then dict_keys d else (dict_keys d ++ [k])%list.
Proof.
  unfold dict_keys. induction d as [|[k' x'] r IH]; simpl; [reflexivity|].
  destruct (String.eqb_spec k k') as [->|Hne]; simpl; [reflexivity|].
  rewrite IH. now destruct (mem k (map fst r)).
Qed.

Lemma first_occurrences_fold {A V} (key : A -> string) (f : A -> V) (l : list A)
    (d : dict V) :
  dict_keys (fold_left (fun d0 x => dict_set (key x) (f x) d0) l d)
  = fold_left (fun acc x => if mem x acc then acc else (acc ++ [x])%list)
              (map key l) (dict_keys d).
Proof.
  revert d. induction l as [|x r IH]; intros d; simpl; [reflexivity|].
  now rewrite IH, dict_set_keys_list.
Qed.

Lemma fold_dict_set_NoDup {A V} (key : A -> string) (f : A -> V) (l : list A)
    (d : dict V) :
  NoDup (map fst d) ->
  NoDup (map fst (fold_left (fun d0 x => dict_set (key x) (f x) d0) l d)).
Proof.
  revert d. induction l as [|x r IH]; intros d H; simpl; [exact H|].
  apply IH. now apply dict_set_NoDup.
Qed.

Lemma build_options_keys_NoDup (fl : Flags) (inp : SchedulingInput) :
  NoDup (map fst (fst (_build_options fl inp))).
Proof.
  unfold _build_options. rewrite build_options_fold_fst.
  apply fold_dict_set_NoDup. constructor.
Qed.

Lemma first_occurrences_nodup_from (l acc : list string) :
  NoDup (acc ++ l) ->
  fold_left (fun a x => if mem x a then a else (a ++ [x])%list) l acc = (acc ++ l)%list.
Proof.
  revert acc. induction l as [|x r IH]; intros acc H; simpl.
  - now rewrite app_nil_r.
  - assert (Hx : mem x acc = false).
    { apply mem_false. intros Hin. apply NoDup_remove_2 in H. apply H.
      apply in_or_app. now left. }
    rewrite Hx, IH; rewrite <- app_assoc; [reflexivity|exact H].
Qed.

(** X1.  The map returned by [_build_options] has one entry per distinct
    section id, in order of first appearance: the ids themselves, in input
    order, when they are distinct. *)
Theorem build_options_keys (fl : Flags) (inp : SchedulingInput) :
  dict_keys (fst (_build_options fl inp)) = first_occurrences (map sec_id (sections inp))
  /\ NoDup (dict_keys (fst (_build_options fl inp)))
  /\ (forall k, In k (dict_keys (fst (_build_options fl inp))) <->
                exists s, In s (sections inp) /\ sec_id s = k)
  /\ (NoDup (map sec_id (sections inp)) ->
      dict_keys (fst (_build_options fl inp)) = map sec_id (sections inp)).
Proof.
  assert (Hk : dict_keys (fst (_build_options fl inp))
               = first_occurrences (map sec_id (sections inp))).
  { unfold _build_options. rewrite build_options_fold_fst.
    now rewrite (first_occurrences_fold sec_id (section_options fl inp)). }
  split; [exact Hk|]. split; [apply build_options_keys_NoDup|]. split.
  - intros k. split.
    + intros Hin. unfold dict_keys in Hin. apply in_map_iff in Hin as ([k' os] & <- & Hin).
      destruct (build_options_entries _ _ _ _ Hin) as (s & Hs & Hid & _).
      exists s. auto.
    + intros (s & Hs & <-).
      assert (exists os, dict_get (sec_id s) (fst (_build_options fl inp)) = Some os)
        as (os & Hos).
      { rewrite build_options_get.
        destruct (find_last_in (fun x => String.eqb (sec_id s) (sec_id x)) _ _ Hs
                    (String.eqb_refl _)) as [s' ->].
        simpl. eauto. }
      apply dict_get_In in Hos. unfold dict_keys. apply in_map_iff.
      exists (sec_id s, os). auto.
  - intros Hnd. rewrite Hk. unfold first_occurrences.
    now rewrite first_occurrences_nodup_from.
Qed.

(** ** Relaxation flags *)

Lemma available_rooms_In_flags (fl : Flags) (inp : SchedulingInput)
    (totals : dict Z) (s : CourseSection) (room : Room) :
  In room (available_rooms fl inp totals s) <->
  In room (rooms inp)
  /\ (ignore_room_capacity fl = false -> capacity room >= expected_enrollment s)
  /\ (ignore_room_features fl = false ->
      _has_required_features room (room_requirements s) = true)
  /\ (forall g, truthy_str (crosslist_group_id s) = Some g ->
        ignore_crosslist_capacity fl = false -> ignore_room_capacity fl = false ->
        capacity room >= dict_get_default g 0 totals).
Proof.
  unfold available_rooms.
  assert (Hbase : forall l,
    In room (filter
      (fun room0 =>
         if negb (ignore_room_capacity fl) && (capacity room0 <? expected_enrollment s)
         then false
         else if negb (ignore_room_features fl)
                 && negb (_has_required_features room0 (room_requirements s))
         then false else true) l) <->
    In room l
    /\ (ignore_room_capacity fl = false -> capacity room >= expected_enrollment s)
    /\ (ignore_room_features fl = false ->
        _has_required_features room (room_requirements s) = true)).
  { intros l. rewrite filter_In.
    destruct (ignore_room_capacity fl), (ignore_room_features fl);
      destruct (Z.ltb_spec (capacity room) (expected_enrollment s));
      destruct (_has_required_features room (room_requirements s)); simpl;
      intuition (try discriminate; try lia). }
  destruct (truthy_str (crosslist_group_id s)) as [g|].
  - destruct (negb (ignore_crosslist_capacity fl) && negb (ignore_room_capacity fl))
      eqn:E.
    + apply andb_true_iff in E as [Ex Ec]. apply negb_true_iff in Ex, Ec.
      rewrite filter_In, Hbase, Z.geb_le. split.
      * intros ((H1 & H2 & H3) & H4). repeat split; auto.
        intros g' [= <-] _ _. lia.
      * intros (H1 & H2 & H3 & H4). repeat split; auto.
        specialize (H4 g eq_refl Ex Ec). lia.
    + rewrite Hbase. split.
      * intros (H1 & H2 & H3). repeat split; auto.
        intros g' _ Ex Ec. rewrite Ex, Ec in E. discriminate.
      * intros (H1 & H2 & H3 & _). auto.
  - rewrite Hbase. split.
    + intros (H1 & H2 & H3). repeat split; auto. discriminate.
    + intros (H1 & H2 & H3 & _). auto.
Qed.

Lemma blocked_times_global_flags (fl : Flags) (inp : SchedulingInput) (t : string) :
  In t (blocked_times_global fl inp) <->
  ignore_blocked_times fl = false /\ globally_blocked inp t.
Proof.
  unfold blocked_times_global, globally_blocked. rewrite in_flat_map.
  destruct (ignore_blocked_times fl); simpl.
  - split; [|intros [[=] _]]. intros (b & _ & H). rewrite andb_false_r in H. contradiction.
  - split.
    + intros (b & Hb & H). rewrite andb_true_r in H. split; [reflexivity|].
      destruct (String.eqb_spec (scope b) "global"); [|contradiction]. exists b. auto.
    + intros (_ & b & Hb & Hs & Ht). exists b. split; [assumption|].
      rewrite Hs. exact Ht.
Qed.

(** The options of a section under given flags: a known allowed pattern,
    one of its timeslot sets that is neither blocked nor rejected by the
    lock, and an available room the lock accepts. *)
Lemma section_options_In (fl : Flags) (inp : SchedulingInput) (s : CourseSection)
    (o : AssignOption) :
  In o (section_options fl inp s) <->
  exists pattern room,
    In (opt_pattern o) (allowed_meeting_patterns s)
    /\ dict_get (opt_pattern o) (dict_of pat_id (meeting_patterns inp)) = Some pattern
    /\ In (opt_slots o) (compatible_timeslot_sets pattern)
    /\ (forall t, In t (opt_slots o) -> ~ In t (blocked_times_global fl inp))
    /\ lock_rejects_slots (dict_get (sec_id s) (locked_by_section fl inp)) (opt_slots o)
       = false
    /\ In room (available_rooms fl inp (_build_crosslist_totals (sections inp)) s)
    /\ lock_rejects_room (dict_get (sec_id s) (locked_by_section fl inp)) room = false
    /\ opt_room o = room_id room
    /\ opt_waste o = capacity room - expected_enrollment s.
Proof.
  unfold section_options. rewrite in_flat_map. split.
  - intros (pid & Hpid & H).
    destruct (dict_get pid _) as [pattern|] eqn:Ep; [|contradiction].
    apply in_flat_map in H as (ts & Hts & H).
    destruct (existsb _ ts) eqn:Eb; [contradiction|].
    destruct (lock_rejects_slots _ ts) eqn:Els; [contradiction|].
    apply in_flat_map in H as (room & Hroom & H).
    destruct (lock_rejects_room _ room) eqn:Elr; [contradiction|].
    destruct H as [<-|[]]. simpl. exists pattern, room. repeat split; auto.
    intros t Ht Hbl.
    assert (existsb (fun slot => mem slot (blocked_times_global fl inp)) ts = true) as E
      by (apply existsb_exists; exists t; split; [assumption|now apply mem_In]).
    congruence.
  - intros (pattern & room & Hpid & Ep & Hts & Hbl & Els & Hroom & Elr & Hid & Hw).
    exists (opt_pattern o). split; [assumption|]. rewrite Ep.
    apply in_flat_map. exists (opt_slots o). split; [assumption|].
    assert (existsb (fun slot => mem slot (blocked_times_global fl inp)) (opt_slots o)
            = false) as ->.
    { destruct (existsb _ (opt_slots o)) eqn:E; [|reflexivity].
      apply existsb_exists in E as (t & Ht & Hm). apply mem_In in Hm.
      now elim (Hbl t Ht). }
    rewrite Els. apply in_flat_map. exists room. split; [assumption|].
    rewrite Elr. left. destruct o; simpl in *. now subst.
Qed.

Lemma locked_by_section_flags (fl1 fl2 : Flags) (inp : SchedulingInput) (sid : string) :
  (ignore_locks fl1 = true -> ignore_locks fl2 = true) ->
  dict_get sid (locked_by_section fl2 inp) = None
  \/ dict_get sid (locked_by_section fl2 inp) = dict_get sid (locked_by_section fl1 inp).
Proof.
  unfold locked_by_section. intros H.
  destruct (ignore_locks fl2); [now left|].
  destruct (ignore_locks fl1); [|now right]. discriminate (H eq_refl).
Qed.

Lemma section_options_mono (fl1 fl2 : Flags) (inp : SchedulingInput)
    (s : CourseSection) (o : AssignOption) :
  flags_le fl1 fl2 ->
  In o (section_options fl1 inp s) -> In o (section_options fl2 inp s).
Proof.
  intros (Hb & Hl & Hc & Hf & Hx) Ho.
  apply section_options_In in Ho
    as (pattern & room & H1 & H2 & H3 & H4 & H5 & H6 & H7 & H8 & H9).
  apply section_options_In. exists pattern, room.
  split; [assumption|]. split; [assumption|]. split; [assumption|].
  split; [|split; [|split; [|split; [|split; assumption]]]].
  - intros t Ht Hin. apply (H4 t Ht).
    apply blocked_times_global_flags in Hin as [Hig Hg].
    apply blocked_times_global_flags. split; [|assumption].
    destruct (ignore_blocked_times fl1); [|reflexivity].
    rewrite (Hb eq_refl) in Hig. discriminate.
  - destruct (locked_by_section_flags fl1 fl2 inp (sec_id s) Hl) as [E|E];
      rewrite E; [reflexivity|assumption].
  - apply available_rooms_In_flags in H6 as (R1 & R2 & R3 & R4).
    apply available_rooms_In_flags. split; [assumption|].
    split; [|split].
    + intros E. apply R2. destruct (ignore_room_capacity fl1); [|reflexivity].
      rewrite (Hc eq_refl) in E. discriminate.
    + intros E. apply R3. destruct (ignore_room_features fl1); [|reflexivity].
      rewrite (Hf eq_refl) in E. discriminate.
    + intros g Hg E1 E2. apply (R4 g Hg).
      * destruct (ignore_crosslist_capacity fl1); [|reflexivity].
        rewrite (Hx eq_refl) in E1. discriminate.
      * destruct (ignore_room_capacity fl1); [|reflexivity].
        rewrite (Hc eq_refl) in E2. discriminate.
  - destruct (locked_by_section_flags fl1 fl2 inp (sec_id s) Hl) as [E|E];
      rewrite E; [reflexivity|assumption].
Qed.

Lemma build_options_errors_mono (fl1 fl2 : Flags) (inp : SchedulingInput)
    (e : ValidationError) :
  flags_le fl1 fl2 ->
  In e (snd (_build_options fl2 inp)) -> In e (snd (_build_options fl1 inp)).
Proof.
  intros Hle. unfold _build_options. rewrite !build_options_fold_snd. simpl.
  rewrite !in_map_iff. intros (s & <- & Hs). exists s. split; [reflexivity|].
  apply filter_In in Hs as [Hin Hnil]. apply filter_In. split; [assumption|].
  destruct (section_options fl1 inp s) as [|o r] eqn:E; [reflexivity|].
  assert (Ho : In o (section_options fl2 inp s)).
  { apply (@section_options_mono fl1 fl2 inp s o Hle). rewrite E. now left. }
  destruct (section_options fl2 inp s); [contradiction|discriminate].
Qed.

Lemma build_options_no_errors_mono (fl1 fl2 : Flags) (inp : SchedulingInput) :
  flags_le fl1 fl2 ->
  snd (_build_options fl1 inp) = [] -> snd (_build_options fl2 inp) = [].
Proof.
  intros Hle E. destruct (snd (_build_options fl2 inp)) as [|e r] eqn:E2; [reflexivity|].
  assert (He : In e (snd (_build_options fl1 inp))).
  { apply (@build_options_errors_mono fl1 fl2 inp e Hle). rewrite E2. now left. }
  rewrite E in He. contradiction.
Qed.

(** X2.  Relaxing more filters only adds options: every option generated under
    [fl1] is generated under any [fl2] that relaxes at least as much, so a
    section with no option under [fl2] has none under [fl1], and the
    option errors under [fl2] are among those under [fl1]. *)
Theorem relaxation_adds_options (fl1 fl2 : Flags) (inp : SchedulingInput) :
  flags_le fl1 fl2 ->
  (forall s o, In o (section_options fl1 inp s) -> In o (section_options fl2 inp s))
  /\ (forall e, In e (snd (_build_options fl2 inp)) -> In e (snd (_build_options fl1 inp)))
  /\ (snd (_build_options fl1 inp) = [] -> snd (_build_options fl2 inp) = []).
Proof.
  intros Hle. split; [|split].
  - intros s o. exact (@section_options_mono fl1 fl2 inp s o Hle).
  - intros e. exact (@build_options_errors_mono fl1 fl2 inp e Hle).
  - exact (@build_options_no_errors_mono fl1 fl2 inp Hle).
Qed.

(** ** What a solution of the optimization model guarantees *)

Lemma model_sat_hard (inp : SchedulingInput) (opts : dict (list AssignOption))
    (m : CpModel) (v : valuation) :
  build_model inp opts = Some m -> model_sat v m = true ->
  (forall it, In it (option_items opts) ->
              v (item_var it) = 0 \/ v (item_var it) = 1)
  /\ (forall c, In c (hard_constraints inp opts) -> holds v c = true).
Proof.
  intros Hm Hsat.
  destruct (build_model_parts _ _ Hm) as (terms & links & _ & _ & Hv & Hc & _).
  apply model_sat_spec in Hsat as [Hdom Hcon]. split.
  - intros it Hit.
    assert (Hd : in_domain v (bool_var (item_var it)) = true).
    { apply Hdom. rewrite Hv. apply in_or_app. left.
      apply in_map_iff. exists it. auto. }
    unfold in_domain, bool_var in Hd. cbn [fst snd] in Hd.
    apply andb_true_iff in Hd as [Hlo Hhi]. apply Z.leb_le in Hlo, Hhi. lia.
  - intros c Hin. apply Hcon. rewrite Hc. apply in_or_app. now left.
Qed.

(** Two distinct selected variables cannot both occur in an
    at-most-one constraint over 0/1 variables. *)
Lemma at_most_one_selected (v : valuation) (l : list var) (a b : var) :
  (forall x, In x l -> v x = 0 \/ v x = 1) ->
  holds v (SumLe1 l) = true ->
  In a l -> In b l -> v a = 1 -> v b = 1 -> a = b.
Proof.
  intros H01 Hh Ha Hb Ea Eb. simpl in Hh. apply Z.leb_le in Hh.
  assert (Hdec : {a = b} + {a <> b}).
  { decide equality; try apply string_dec; apply Nat.eq_dec. }
  destruct Hdec as [E|Hne]; [exact E|exfalso].
  assert (v a + v b <= sum_vars v l).
  { apply sum_vars_two_members; auto. intros x Hx. destruct (H01 x Hx); lia. }
  lia.
Qed.

Lemma at_most_one_In (vs : list var) : vs <> [] -> In (SumLe1 vs) (at_most_one vs).
Proof. destruct vs; [intros H; now elim H|simpl; auto]. Qed.

(** An option of the map is found through its section id. *)
Lemma built_item_lookup (fl : Flags) (inp : SchedulingInput)
    (sid : string) (idx : nat) (o : AssignOption) :
  In (sid, idx, o) (option_items (fst (_build_options fl inp))) <->
  exists os, dict_get sid (fst (_build_options fl inp)) = Some os
             /\ nth_error os idx = Some o.
Proof.
  rewrite option_items_In. split; intros (os & H & Hn); exists os; (split; [|exact Hn]).
  - apply dict_In_get; [apply build_options_keys_NoDup|exact H].
  - now apply dict_get_In.
Qed.

Lemma one_selected_option (inp : SchedulingInput) (m : CpModel)
    (v : valuation) (sid : string) (os : list AssignOption) :
  build_model inp (fst (_build_options no_flags inp)) = Some m ->
  model_sat v m = true ->
  dict_get sid (fst (_build_options no_flags inp)) = Some os ->
  exists idx o,
    nth_error os idx = Some o
    /\ v (OptVar sid idx) = 1
    /\ chosen_idx v sid os = Some idx
    /\ forall idx' o', nth_error os idx' = Some o' -> v (OptVar sid idx') = 1 ->
                       idx' = idx.
Proof.
  intros Hm Hsat Hos. destruct (@model_sat_hard inp _ m v Hm Hsat) as [H01 Hhard].
  assert (Hin : In (sid, os) (fst (_build_options no_flags inp)))
    by now apply dict_get_In.
  assert (Hitem : forall io, In io (enumerate os) ->
            v (OptVar sid (fst io)) = 0 \/ v (OptVar sid (fst io)) = 1).
  { intros [idx o] Hio.
    apply (H01 (sid, idx, o)). apply option_items_In. exists os.
    split; [assumption|now apply enumerate_In]. }
  assert (Hsum : sum_vars v (map (fun io : nat * AssignOption => OptVar sid (fst io))
                                 (enumerate os)) = 1).
  { assert (Hh : holds v (SumEq1 (map (fun io : nat * AssignOption => OptVar sid (fst io))
                                      (enumerate os))) = true).
    { apply Hhard. unfold hard_constraints. apply in_or_app. left.
      unfold one_per_section. apply in_map_iff. exists (sid, os). auto. }
    simpl in Hh. lia. }
  destruct (one_hot_enumerate v sid (fun _ _ => 0) os 0 Hitem Hsum)
    as (idx & o & Hio & Hfind & _).
  apply enumerate_In in Hio. exists idx, o.
  assert (Hv : v (OptVar sid idx) = 1).
  { apply find_some in Hfind as [_ E]. now apply Z.eqb_eq in E. }
  split; [assumption|]. split; [assumption|]. split; [exact Hfind|].
  intros idx' o' Hn' Hv'.
  destruct (Nat.eq_dec idx' idx) as [E|Hne]; [exact E|exfalso].
  assert (v (OptVar sid idx') + v (OptVar sid idx)
          <= sum_vars v (map (fun io : nat * AssignOption => OptVar sid (fst io))
                             (enumerate os))).
  { apply sum_vars_two_members.
    - intros x Hx. apply in_map_iff in Hx as (io & <- & Hio').
      destruct (Hitem io Hio'); lia.
    - apply in_map_iff. exists (idx', o'). split; [reflexivity|now apply enumerate_In].
    - apply in_map_iff. exists (idx, o). split; [reflexivity|now apply enumerate_In].
    - intros [= E]. now elim Hne. }
  lia.
Qed.

(** X3.  In every solution of the optimization model exactly one option of each
    section of the map is selected, and [chosen_idx] returns its index. *)
Theorem exactly_one_option_per_section (inp : SchedulingInput) (m : CpModel)
    (v : valuation) (sid : string) (os : list AssignOption) :
  build_model inp (fst (_build_options no_flags inp)) = Some m ->
  model_sat v m = true ->
  dict_get sid (fst (_build_options no_flags inp)) = Some os ->
  exists idx o,
    nth_error os idx = Some o
    /\ v (OptVar sid idx) = 1
    /\ chosen_idx v sid os = Some idx
    /\ forall idx' o', nth_error os idx' = Some o' -> v (OptVar sid idx') = 1 ->
                       idx' = idx.
Proof. exact (@one_selected_option inp m v sid os). Qed.

Lemma selected_same_section (inp : SchedulingInput) (m : CpModel) (v : valuation)
    (sid : string) (i1 i2 : nat) (o1 o2 : AssignOption) :
  build_model inp (fst (_build_options no_flags inp)) = Some m ->
  model_sat v m = true ->
  In (sid, i1, o1) (option_items (fst (_build_options no_flags inp))) ->
  In (sid, i2, o2) (option_items (fst (_build_options no_flags inp))) ->
  v (OptVar sid i1) = 1 -> v (OptVar sid i2) = 1 ->
  i1 = i2 /\ o1 = o2.
Proof.
  intros Hm Hsat H1 H2 V1 V2.
  apply built_item_lookup in H1 as (os & Hos & N1).
  apply built_item_lookup in H2 as (os' & Hos' & N2).
  rewrite Hos in Hos'. injection Hos' as <-.
  destruct (@one_selected_option inp m v sid os Hm Hsat Hos) as (idx & o & _ & _ & _ & Hu).
  assert (i1 = idx) by exact (Hu i1 o1 N1 V1).
  assert (i2 = idx) by exact (Hu i2 o2 N2 V2).
  subst. split; [reflexivity|congruence].
Qed.

(** ** Sharing a room *)

Lemma uses_occupies (o : AssignOption) (r t : string) :
  uses o r t = true <-> occupies o r t.
Proof.
  unfold uses, occupies. rewrite andb_true_iff, String.eqb_eq, mem_In. reflexivity.
Qed.

(** The key the builder gives a section, by the group the section names. *)
Lemma roomshare_key_by_group (inp : SchedulingInput) (s : CourseSection) :
  (forall g, in_same_room_group inp s g -> roomshare_key inp s = g)
  /\ (in_no_same_room_group inp s -> roomshare_key inp s = "sec:" ++ sec_id s)
  /\ ((exists g, in_same_room_group inp s g) \/ in_no_same_room_group inp s).
Proof.
  destruct (roomshare_key_cases inp s) as [[Hk Hno]|(g & Hg & Hin & Hk)].
  - assert (Hnone : in_no_same_room_group inp s).
    { intros g (Hg & grp & Hgrp & Hid & Hsame). apply (Hno g Hg).
      apply crosslist_roomshare_In. exists grp. auto. }
    split; [|split; [auto|now right]].
    intros g Hin. now elim (Hnone g).
  - assert (Hsome : in_same_room_group inp s g).
    { split; [assumption|]. apply crosslist_roomshare_In in Hin as (grp & H1 & H2 & H3).
      exists grp. auto. }
    split; [|split; [|left; now exists g]].
    + intros g' (Hg' & _). congruence.
    + intros Hnone. now elim (Hnone g).
Qed.

(** C4 (amended).  In every solution of the optimization model built by
    [_solve_schedule], two selected options that occupy the same
    (room, timeslot) pair belong to sections with the same roomshare key,
    the key of a section being its [crosslist_group_id] when a group of
    the input with [require_same_room] has that id and "sec:" followed by
    the section id otherwise.  So the two options are the same option, or
    both sections name one group that requires the same room, or one
    section names such a group whose id is literally the per-section key
    of the other section, which names no such group.  Membership is by
    the [crosslist_group_id] of the section; the [member_section_ids] of
    the groups are not read.  Conversely any 0/1 selection of the option
    variables in which the options selected on each (room, timeslot) pair
    all have one roomshare key satisfies the room-usage constraints (with
    suitable values of their indicator variables), however many options
    share the pair. *)
Theorem room_sharing_by_roomshare_key (inp : SchedulingInput) (m : CpModel) :
  build_model inp (fst (_build_options no_flags inp)) = Some m ->
  (forall v it1 it2 r t,
      model_sat v m = true ->
      In it1 (option_items (fst (_build_options no_flags inp))) ->
      In it2 (option_items (fst (_build_options no_flags inp))) ->
      v (item_var it1) = 1 -> v (item_var it2) = 1 ->
      occupies (snd it1) r t -> occupies (snd it2) r t ->
      exists s1 s2,
        find_last (fun s => String.eqb (fst (fst it1)) (sec_id s)) (sections inp) = Some s1
        /\ find_last (fun s => String.eqb (fst (fst it2)) (sec_id s)) (sections inp)
           = Some s2
        /\ roomshare_key inp s1 = roomshare_key inp s2
        /\ (it1 = it2
            \/ (exists g, in_same_room_group inp s1 g /\ in_same_room_group inp s2 g)
            \/ (exists g, in_same_room_group inp s1 g /\ in_no_same_room_group inp s2
                          /\ g = "sec:" ++ sec_id s2)
            \/ (exists g, in_same_room_group inp s2 g /\ in_no_same_room_group inp s1
                          /\ g = "sec:" ++ sec_id s1)))
  /\ (forall s,
        (forall g, in_same_room_group inp s g -> roomshare_key inp s = g)
        /\ (in_no_same_room_group inp s -> roomshare_key inp s = "sec:" ++ sec_id s))
  /\ (forall it,
        In it (option_items (fst (_build_options no_flags inp))) ->
        exists s,
          find_last (fun s0 => String.eqb (fst (fst it)) (sec_id s0)) (sections inp) = Some s
          /\ roomshare_of inp (fst (fst it)) = roomshare_key inp s)
  /\ (forall x,
        (forall it, In it (option_items (fst (_build_options no_flags inp))) ->
                    x (item_var it) = 0 \/ x (item_var it) = 1) ->
        (forall it1 it2 room tslot,
            In it1 (option_items (fst (_build_options no_flags inp))) ->
            In it2 (option_items (fst (_build_options no_flags inp))) ->
            In room (rooms inp) -> In tslot (timeslots inp) ->
            x (item_var it1) = 1 -> x (item_var it2) = 1 ->
            occupies (snd it1) (room_id room) (slot_id tslot) ->
            occupies (snd it2) (room_id room) (slot_id tslot) ->
            roomshare_of inp (fst (fst it1)) = roomshare_of inp (fst (fst it2))) ->
        exists v,
          (forall sid idx, v (OptVar sid idx) = x (OptVar sid idx))
          /\ (forall d, In d (room_usage_vars inp
                                (option_items (fst (_build_options no_flags inp)))) ->
                        in_domain v d = true)
          /\ (forall c, In c (room_usage_constraints inp
                                (option_items (fst (_build_options no_flags inp)))) ->
                        holds v c = true)).
Proof.
  intros Hm. set (items := option_items (fst (_build_options no_flags inp))).
  assert (Hres : forall it, In it items ->
            exists s,
              find_last (fun s0 => String.eqb (fst (fst it)) (sec_id s0)) (sections inp)
              = Some s
              /\ sec_id s = fst (fst it)
              /\ roomshare_of inp (fst (fst it)) = roomshare_key inp s).
  { intros it Hit. destruct (built_item_key inp it Hit) as (s & _ & Hid & Hget & Hk).
    exists s. unfold sections_by_id in Hget. rewrite dict_of_get in Hget. auto. }
  split; [|split; [|split]].
  - intros v it1 it2 r t Hsat Hi1 Hi2 Hv1 Hv2 Ho1 Ho2.
    assert (Hkey : roomshare_of inp (fst (fst it1)) = roomshare_of inp (fst (fst it2))).
    { pose proof Hsat as Hsat'. apply model_sat_spec in Hsat' as [Hdom Hcon].
      destruct (build_model_parts _ _ Hm) as (terms & links & _ & _ & Hvars & Hcs & _).
      destruct Ho1 as [Hroom Hslot].
      destruct (built_item_room inp it1 Hi1) as (ri & room & Hr & Hid).
      destruct (@built_item_slot inp _ m it1 t Hm Hi1 Hslot) as (ti & tslot & Ht & Htid).
      subst r. subst t.
      refine (@room_usage_forces_same_key inp items v ri ti room tslot it1 it2
                _ _ Hr Ht Hi1 Hi2 Hv1 Hv2 _ _).
      + intros d Hd. apply Hdom. rewrite Hvars.
        apply in_or_app. right. apply in_or_app. now left.
      + intros c Hc. apply Hcon. rewrite Hcs. unfold hard_constraints.
        apply in_or_app. left. apply in_or_app. right. apply in_or_app. now left.
      + apply uses_occupies. split; [now symmetry|assumption].
      + apply uses_occupies. rewrite <- Hid. exact Ho2. }
    destruct (Hres it1 Hi1) as (s1 & Hf1 & Hid1 & Hk1).
    destruct (Hres it2 Hi2) as (s2 & Hf2 & Hid2 & Hk2).
    exists s1, s2. split; [assumption|]. split; [assumption|].
    rewrite Hk1, Hk2 in Hkey. split; [exact Hkey|].
    destruct (roomshare_key_by_group inp s1) as (Hg1 & Hn1 & [(g1 & Hin1)|Hno1]);
      destruct (roomshare_key_by_group inp s2) as (Hg2 & Hn2 & [(g2 & Hin2)|Hno2]).
    + right. left. exists g1. split; [assumption|].
      rewrite (Hg1 g1 Hin1), (Hg2 g2 Hin2) in Hkey. now subst g2.
    + right. right. left. exists g1. split; [assumption|]. split; [assumption|].
      now rewrite (Hg1 g1 Hin1), (Hn2 Hno2) in Hkey.
    + right. right. right. exists g2. split; [assumption|]. split; [assumption|].
      now rewrite (Hn1 Hno1), (Hg2 g2 Hin2) in Hkey.
    + left. rewrite (Hn1 Hno1), (Hn2 Hno2) in Hkey. simpl in Hkey.
      injection Hkey as Hsid. rewrite Hid1, Hid2 in Hsid.
      destruct it1 as [[sid1 i1] o1], it2 as [[sid2 i2] o2]. cbn [fst snd] in *.
      subst sid2.
      destruct (@selected_same_section inp m v sid1 i1 i2 o1 o2 Hm Hsat Hi1 Hi2 Hv1 Hv2)
        as [-> ->].
      reflexivity.
  - intros s. destruct (roomshare_key_by_group inp s) as (H1 & H2 & _). auto.
  - intros it Hit. destruct (Hres it Hit) as (s & Hf & _ & Hk). exists s. auto.
  - intros x H01 Hshare. exists (room_use_value inp items x).
    apply (room_usage_satisfiable inp items x H01).
    intros it1 it2 room tslot Hi1 Hi2 Hr Ht Hx1 Hx2 Hu1 Hu2.
    apply (Hshare it1 it2 room tslot); try assumption; now apply uses_occupies.
Qed.

(** The group "sec:S1" requires the same room and is named by [S2] only;
    [S1] names no group and is listed by none, yet the model has a
    solution with both sections in room R1 at timeslot T1, because the id
    of the group is the per-section key of [S1]. *)
Lemma room_sharing_by_roomshare_key_counterexample :
  exists m,
    build_model Examples.key_collision
      (fst (_build_options no_flags Examples.key_collision)) = Some m
    /\ model_sat Examples.pick_collision m = true
    /\ In ("S1", 0%nat, mkOption "P1" ["T1"] "R1" 20)
          (option_items (fst (_build_options no_flags Examples.key_collision)))
    /\ In ("S2", 0%nat, mkOption "P1" ["T1"] "R1" 20)
          (option_items (fst (_build_options no_flags Examples.key_collision)))
    /\ Examples.pick_collision (OptVar "S1" 0) = 1
    /\ Examples.pick_collision (OptVar "S2" 0) = 1
    /\ In Examples.S1 (sections Examples.key_collision)
    /\ crosslist_group_id Examples.S1 = None
    /\ (forall grp, In grp (crosslist_groups Examples.key_collision) ->
                    ~ In "S1" (xl_member_section_ids grp))
    /\ roomshare_key Examples.key_collision Examples.S1 = "sec:S1"
    /\ roomshare_key Examples.key_collision Examples.S2_sec = "sec:S1".
Proof.
  eexists. split; [reflexivity|]. split; [reflexivity|].
  split; [now left|]. split; [right; now left|].
  split; [reflexivity|]. split; [reflexivity|]. split; [now left|].
  split; [reflexivity|]. split; [|split; reflexivity].
  intros grp [<-|[]] [H|[]]. discriminate.
Qed.

Lemma room_sharing_by_roomshare_key_witness :
  exists m,
    build_model Examples.same_room (fst (_build_options no_flags Examples.same_room))
      = Some m
    /\ model_sat Examples.pick_both m = true
    /\ Examples.pick_both (OptVar "S1" 0) = 1
    /\ Examples.pick_both (OptVar "S2" 0) = 1
    /\ occupies (mkOption "P1" ["T1"] "R1" 25) "R1" "T1"
    /\ exists s1 s2,
         find_last (fun s => String.eqb "S1" (sec_id s)) (sections Examples.same_room)
         = Some s1
         /\ find_last (fun s => String.eqb "S2" (sec_id s)) (sections Examples.same_room)
            = Some s2
         /\ roomshare_key Examples.same_room s1 = roomshare_key Examples.same_room s2.
Proof.
  assert (Hocc : occupies (mkOption "P1" ["T1"] "R1" 25) "R1" "T1").
  { split; [reflexivity|now left]. }
  eexists. split; [reflexivity|]. split; [reflexivity|].
  split; [reflexivity|]. split; [reflexivity|]. split; [exact Hocc|].
  destruct (@room_sharing_by_roomshare_key Examples.same_room _ eq_refl) as [H _].
  destruct (H Examples.pick_both
              ("S1", 0%nat, mkOption "P1" ["T1"] "R1" 25)
              ("S2", 0%nat, mkOption "P1" ["T1"] "R1" 25) "R1" "T1"
              eq_refl (or_introl eq_refl) (or_intror (or_introl eq_refl))
              eq_refl eq_refl Hocc Hocc) as (s1 & s2 & H1 & H2 & H3 & _).
  exists s1, s2. auto.
Defined.

(** Instructor non-overlap: in a solution, two selected options of
    sections taught by one instructor of the input that share a timeslot
    are the same option. *)
Theorem instructor_never_double_booked (inp : SchedulingInput) (m : CpModel)
    (v : valuation) (instr : Instructor) (s1 s2 : CourseSection)
    (sid1 sid2 : string) (i1 i2 : nat) (o1 o2 : AssignOption) (t : string) :
  build_model inp (fst (_build_options no_flags inp)) = Some m ->
  model_sat v m = true ->
  In instr (instructors inp) ->
  dict_get sid1 (sections_by_id inp) = Some s1 -> instructor_id s1 = inst_id instr ->
  dict_get sid2 (sections_by_id inp) = Some s2 -> instructor_id s2 = inst_id instr ->
  In (sid1, i1, o1) (option_items (fst (_build_options no_flags inp))) ->
  In (sid2, i2, o2) (option_items (fst (_build_options no_flags inp))) ->
  v (OptVar sid1 i1) = 1 -> v (OptVar sid2 i2) = 1 ->
  In t (opt_slots o1) -> In t (opt_slots o2) ->
  sid1 = sid2 /\ i1 = i2.
Proof.
  intros Hm Hsat Hinstr Hs1 Hi1 Hs2 Hi2 Hit1 Hit2 V1 V2 T1 T2.
  destruct (@model_sat_hard inp _ m v Hm Hsat) as [H01 Hhard].
  destruct (@built_item_slot inp _ m (sid1, i1, o1) t Hm Hit1 T1)
    as (ti & tslot & Hti & <-).
  apply nth_error_In in Hti.
  set (items := option_items (fst (_build_options no_flags inp))) in *.
  set (p := fun it : string * nat * AssignOption =>
              match item_instructor_id inp (fst (fst it)) with
              | Some iid => String.eqb iid (inst_id instr)
                            && mem (slot_id tslot) (opt_slots (snd it))
              | None => false
              end).
  set (l := map item_var (filter p items)).
  assert (Hp : forall sid i o s, dict_get sid (sections_by_id inp) = Some s ->
                 instructor_id s = inst_id instr -> In (sid, i, o) items ->
                 In (slot_id tslot) (opt_slots o) -> In (OptVar sid i) l).
  { intros sid i o s Hs Hi Hit Ht. unfold l.
    change (OptVar sid i) with (item_var (sid, i, o)). apply in_map.
    apply filter_In. split; [assumption|]. unfold p, item_instructor_id. simpl.
    rewrite Hs. simpl. rewrite Hi, String.eqb_refl. simpl. now apply mem_In. }
  pose proof (Hp _ _ _ _ Hs1 Hi1 Hit1 T1) as L1.
  pose proof (Hp _ _ _ _ Hs2 Hi2 Hit2 T2) as L2.
  assert (Hc : holds v (SumLe1 l) = true).
  { apply Hhard. unfold hard_constraints.
    apply in_or_app. right. apply in_or_app. right. apply in_or_app. left.
    unfold instructor_constraints. apply in_flat_map. exists instr.
    split; [assumption|]. apply in_flat_map. exists tslot. split; [assumption|].
    apply at_most_one_In. intros E. unfold l in L1. fold items in E. fold p in E.
    rewrite E in L1. contradiction. }
  assert (E : OptVar sid1 i1 = OptVar sid2 i2).
  { apply (@at_most_one_selected v l); auto.
    intros x Hx. unfold l in Hx. apply in_map_iff in Hx as (it & <- & Hit).
    apply filter_In in Hit as [Hit _]. now apply H01. }
  now injection E.
Qed.

(** No-overlap groups: in a solution, two selected options of members of a
    no-overlap group that share a timeslot are the same option. *)
Theorem no_overlap_group_respected (inp : SchedulingInput) (m : CpModel)
    (v : valuation) (grp : NoOverlapGroup)
    (sid1 sid2 : string) (i1 i2 : nat) (o1 o2 : AssignOption) (t : string) :
  build_model inp (fst (_build_options no_flags inp)) = Some m ->
  model_sat v m = true ->
  In grp (no_overlap_groups inp) ->
  In sid1 (nol_member_section_ids grp) -> In sid2 (nol_member_section_ids grp) ->
  In (sid1, i1, o1) (option_items (fst (_build_options no_flags inp))) ->
  In (sid2, i2, o2) (option_items (fst (_build_options no_flags inp))) ->
  v (OptVar sid1 i1) = 1 -> v (OptVar sid2 i2) = 1 ->
  In t (opt_slots o1) -> In t (opt_slots o2) ->
  sid1 = sid2 /\ i1 = i2.
Proof.
  intros Hm Hsat Hgrp M1 M2 Hit1 Hit2 V1 V2 T1 T2.
  destruct (@model_sat_hard inp _ m v Hm Hsat) as [H01 Hhard].
  destruct (@built_item_slot inp _ m (sid1, i1, o1) t Hm Hit1 T1)
    as (ti & tslot & Hti & <-).
  apply nth_error_In in Hti.
  set (opts := fst (_build_options no_flags inp)) in *.
  set (l := flat_map
              (fun section_id =>
                 flat_map
                   (fun io : nat * AssignOption =>
                      if mem (slot_id tslot) (opt_slots (snd io))
                      then [OptVar section_id (fst io)] else [])
                   (enumerate (dict_get_default section_id [] opts)))
              (nol_member_section_ids grp)).
  assert (Hl : forall sid i o, In sid (nol_member_section_ids grp) ->
                 In (sid, i, o) (option_items opts) ->
                 In (slot_id tslot) (opt_slots o) -> In (OptVar sid i) l).
  { intros sid i o Hmem Hit Ht. unfold l. apply in_flat_map. exists sid.
    split; [assumption|]. apply built_item_lookup in Hit as (os & Hos & Hn).
    unfold dict_get_default. fold opts in Hos. rewrite Hos.
    apply in_flat_map. exists (i, o). split; [now apply enumerate_In|].
    simpl. apply mem_In in Ht. rewrite Ht. simpl. auto. }
  pose proof (Hl _ _ _ M1 Hit1 T1) as L1. pose proof (Hl _ _ _ M2 Hit2 T2) as L2.
  assert (H01l : forall x, In x l -> v x = 0 \/ v x = 1).
  { intros x Hx. unfold l in Hx. apply in_flat_map in Hx as (sid & _ & Hx).
    apply in_flat_map in Hx as ([i o] & Hio & Hx). simpl in Hx.
    destruct (mem _ _); [|contradiction]. destruct Hx as [<-|[]].
    apply (H01 (sid, i, o)). apply option_items_In.
    unfold dict_get_default in Hio.
    destruct (dict_get sid opts) as [os|] eqn:E; [|contradiction].
    exists os. split; [now apply dict_get_In|now apply enumerate_In]. }
  assert (Hc : holds v (SumLe1 l) = true).
  { apply Hhard. unfold hard_constraints.
    apply in_or_app. right. apply in_or_app. right. apply in_or_app. right.
    apply in_or_app. left.
    unfold no_overlap_constraints. apply in_flat_map. exists grp.
    split; [assumption|]. apply in_flat_map. exists tslot. split; [assumption|].
    apply at_most_one_In. intros E. fold opts in E. fold l in E.
    rewrite E in L1. contradiction. }
  assert (E : OptVar sid1 i1 = OptVar sid2 i2)
    by (apply (@at_most_one_selected v l); auto).
  now injection E.
Qed.

Lemma member_pairs_complete (l : list string) (a b : string) :
  In a l -> In b l -> a <> b -> In (a, b) (member_pairs l) \/ In (b, a) (member_pairs l).
Proof.
  induction l as [|x r IH]; simpl; [contradiction|].
  intros [->|Ha] [->|Hb] Hne.
  - now elim Hne.
  - left. apply in_or_app. left. apply in_map_iff. exists b. auto.
  - right. apply in_or_app. left. apply in_map_iff. exists a. auto.
  - destruct (IH Ha Hb Hne) as [H|H]; [left|right]; apply in_or_app; now right.
Qed.

Lemma crosslist_pair_constraints_In (same_room : bool) (opts : dict (list AssignOption))
    (a b : string) (ia ib : nat) (oa ob : AssignOption) :
  In (ia, oa) (enumerate (dict_get_default a [] opts)) ->
  In (ib, ob) (enumerate (dict_get_default b [] opts)) ->
  opt_slots oa <> opt_slots ob \/ (same_room = true /\ opt_room oa <> opt_room ob) ->
  In (SumLe1 [OptVar a ia; OptVar b ib]) (crosslist_pair_constraints same_room opts (a, b)).
Proof.
  intros Ha Hb Hd. unfold crosslist_pair_constraints. simpl.
  apply in_flat_map. exists (ia, oa). split; [assumption|].
  apply in_flat_map. exists (ib, ob). split; [assumption|]. simpl.
  destruct (tuple_eqb (opt_slots oa) (opt_slots ob)) eqn:Et; simpl; [|auto].
  apply tuple_eqb_spec in Et. destruct Hd as [Hd|[-> Hd]]; [contradiction|].
  simpl. destruct (String.eqb_spec (opt_room oa) (opt_room ob)); [contradiction|].
  simpl. auto.
Qed.

(** Cross-list groups: in a solution, the selected options of two members
    of a cross-list group have the same timeslot tuple, and the same room
    when the group requires it. *)
Theorem crosslist_members_meet_together (inp : SchedulingInput) (m : CpModel)
    (v : valuation) (grp : CrossListGroup)
    (a b : string) (ia ib : nat) (oa ob : AssignOption) :
  build_model inp (fst (_build_options no_flags inp)) = Some m ->
  model_sat v m = true ->
  In grp (crosslist_groups inp) ->
  In a (xl_member_section_ids grp) -> In b (xl_member_section_ids grp) ->
  In (a, ia, oa) (option_items (fst (_build_options no_flags inp))) ->
  In (b, ib, ob) (option_items (fst (_build_options no_flags inp))) ->
  v (OptVar a ia) = 1 -> v (OptVar b ib) = 1 ->
  opt_slots oa = opt_slots ob
  /\ (require_same_room grp = true -> opt_room oa = opt_room ob).
Proof.
  intros Hm Hsat Hgrp Ma Mb Hita Hitb Va Vb.
  destruct (string_dec a b) as [<-|Hne].
  { destruct (@selected_same_section inp m v a ia ib oa ob Hm Hsat Hita Hitb Va Vb)
      as [_ <-]. auto. }
  destruct (@model_sat_hard inp _ m v Hm Hsat) as [H01 Hhard].
  set (opts := fst (_build_options no_flags inp)) in *.
  assert (Henum : forall sid i o, In (sid, i, o) (option_items opts) ->
                    In (i, o) (enumerate (dict_get_default sid [] opts))).
  { intros sid i o Hit. apply built_item_lookup in Hit as (os & Hos & Hn).
    unfold dict_get_default. fold opts in Hos. rewrite Hos. now apply enumerate_In. }
  assert (Hforbid : forall x y ix iy ox oy,
            In (x, y) (member_pairs (xl_member_section_ids grp)) ->
            In (x, ix, ox) (option_items opts) -> In (y, iy, oy) (option_items opts) ->
            v (OptVar x ix) = 1 -> v (OptVar y iy) = 1 ->
            opt_slots ox <> opt_slots oy
            \/ (require_same_room grp = true /\ opt_room ox <> opt_room oy) -> False).
  { intros x y ix iy ox oy Hp Hx Hy Vx Vy Hd.
    assert (Hc : holds v (SumLe1 [OptVar x ix; OptVar y iy]) = true).
    { apply Hhard. unfold hard_constraints.
      do 4 (apply in_or_app; right).
      unfold crosslist_constraints. apply in_flat_map. exists grp.
      split; [assumption|]. apply in_flat_map. exists (x, y). split; [assumption|].
      exact (@crosslist_pair_constraints_In (require_same_room grp) opts x y ix iy ox oy
               (Henum _ _ _ Hx) (Henum _ _ _ Hy) Hd). }
    simpl in Hc. rewrite Vx, Vy in Hc. discriminate. }
  assert (Hdec : forall l1 l2 : list string, {l1 = l2} + {l1 <> l2})
    by (apply list_eq_dec, string_dec).
  destruct (@member_pairs_complete (xl_member_section_ids grp) a b Ma Mb Hne) as [Hp|Hp].
  - split.
    + destruct (Hdec (opt_slots oa) (opt_slots ob)) as [E|E]; [exact E|].
      exfalso. exact (Hforbid a b ia ib oa ob Hp Hita Hitb Va Vb (or_introl E)).
    + intros Hsame. destruct (string_dec (opt_room oa) (opt_room ob)) as [E|E]; [exact E|].
      exfalso. exact (Hforbid a b ia ib oa ob Hp Hita Hitb Va Vb (or_intror (conj Hsame E))).
  - split.
    + destruct (Hdec (opt_slots oa) (opt_slots ob)) as [E|E]; [exact E|].
      exfalso. apply (Hforbid b a ib ia ob oa Hp Hitb Hita Vb Va). left. congruence.
    + intros Hsame. destruct (string_dec (opt_room oa) (opt_room ob)) as [E|E]; [exact E|].
      exfalso. apply (Hforbid b a ib ia ob oa Hp Hitb Hita Vb Va). right.
      split; [assumption|congruence].
Qed.

(** ** Result assembler *)

Lemma entries_ready (inp : SchedulingInput) (opts : dict (list AssignOption))
    (m : CpModel) (v : valuation) :
  build_model inp opts = Some m -> model_sat v m = true ->
  forall so, In so opts -> entry_ready inp v so.
Proof.
  intros Hm Hsat [sid os] Hso.
  destruct (@model_sat_hard inp opts m v Hm Hsat) as [H01 Hhard].
  destruct (build_model_parts _ _ Hm) as (terms & links & Ht & _).
  assert (Hitem : forall io, In io (enumerate os) ->
                             In (sid, fst io, snd io) (option_items opts)).
  { intros [idx o] Hio. apply option_items_In. exists os.
    split; [assumption|now apply enumerate_In]. }
  unfold entry_ready. simpl. split; [|split].
  - intros io Hio. exact (H01 _ (Hitem io Hio)).
  - assert (Hh : holds v (SumEq1 (map (fun io : nat * AssignOption => OptVar sid (fst io))
                                      (enumerate os))) = true).
    { apply Hhard. unfold hard_constraints. apply in_or_app. left.
      unfold one_per_section. apply in_map_iff. exists (sid, os). auto. }
    simpl in Hh. lia.
  - intros io Hio. destruct (traverse_In _ _ Ht _ (Hitem io Hio)) as (y & Hy & _).
    congruence.
Qed.

Lemma assemble_step_pick (inp : SchedulingInput) (v : valuation)
    (asgs : list ScheduleAssignment) (expl : list string) (b : PenaltyBreakdown)
    (so : string * list AssignOption) :
  entry_ready inp v so ->
  exists p b',
    picked v so p
    /\ assemble_step inp v (Some (asgs, expl, b)) so
       = Some ((asgs ++ [assignment_of p])%list,
               (expl ++ [explanation (fst (fst p)) (snd p)])%list, b').
Proof.
  intros (H01 & Hsum & Hterm). destruct so as [sid os]. simpl in *.
  destruct (one_hot_enumerate v sid (fun _ _ => 0) os 0 H01 Hsum)
    as (idx & o & Hin & Hfind & _).
  pose proof (proj1 (enumerate_In os idx o) Hin) as Hn.
  specialize (Hterm (idx, o) Hin). simpl in Hterm. unfold option_term in Hterm.
  simpl in Hterm.
  destruct (item_instructor inp sid) as [instr|] eqn:Ei; [|now elim Hterm].
  destruct (option_days inp o) as [days|] eqn:Ed; [|now elim Hterm].
  exists (sid, idx, o). eexists. split.
  - unfold picked. simpl. split; [reflexivity|]. split; [exact Hn|].
    apply find_some in Hfind as [_ E]. now apply Z.eqb_eq in E.
  - unfold assemble_step, chosen_idx. cbn [fst snd].
    rewrite Hfind, Hn, ?Ei, ?Ed. reflexivity.
Qed.

Lemma assemble_fold_picks (inp : SchedulingInput) (v : valuation)
    (l : dict (list AssignOption))
    (asgs : list ScheduleAssignment) (expl : list string) (b : PenaltyBreakdown) :
  (forall so, In so l -> entry_ready inp v so) ->
  exists picks b',
    Forall2 (picked v) l picks
    /\ fold_left (assemble_step inp v) l (Some (asgs, expl, b))
       = Some ((asgs ++ map assignment_of picks)%list,
               (expl ++ map (fun p => explanation (fst (fst p)) (snd p)) picks)%list, b').
Proof.
  revert asgs expl b. induction l as [|so r IH]; intros asgs expl b Hready.
  - exists [], b. split; [constructor|]. simpl. now rewrite !app_nil_r.
  - destruct (@assemble_step_pick inp v asgs expl b so (Hready so (or_introl eq_refl)))
      as (p & b1 & Hp & Hstep).
    destruct (IH (asgs ++ [assignment_of p])%list
                 (expl ++ [explanation (fst (fst p)) (snd p)])%list b1
                 (fun so' H => Hready so' (or_intror H)))
      as (picks & b2 & Hf & Hfold).
    exists (p :: picks), b2. split; [now constructor|].
    cbn [fold_left]. rewrite Hstep, Hfold. simpl. now rewrite <- !app_assoc.
Qed.

Lemma Forall2_picked_keys (v : valuation) (l : dict (list AssignOption))
    (picks : list (string * nat * AssignOption)) :
  Forall2 (picked v) l picks ->
  map asg_section_id (map assignment_of picks) = dict_keys l.
Proof.
  induction 1 as [|so p l' picks' Hp _ IH]; simpl; [reflexivity|].
  destruct Hp as (E & _). now rewrite E, IH.
Qed.

(** For every solution of the optimization model the assembler succeeds
    and emits exactly one assignment per entry of the option map, in the
    order of the map: the section id with the pattern, timeslots and room
    of the one selected option of that section, and one explanation per
    assignment in the same order. *)
Theorem assemble_one_assignment_per_section (inp : SchedulingInput) (m : CpModel)
    (v : valuation) :
  build_model inp (fst (_build_options no_flags inp)) = Some m ->
  model_sat v m = true ->
  exists sol picks,
    assemble inp (fst (_build_options no_flags inp)) v = Some sol
    /\ Forall2 (picked v) (fst (_build_options no_flags inp)) picks
    /\ assignments sol = map assignment_of picks
    /\ explanations sol = map (fun p => explanation (fst (fst p)) (snd p)) picks
    /\ map asg_section_id (assignments sol)
       = first_occurrences (map sec_id (sections inp)).
Proof.
  intros Hm Hsat.
  destruct (@assemble_fold_picks inp v (fst (_build_options no_flags inp)) [] []
              zero_breakdown (@entries_ready inp _ m v Hm Hsat))
    as (picks & b & Hf & Hfold).
  unfold assemble. rewrite Hfold. eexists. exists picks.
  split; [reflexivity|]. split; [exact Hf|]. simpl.
  split; [reflexivity|]. split; [reflexivity|].
  rewrite (Forall2_picked_keys Hf).
  unfold _build_options. rewrite build_options_fold_fst.
  now rewrite (first_occurrences_fold sec_id (section_options no_flags inp)).
Qed.

(** ** Removing a section *)

Lemma filter_comm {A} (p q : A -> bool) (l : list A) :
  filter p (filter q l) = filter q (filter p l).
Proof.
  induction l as [|x r IH]; simpl; [reflexivity|].
  destruct (p x) eqn:Ep, (q x) eqn:Eq; simpl; rewrite ?Ep, ?Eq, IH; reflexivity.
Qed.

Lemma filter_idem {A} (p : A -> bool) (l : list A) :
  filter p (filter p l) = filter p l.
Proof.
  induction l as [|x r IH]; simpl; [reflexivity|].
  destruct (p x) eqn:Ep; simpl; rewrite ?Ep, IH; reflexivity.
Qed.

Lemma filter_all {A} (p : A -> bool) (l : list A) :
  (forall x, In x l -> p x = true) -> filter p l = l.
Proof.
  induction l as [|x r IH]; simpl; intros H; [reflexivity|].
  rewrite (H x (or_introl eq_refl)), IH; auto.
Qed.

Lemma flat_map_flat_map {A B C} (f : B -> list C) (g : A -> list B) (l : list A) :
  flat_map f (flat_map g l) = flat_map (fun x => flat_map f (g x)) l.
Proof.
  induction l as [|x r IH]; simpl; [reflexivity|]. now rewrite flat_map_app, IH.
Qed.

(** X6.  What [_strip_section] returns: the section and every reference to it
    are gone, the groups that are kept have at least two members and are
    groups of the input with the section filtered out, and the rest of the
    input is unchanged. *)
Theorem strip_section_removes (inp : SchedulingInput) (sid : string) :
  sections (_strip_section inp sid)
    = filter (fun s => negb (String.eqb (sec_id s) sid)) (sections inp)
  /\ (forall s, In s (sections (_strip_section inp sid)) -> sec_id s <> sid)
  /\ (forall g, In g (crosslist_groups (_strip_section inp sid)) <->
        (2 <= List.length (xl_member_section_ids g))%nat
        /\ exists g0, In g0 (crosslist_groups inp)
                      /\ xl_id g = xl_id g0
                      /\ require_same_room g = require_same_room g0
                      /\ xl_member_section_ids g
                         = filter (fun x => negb (String.eqb x sid))
                                  (xl_member_section_ids g0))
  /\ (forall g, In g (no_overlap_groups (_strip_section inp sid)) <->
        (2 <= List.length (nol_member_section_ids g))%nat
        /\ exists g0, In g0 (no_overlap_groups inp)
                      /\ nol_id g = nol_id g0 /\ nol_reason g = nol_reason g0
                      /\ nol_member_section_ids g
                         = filter (fun x => negb (String.eqb x sid))
                                  (nol_member_section_ids g0))
  /\ (forall g, In g (crosslist_groups (_strip_section inp sid)) ->
                ~ In sid (xl_member_section_ids g))
  /\ (forall g, In g (no_overlap_groups (_strip_section inp sid)) ->
                ~ In sid (nol_member_section_ids g))
  /\ (forall l, In l (locked_assignments (_strip_section inp sid)) <->
                In l (locked_assignments inp) /\ lock_section_id l <> sid)
  /\ (forall l, In l (soft_locks (_strip_section inp sid)) <->
                In l (soft_locks inp) /\ soft_section_id l <> sid)
  /\ instructors (_strip_section inp sid) = instructors inp
  /\ rooms (_strip_section inp sid) = rooms inp
  /\ timeslots (_strip_section inp sid) = timeslots inp
  /\ meeting_patterns (_strip_section inp sid) = meeting_patterns inp
  /\ blocked_times (_strip_section inp sid) = blocked_times inp.
Proof.
  assert (Hne : forall x, negb (String.eqb x sid) = true <-> x <> sid).
  { intros x. rewrite negb_true_iff. destruct (String.eqb_spec x sid); split; congruence. }
  assert (Hnin : forall l, ~ In sid (filter (fun x => negb (String.eqb x sid)) l)).
  { intros l Hin. apply filter_In in Hin as [_ H]. apply Hne in H. now elim H. }
  assert (Hxl : forall g, In g (crosslist_groups (_strip_section inp sid)) <->
        (2 <= List.length (xl_member_section_ids g))%nat
        /\ exists g0, In g0 (crosslist_groups inp)
                      /\ xl_id g = xl_id g0
                      /\ require_same_room g = require_same_room g0
                      /\ xl_member_section_ids g
                         = filter (fun x => negb (String.eqb x sid))
                                  (xl_member_section_ids g0)).
  { intros g. unfold _strip_section. cbn [crosslist_groups no_overlap_groups].
    rewrite in_flat_map. split.
    - intros (g0 & Hg0 & H).
      cbv zeta in H.
      match type of H with In _ (if ?c then _ else _) => destruct c eqn:E end;
        [|contradiction].
      destruct H as [<-|[]]. cbn [xl_member_section_ids xl_id require_same_room
        nol_member_section_ids nol_id nol_reason].
      apply Nat.leb_le in E. split; [exact E|].
      exists g0. auto.
    - intros (Hlen & g0 & Hg0 & Hid & Hsame & Hm). exists g0. split; [assumption|].
      cbv zeta. rewrite <- Hm. apply Nat.leb_le in Hlen. rewrite Hlen. left.
      destruct g. simpl in *. now subst. }
  assert (Hnol : forall g, In g (no_overlap_groups (_strip_section inp sid)) <->
        (2 <= List.length (nol_member_section_ids g))%nat
        /\ exists g0, In g0 (no_overlap_groups inp)
                      /\ nol_id g = nol_id g0 /\ nol_reason g = nol_reason g0
                      /\ nol_member_section_ids g
                         = filter (fun x => negb (String.eqb x sid))
                                  (nol_member_section_ids g0)).
  { intros g. unfold _strip_section. cbn [crosslist_groups no_overlap_groups].
    rewrite in_flat_map. split.
    - intros (g0 & Hg0 & H).
      cbv zeta in H.
      match type of H with In _ (if ?c then _ else _) => destruct c eqn:E end;
        [|contradiction].
      destruct H as [<-|[]]. cbn [xl_member_section_ids xl_id require_same_room
        nol_member_section_ids nol_id nol_reason].
      apply Nat.leb_le in E. split; [exact E|].
      exists g0. auto.
    - intros (Hlen & g0 & Hg0 & Hid & Hr & Hm). exists g0. split; [assumption|].
      cbv zeta. rewrite <- Hm. apply Nat.leb_le in Hlen. rewrite Hlen. left.
      destruct g. simpl in *. now subst. }
  split; [reflexivity|]. split.
  { intros s Hs. simpl in Hs. apply filter_In in Hs as [_ H]. now apply Hne. }
  split; [exact Hxl|]. split; [exact Hnol|]. split.
  { intros g Hg. apply Hxl in Hg as (_ & g0 & _ & _ & _ & ->). apply Hnin. }
  split.
  { intros g Hg. apply Hnol in Hg as (_ & g0 & _ & _ & _ & ->). apply Hnin. }
  split.
  { intros l. simpl. now rewrite filter_In, Hne. }
  split.
  { intros l. simpl. now rewrite filter_In, Hne. }
  repeat split.
Qed.

Lemma strip_groups_comm (a b : string) (l : list CrossListGroup) :
  flat_map
    (fun g =>
       let members := filter (fun x => negb (String.eqb x b)) (xl_member_section_ids g) in
       if (2 <=? List.length members)%nat
       then [mkCrossList (xl_id g) members (require_same_room g)] else [])
    (flat_map
       (fun g =>
          let members := filter (fun x => negb (String.eqb x a)) (xl_member_section_ids g) in
          if (2 <=? List.length members)%nat
          then [mkCrossList (xl_id g) members (require_same_room g)] else [])
       l)
  = flat_map
      (fun g =>
         let members :=
           filter (fun x => negb (String.eqb x b))
                  (filter (fun x => negb (String.eqb x a)) (xl_member_section_ids g)) in
         if (2 <=? List.length members)%nat
         then [mkCrossList (xl_id g) members (require_same_room g)] else [])
      l.
Proof.
  rewrite flat_map_flat_map. apply flat_map_ext. intros g. cbv zeta.
  destruct (2 <=? List.length (filter (fun x => negb (String.eqb x a))
                                      (xl_member_section_ids g)))%nat eqn:E;
    cbn [flat_map xl_member_section_ids xl_id require_same_room].
  - now rewrite app_nil_r.
  - destruct (2 <=? List.length
                      (filter (fun x => negb (String.eqb x b))
                              (filter (fun x => negb (String.eqb x a))
                                      (xl_member_section_ids g))))%nat eqn:E2;
      [|reflexivity].
    apply Nat.leb_le in E2. apply Nat.leb_gt in E.
    pose proof (filter_length_le (fun x => negb (String.eqb x b))
                  (filter (fun x => negb (String.eqb x a)) (xl_member_section_ids g))).
    lia.
Qed.

Lemma strip_no_overlap_comm (a b : string) (l : list NoOverlapGroup) :
  flat_map
    (fun g =>
       let members := filter (fun x => negb (String.eqb x b)) (nol_member_section_ids g) in
       if (2 <=? List.length members)%nat
       then [mkNoOverlap (nol_id g) members (nol_reason g)] else [])
    (flat_map
       (fun g =>
          let members := filter (fun x => negb (String.eqb x a)) (nol_member_section_ids g) in
          if (2 <=? List.length members)%nat
          then [mkNoOverlap (nol_id g) members (nol_reason g)] else [])
       l)
  = flat_map
      (fun g =>
         let members :=
           filter (fun x => negb (String.eqb x b))
                  (filter (fun x => negb (String.eqb x a)) (nol_member_section_ids g)) in
         if (2 <=? List.length members)%nat
         then [mkNoOverlap (nol_id g) members (nol_reason g)] else [])
      l.
Proof.
  rewrite flat_map_flat_map. apply flat_map_ext. intros g. cbv zeta.
  destruct (2 <=? List.length (filter (fun x => negb (String.eqb x a))
                                      (nol_member_section_ids g)))%nat eqn:E;
    cbn [flat_map nol_member_section_ids nol_id nol_reason].
  - now rewrite app_nil_r.
  - destruct (2 <=? List.length
                      (filter (fun x => negb (String.eqb x b))
                              (filter (fun x => negb (String.eqb x a))
                                      (nol_member_section_ids g))))%nat eqn:E2;
      [|reflexivity].
    apply Nat.leb_le in E2. apply Nat.leb_gt in E.
    pose proof (filter_length_le (fun x => negb (String.eqb x b))
                  (filter (fun x => negb (String.eqb x a)) (nol_member_section_ids g))).
    lia.
Qed.

(** X7.  Removing sections composes: removing the same section twice is
    removing it once, and two removals give the same input in either
    order. *)
Theorem strip_section_idempotent_commutes (inp : SchedulingInput) (a b : string) :
  _strip_section (_strip_section inp a) a = _strip_section inp a
  /\ _strip_section (_strip_section inp a) b = _strip_section (_strip_section inp b) a.
Proof.
  split.
  - unfold _strip_section. cbv zeta. cbn [sections instructors rooms timeslots
      meeting_patterns crosslist_groups no_overlap_groups blocked_times
      locked_assignments soft_locks].
    rewrite strip_groups_comm, strip_no_overlap_comm.
    rewrite !(filter_idem (fun s : CourseSection => negb (String.eqb (sec_id s) a))).
    rewrite !(filter_idem (fun l : LockedAssignment => negb (String.eqb (lock_section_id l) a))).
    rewrite !(filter_idem (fun l : SoftLock => negb (String.eqb (soft_section_id l) a))).
    f_equal; apply flat_map_ext; intros g; cbv zeta;
      now rewrite (filter_idem (fun x : string => negb (String.eqb x a))).
  - unfold _strip_section. cbv zeta. cbn [sections instructors rooms timeslots
      meeting_patterns crosslist_groups no_overlap_groups blocked_times
      locked_assignments soft_locks].
    rewrite !strip_groups_comm, !strip_no_overlap_comm.
    rewrite (filter_comm (fun s : CourseSection => negb (String.eqb (sec_id s) b))).
    rewrite (filter_comm (fun l : LockedAssignment => negb (String.eqb (lock_section_id l) b))).
    rewrite (filter_comm (fun l : SoftLock => negb (String.eqb (soft_section_id l) b))).
    f_equal; apply flat_map_ext; intros g; cbv zeta;
      now rewrite (filter_comm (fun x : string => negb (String.eqb x b))).
Qed.

(** ** The feasibility check of the diagnoser *)

Lemma flags_le_no_flags (fl : Flags) : flags_le no_flags fl.
Proof. unfold flags_le, no_flags. simpl. repeat split; discriminate. Qed.

Lemma mem_cons (x k : string) (l : list string) :
  mem x (k :: l) = String.eqb x k || mem x l.
Proof. reflexivity. Qed.

(** X10.  The early exits of [_check_feasible] are never taken on an input that
    passed the pre-validator and the option generator, which is the only
    case in which [_solve_schedule] calls the diagnoser: for every
    relaxation set a model is built over options that include those of the
    solve, and the answer is the solver's on that model. *)
Theorem check_feasible_reaches_solver
    (solve : Z -> CpModel -> option valuation)
    (inp : SchedulingInput) (relax : list string) :
  _validate_crosslist_capacity (crosslist_groups inp) (sections inp) (rooms inp) = [] ->
  snd (_build_options no_flags inp) = [] ->
  exists m,
    check_feasible_model inp relax = Some m
    /\ cp_vars m
       = map (fun it => bool_var (item_var it))
             (option_items (fst (_build_options (relax_flags relax) inp)))
    /\ (forall s o, In o (section_options no_flags inp s) ->
                    In o (section_options (relax_flags relax) inp s))
    /\ _check_feasible solve inp relax
       = match solve 20 m with Some _ => true | None => false end.
Proof.
  intros Hval Hopt.
  pose proof (@build_options_no_errors_mono no_flags (relax_flags relax) inp
                (flags_le_no_flags _) Hopt) as Hrel.
  unfold _check_feasible, check_feasible_model. rewrite Hval, Hrel.
  destruct (mem "crosslist_capacity" relax); cbn [is_nil negb];
    (eexists; split; [reflexivity|]; split; [reflexivity|]; split; [|reflexivity];
     intros s o; exact (@section_options_mono no_flags (relax_flags relax) inp s o
                          (flags_le_no_flags _))).
Qed.

(** X11.  Relaxing one of the four constraint families on top of any relaxation
    set keeps the options and the variables and only removes constraints,
    so every solution of the stricter model is a solution of the relaxed
    one. *)
Theorem relaxing_constraint_family_weakens (inp : SchedulingInput)
    (relax : list string) (k : string) (m : CpModel) :
  In k ["room_conflicts"; "instructor_conflicts"; "no_overlap_groups";
        "crosslist_time_room"] ->
  check_feasible_model inp relax = Some m ->
  exists m',
    check_feasible_model inp (k :: relax) = Some m'
    /\ cp_vars m' = cp_vars m
    /\ (forall c, In c (cp_constraints m') -> In c (cp_constraints m))
    /\ (forall v, model_sat v m = true -> model_sat v m' = true).
Proof.
  intros Hk Hm.
  assert (Hflags : relax_flags (k :: relax) = relax_flags relax).
  { unfold relax_flags. rewrite !mem_cons.
    destruct Hk as [<-|[<-|[<-|[<-|[]]]]]; reflexivity. }
  assert (Hxl : mem "crosslist_capacity" (k :: relax) = mem "crosslist_capacity" relax).
  { rewrite mem_cons. destruct Hk as [<-|[<-|[<-|[<-|[]]]]]; reflexivity. }
  unfold check_feasible_model in *. rewrite Hflags, Hxl.
  destruct (negb (is_nil (if mem "crosslist_capacity" relax then [] else _)));
    [discriminate|].
  destruct (negb (is_nil (snd (_build_options (relax_flags relax) inp))));
    [discriminate|].
  injection Hm as <-. eexists. split; [reflexivity|]. cbn [cp_vars cp_constraints].
  split; [reflexivity|].
  assert (Hsub : forall c,
            In c (one_per_section (fst (_build_options (relax_flags relax) inp))
                  ++ (if mem "room_conflicts" (k :: relax) then []
                      else room_conflict_constraints inp
                             (option_items (fst (_build_options (relax_flags relax) inp))))
                  ++ (if mem "instructor_conflicts" (k :: relax) then []
                      else instructor_constraints inp
                             (option_items (fst (_build_options (relax_flags relax) inp))))
                  ++ (if mem "no_overlap_groups" (k :: relax) then []
                      else no_overlap_constraints inp
                             (fst (_build_options (relax_flags relax) inp)))
                  ++ (if mem "crosslist_time_room" (k :: relax) then []
                      else crosslist_constraints inp
                             (fst (_build_options (relax_flags relax) inp))))%list ->
            In c (one_per_section (fst (_build_options (relax_flags relax) inp))
                  ++ (if mem "room_conflicts" relax then []
                      else room_conflict_constraints inp
                             (option_items (fst (_build_options (relax_flags relax) inp))))
                  ++ (if mem "instructor_conflicts" relax then []
                      else instructor_constraints inp
                             (option_items (fst (_build_options (relax_flags relax) inp))))
                  ++ (if mem "no_overlap_groups" relax then []
                      else no_overlap_constraints inp
                             (fst (_build_options (relax_flags relax) inp)))
                  ++ (if mem "crosslist_time_room" relax then []
                      else crosslist_constraints inp
                             (fst (_build_options (relax_flags relax) inp))))%list).
  { intros c. rewrite !mem_cons, !in_app_iff.
    assert (Hif : forall (b b' : bool) (l : list constr),
              In c (if b || b' then [] else l) -> In c (if b' then [] else l)).
    { intros b b' l. destruct b, b'; simpl; tauto. }
    intros [H|[H|[H|[H|H]]]]; [tauto| | | |]; apply Hif in H; tauto. }
  split; [exact Hsub|].
  intros v Hsat. apply model_sat_spec in Hsat as [Hd Hc]. apply model_sat_spec.
  cbn [cp_vars cp_constraints] in *. split; [exact Hd|].
  intros c Hin. apply Hc, Hsub, Hin.
Qed.

(** ** When the solve raises *)

Lemma traverse_none {A B} (f : A -> option B) (l : list A) :
  traverse f l = None <-> exists x, In x l /\ f x = None.
Proof.
  induction l as [|a r IH]; simpl.
  - split; [discriminate|]. intros (x & [] & _).
  - destruct (f a) as [b|] eqn:Ea.
    + destruct (traverse f r) as [bs|].
      * split; [discriminate|]. intros (x & [<-|Hx] & Hf); [congruence|].
        assert (H : @None (list B) = None) by reflexivity.
        destruct IH as [_ IH]. discriminate IH. exists x. auto.
      * split; [|reflexivity]. intros _.
        destruct IH as [IH _]. destruct (IH eq_refl) as (x & Hx & Hf).
        exists x. auto.
    + split; [|reflexivity]. intros _. exists a. auto.
Qed.

Lemma timeslot_days_none (ts : list Timeslot) (slot : string) :
  dict_get slot (_timeslot_days ts) = None <-> ~ In slot (map slot_id ts).
Proof.
  unfold _timeslot_days. rewrite (dict_fold_get slot_id day). simpl.
  destruct (find_last _ ts) as [t|] eqn:E.
  - apply find_last_some in E as [Hin He]. apply String.eqb_eq in He.
    split; [discriminate|]. intros H. elim H. rewrite He. now apply in_map.
  - split; [|reflexivity]. intros _ Hin. apply in_map_iff in Hin as (t & <- & Hin).
    pose proof (find_last_none _ _ E t Hin) as H. simpl in H.
    now rewrite String.eqb_refl in H.
Qed.

Lemma lookup_days_none (td : dict string) (slots : list string) :
  lookup_days td slots = None <-> exists s, In s slots /\ dict_get s td = None.
Proof.
  induction slots as [|s r IH]; simpl.
  - split; [discriminate|]. intros (x & [] & _).
  - destruct (dict_get s td) as [d|] eqn:E.
    + destruct (lookup_days td r) as [ds|].
      * split; [discriminate|]. intros (x & [<-|Hx] & Hf); [congruence|].
        destruct IH as [_ IH]. discriminate IH. exists x. auto.
      * split; [|reflexivity]. intros _.
        destruct IH as [IH _]. destruct (IH eq_refl) as (x & Hx & Hf).
        exists x. auto.
    + split; [|reflexivity]. intros _. exists s. auto.
Qed.

Lemma option_days_none (inp : SchedulingInput) (o : AssignOption) :
  option_days inp o = None <->
  exists slot, In slot (opt_slots o) /\ ~ In slot (map slot_id (timeslots inp)).
Proof.
  unfold option_days.
  destruct (lookup_days _ (opt_slots o)) as [ds|] eqn:E; simpl.
  - split; [discriminate|]. intros (slot & Hs & Hn).
    destruct (lookup_days_In _ _ E) as [H _]. destruct (H slot Hs) as (d & Hd & _).
    apply timeslot_days_none in Hn. congruence.
  - split; [|reflexivity]. intros _. apply lookup_days_none in E as (slot & Hs & Hn).
    exists slot. split; [assumption|]. now apply timeslot_days_none.
Qed.

(** The section lookups of the objective builder and of the assembler never
    fail: the keys of the option map are section ids. *)
Lemma built_item_section (fl : Flags) (inp : SchedulingInput)
    (it : string * nat * AssignOption) :
  In it (option_items (fst (_build_options fl inp))) ->
  exists instructor, item_instructor inp (fst (fst it)) = Some instructor.
Proof.
  destruct it as [[sid idx] o]. intros H.
  apply option_items_In in H as (os & Hos & _).
  apply build_options_entries in Hos as (s & Hs & <- & _).
  unfold item_instructor, sections_by_id. cbn [fst]. rewrite dict_of_get.
  destruct (find_last_in (fun x => String.eqb (sec_id s) (sec_id x)) _ _ Hs
              (String.eqb_refl _)) as [s' ->].
  eauto.
Qed.

(** An option with a timeslot id that no timeslot carries stops the
    construction of the model. *)
Lemma build_model_unknown_slot (inp : SchedulingInput)
    (sid : string) (idx : nat) (o : AssignOption) (slot : string) :
  In (sid, idx, o) (option_items (fst (_build_options no_flags inp))) ->
  In slot (opt_slots o) -> ~ In slot (map slot_id (timeslots inp)) ->
  build_model inp (fst (_build_options no_flags inp)) = None.
Proof.
  intros Hit Hs Hns.
  destruct (built_item_section _ _ _ Hit) as [instructor Hi].
  assert (Hn : option_term inp (sid, idx, o) = None).
  { unfold option_term. rewrite Hi.
    assert (Hd : option_days inp (snd (sid, idx, o)) = None).
    { apply option_days_none. exists slot. auto. }
    now rewrite Hd. }
  assert (Et : traverse (option_term inp)
                 (option_items (fst (_build_options no_flags inp))) = None).
  { apply traverse_none. exists (sid, idx, o). auto. }
  unfold build_model. now rewrite Et.
Qed.

(** X12.  Timeslot ids are not validated: when the pre-validator and the
    option generator report no error and some generated option contains a
    timeslot id that no timeslot of the input carries, [_solve_schedule]
    returns no response but raises (at [timeslot_day[slot_id]] when the
    penalties of the options are computed), whatever the solver is. *)
Theorem solve_schedule_raises_on_unknown_timeslot
    (solve : Z -> CpModel -> option valuation) (inp : SchedulingInput)
    (sid : string) (idx : nat) (o : AssignOption) (slot : string) :
  _validate_crosslist_capacity (crosslist_groups inp) (sections inp) (rooms inp) = [] ->
  snd (_build_options no_flags inp) = [] ->
  In (sid, idx, o) (option_items (fst (_build_options no_flags inp))) ->
  In slot (opt_slots o) ->
  ~ In slot (map slot_id (timeslots inp)) ->
  _solve_schedule solve inp = None.
Proof.
  intros Hval Hopt Hit Hs Hns.
  unfold _solve_schedule. cbv zeta. rewrite Hval, Hopt. cbn [app is_nil negb].
  now rewrite (@build_model_unknown_slot inp sid idx o slot Hit Hs Hns).
Qed.

(** ** Sign of the objective *)

Lemma terms_value_nonneg (v : valuation) (l : list (Z * var)) :
  (forall c x, In (c, x) l -> 0 <= c /\ 0 <= v x) -> 0 <= terms_value v l.
Proof.
  induction l as [|[c x] r IH]; intros H; simpl; [lia|].
  destruct (H c x (or_introl eq_refl)) as [Hc Hx].
  assert (0 <= terms_value v r) by (apply IH; intros c' x' Hin; apply H; now right).
  unfold terms_value in *. nia.
Qed.

(** With no filter relaxed, a generated option never wastes a negative
    number of seats. *)
Lemma built_item_waste (inp : SchedulingInput) (it : string * nat * AssignOption) :
  In it (option_items (fst (_build_options no_flags inp))) -> 0 <= opt_waste (snd it).
Proof.
  destruct it as [[sid idx] o]. intros H.
  apply option_items_In in H as (os & Hos & Hn).
  apply build_options_entries in Hos as (s & _ & _ & ->).
  apply nth_error_In in Hn.
  apply section_options_In in Hn as (pattern & room & _ & _ & _ & _ & _ & Hr & _ & _ & Hw).
  apply available_rooms_In_flags in Hr as (_ & Hcap & _).
  specialize (Hcap eq_refl). cbn [snd]. lia.
Qed.

Lemma total_penalty_nonneg (instructor : option Instructor) (days : list string)
    (o : AssignOption) :
  0 <= opt_waste o -> 0 <= total_penalty instructor days o.
Proof.
  intros Hw. unfold total_penalty, pref_day_penalty, pref_pattern_penalty,
    ROOM_WASTE_WEIGHT, PREF_DAY_WEIGHT, PREF_PATTERN_WEIGHT.
  destruct (existsb _ days); destruct (mem (opt_pattern o) _); lia.
Qed.

(** X13.  Every coefficient of the minimized objective is non-negative and every
    variable it multiplies is non-negative in a solution, so the objective
    value of a solution is never negative. *)
Theorem objective_never_negative (inp : SchedulingInput) (m : CpModel) (v : valuation) :
  build_model inp (fst (_build_options no_flags inp)) = Some m ->
  model_sat v m = true ->
  (forall c x, In (c, x) (cp_objective m) -> 0 <= c /\ 0 <= v x)
  /\ 0 <= objective_value v m.
Proof.
  intros Hm Hsat.
  destruct (@model_sat_hard inp _ m v Hm Hsat) as [H01 _].
  destruct (build_model_parts _ _ Hm) as (terms & links & Ht & _ & _ & Hc & Ho).
  apply model_sat_spec in Hsat as [_ Hcon].
  assert (Hitem : forall it,
            In it (option_items (fst (_build_options no_flags inp))) ->
            0 <= v (item_var it)).
  { intros it Hit. destruct (H01 it Hit); lia. }
  assert (Hterms : forall c x, In (c, x) (cp_objective m) -> 0 <= c /\ 0 <= v x).
  { intros c x Hin. rewrite Ho in Hin.
    apply in_app_or in Hin as [Hin|Hin]; [|apply in_app_or in Hin as [Hin|Hin]].
    - apply adjunct_terms_In in Hin as (ii & i & M & -> & -> & Hn & Hadj).
      split; [unfold ADJUNCT_DAY_EXCESS_WEIGHT; lia|].
      destruct (@adjunct_constraints_In inp ii i M Hn Hadj) as [_ Hnn].
      assert (Hh : holds v (NonNeg (Excess ii)) = true).
      { apply Hcon. rewrite Hc. apply in_or_app. right. apply in_or_app. now left. }
      simpl in Hh. lia.
    - destruct (traverse_image _ _ Ht _ Hin) as (it & Hit & Hy).
      unfold option_term in Hy.
      destruct (item_instructor inp (fst (fst it))) as [instructor|]; [|discriminate].
      destruct (option_days inp (snd it)) as [days|]; [|discriminate].
      injection Hy as <- <-. split; [|now apply Hitem].
      apply total_penalty_nonneg. exact (@built_item_waste inp it Hit).
    - unfold soft_lock_terms in Hin. apply in_flat_map in Hin as (it & Hit & Hin).
      unfold soft_lock_term in Hin.
      destruct (dict_get (fst (fst it)) (soft_lock_by_section inp)) as [sl|];
        [|contradiction].
      cbv zeta in Hin. destruct (Qpositive (soft_penalty sl (snd it))) eqn:Ep;
        [|contradiction].
      destruct Hin as [[= <- <-]|[]]. split; [|now apply Hitem].
      apply Qpositive_spec in Ep. apply int_of_trunc. now apply Qlt_le_weak. }
  split; [exact Hterms|].
  unfold objective_value. fold (terms_value v (cp_objective m)).
  now apply terms_value_nonneg.
Qed.

(** ** What the adjunct day excess counts *)

Lemma sum_vars_app (v : valuation) (a b : list var) :
  sum_vars v (a ++ b) = sum_vars v a + sum_vars v b.
Proof.
  induction a as [|x r IH]; simpl; [reflexivity|]. unfold sum_vars in *. lia.
Qed.

Lemma sum_vars_map_nonneg {A} (v : valuation) (f : A -> var) (l : list A) :
  (forall d, In d l -> 0 <= v (f d)) -> 0 <= sum_vars v (map f l).
Proof.
  induction l as [|x r IH]; intros H; simpl; [lia|].
  assert (0 <= v (f x)) by (apply H; now left).
  assert (0 <= sum_vars v (map f r)) by (apply IH; intros d Hd; apply H; now right).
  unfold sum_vars in *. lia.
Qed.

(** A sum of non-negative indicators is at least the number of distinct
    indices whose indicator is at least one. *)
Lemma sum_vars_counts (v : valuation) (f : string -> var) (ds l : list string) :
  NoDup ds ->
  (forall d, In d ds -> In d l) ->
  (forall d, In d l -> 0 <= v (f d)) ->
  (forall d, In d ds -> 1 <= v (f d)) ->
  Z.of_nat (List.length ds) <= sum_vars v (map f l).
Proof.
  revert l. induction ds as [|d r IH]; intros l Hnd Hincl Hpos Hone.
  - simpl. now apply sum_vars_map_nonneg.
  - inversion Hnd as [|? ? Hnotin Hnd']; subst.
    destruct (in_split d l (Hincl d (or_introl eq_refl))) as (l1 & l2 & ->).
    assert (Hrest : Z.of_nat (List.length r) <= sum_vars v (map f (l1 ++ l2)%list)).
    { apply IH; [assumption| | |].
      - intros x Hx. specialize (Hincl x (or_intror Hx)).
        apply in_app_or in Hincl as [H|[H|H]]; apply in_or_app; auto.
        subst. contradiction.
      - intros x Hx. apply Hpos. apply in_app_or in Hx as [H|H]; apply in_or_app;
          [now left|right; now right].
      - intros x Hx. apply Hone. now right. }
    specialize (Hone d (or_introl eq_refl)).
    rewrite map_app, sum_vars_app in *. cbn [map]. cbn [List.length].
    change (sum_vars v (f d :: map f l2)) with (v (f d) + sum_vars v (map f l2)).
    lia.
Qed.

(** X14.  In a solution, the excess variable of an adjunct with day limit [M] is
    at least the number of distinct days on which a selected option of one
    of the adjunct's sections meets, minus [M], and never negative: the
    objective charges at least 15 for every teaching day beyond the
    limit. *)
Theorem adjunct_excess_counts_days (inp : SchedulingInput) (m : CpModel)
    (v : valuation) (ii : nat) (i : Instructor) (M : Z) (ds : list string) :
  build_model inp (fst (_build_options no_flags inp)) = Some m ->
  model_sat v m = true ->
  NoDup (map inst_id (instructors inp)) ->
  nth_error (instructors inp) ii = Some i ->
  rank_type i = "Adjunct" ->
  max_teaching_days (preferences i) = Some M -> M <> 0 ->
  NoDup ds ->
  (forall d, In d ds ->
     exists sid idx o s slot,
       In (sid, idx, o) (option_items (fst (_build_options no_flags inp)))
       /\ v (OptVar sid idx) = 1
       /\ dict_get sid (sections_by_id inp) = Some s
       /\ instructor_id s = inst_id i
       /\ In slot (opt_slots o)
       /\ dict_get slot (_timeslot_days (timeslots inp)) = Some d) ->
  Z.of_nat (List.length ds) - M <= v (Excess ii)
  /\ 0 <= v (Excess ii)
  /\ In (ADJUNCT_DAY_EXCESS_WEIGHT, Excess ii) (cp_objective m).
Proof.
  intros Hm Hsat Hnd Hn Hrank Hmax Hne Hds Hteach.
  assert (Hadj : adjunct_max_days i = Some M) by (apply adjunct_max_days_some; auto).
  destruct (build_model_parts _ _ Hm) as (terms & links & _ & _ & Hv & Hc & Ho).
  apply model_sat_spec in Hsat as [Hdom Hcon].
  destruct (@adjunct_vars_In inp ii i M Hn Hadj) as [_ Hvd].
  destruct (@adjunct_constraints_In inp ii i M Hn Hadj) as [Hce Hcn].
  assert (Hge : holds v (ExcessGe (Excess ii) (map (DayVar ii) (unique_days inp)) M)
                = true).
  { apply Hcon. rewrite Hc. apply in_or_app. right. apply in_or_app. now left. }
  assert (Hnn : holds v (NonNeg (Excess ii)) = true).
  { apply Hcon. rewrite Hc. apply in_or_app. right. apply in_or_app. now left. }
  assert (Hcount : Z.of_nat (List.length ds)
                   <= sum_vars v (map (DayVar ii) (unique_days inp))).
  { apply sum_vars_counts; [assumption| | |].
    - intros d Hd.
      destruct (Hteach d Hd) as (sid & idx & o & s & slot & Hit & _ & Hs & Hi & Hsl & Hday).
      exact (proj1 (@option_day_link_In inp _ m ii i M sid idx o s slot d
                      Hm Hnd Hn Hadj Hit Hs Hi Hsl Hday)).
    - intros d Hd.
      assert (Hin : in_domain v (bool_var (DayVar ii d)) = true).
      { apply Hdom. rewrite Hv. apply in_or_app. right. apply in_or_app. right.
        now apply Hvd. }
      unfold in_domain, bool_var in Hin. cbn [fst snd] in Hin.
      apply andb_true_iff in Hin as [Hlo _]. now apply Z.leb_le in Hlo.
    - intros d Hd.
      destruct (Hteach d Hd) as (sid & idx & o & s & slot & Hit & Hsel & Hs & Hi & Hsl & Hday).
      destruct (@option_day_link_In inp _ m ii i M sid idx o s slot d
                  Hm Hnd Hn Hadj Hit Hs Hi Hsl Hday) as [_ Hlink].
      assert (Hh : holds v (VarGe (DayVar ii d) (OptVar sid idx)) = true)
        by now apply Hcon.
      cbn [holds] in Hh. lia. }
  cbn [holds] in Hge, Hnn.
  split; [lia|]. split; [lia|].
  rewrite Ho. apply in_or_app. left. apply adjunct_terms_In. exists ii, i, M. auto.
Qed.

(** ** The schedule that is returned *)

Lemma solve_ok_inversion (solve : Z -> CpModel -> option valuation)
    (inp : SchedulingInput) (sol : ScheduleSolution) :
  _solve_schedule solve inp = Some (RespOk sol) ->
  exists m v,
    build_model inp (fst (_build_options no_flags inp)) = Some m
    /\ solve 50 m = Some v
    /\ assemble inp (fst (_build_options no_flags inp)) v = Some sol.
Proof.
  unfold _solve_schedule. cbv zeta.
  destruct (negb (is_nil _)); [discriminate|].
  destruct (build_model inp (fst (_build_options no_flags inp))) as [m|] eqn:Em;
    [|discriminate].
  destruct (solve 50 m) as [v|] eqn:Ev; [|discriminate].
  destruct (assemble inp (fst (_build_options no_flags inp)) v) as [sol'|] eqn:Ea;
    [|discriminate].
  simpl. intros [= <-]. exists m, v. auto.
Qed.

Lemma picked_items (v : valuation) (l : dict (list AssignOption))
    (picks : list (string * nat * AssignOption)) :
  Forall2 (picked v) l picks ->
  forall p, In p picks -> In p (option_items l) /\ v (item_var p) = 1.
Proof.
  induction 1 as [|so p0 l' picks' Hp _ IH]; intros p; [intros []|].
  intros [<-|Hin].
  - destruct Hp as (E & Hn & Hv). destruct so as [sid os], p0 as [[sid' idx] o].
    cbn [fst snd] in E, Hn, Hv. subst sid'. split; [|exact Hv].
    apply option_items_In. exists os. split; [now left|assumption].
  - destruct (IH p Hin) as [H1 H2]. split; [|assumption].
    unfold option_items. simpl. apply in_or_app. now right.
Qed.

Lemma NoDup_map_inj_In {A B} (f : A -> B) (l : list A) (x y : A) :
  NoDup (map f l) -> In x l -> In y l -> f x = f y -> x = y.
Proof.
  induction l as [|a r IH]; simpl; [contradiction|].
  intros Hnd Hx Hy E. inversion Hnd as [|? ? Hnotin Hnd']; subst.
  destruct Hx as [<-|Hx], Hy as [<-|Hy]; [reflexivity| | |now apply IH].
  - elim Hnotin. rewrite E. now apply in_map.
  - elim Hnotin. rewrite <- E. now apply in_map.
Qed.

(** Every assignment of a returned schedule is a selected option of the
    solution the solver reported. *)
Lemma returned_assignments (solve : Z -> CpModel -> option valuation)
    (inp : SchedulingInput) (sol : ScheduleSolution) :
  sound_on solve inp ->
  _solve_schedule solve inp = Some (RespOk sol) ->
  exists m v,
    build_model inp (fst (_build_options no_flags inp)) = Some m
    /\ model_sat v m = true
    /\ map asg_section_id (assignments sol)
       = dict_keys (fst (_build_options no_flags inp))
    /\ List.length (explanations sol) = List.length (assignments sol)
    /\ forall a, In a (assignments sol) ->
         exists p, In p (option_items (fst (_build_options no_flags inp)))
                   /\ v (item_var p) = 1 /\ a = assignment_of p.
Proof.
  intros Hsound Hok.
  destruct (solve_ok_inversion _ _ Hok) as (m & v & Hm & Hv & Hasm).
  pose proof (Hsound m v Hm Hv) as Hsat.
  destruct (@assemble_fold_picks inp v (fst (_build_options no_flags inp)) [] []
              zero_breakdown (@entries_ready inp _ m v Hm Hsat))
    as (picks & b & Hf & Hfold).
  unfold assemble in Hasm. rewrite Hfold in Hasm. injection Hasm as <-.
  exists m, v. cbn [assignments explanations app].
  split; [assumption|]. split; [assumption|].
  split; [exact (Forall2_picked_keys Hf)|].
  split; [now rewrite !length_map|].
  intros a Ha. apply in_map_iff in Ha as (p & <- & Hp).
  destruct (picked_items Hf p Hp) as [H1 H2]. exists p. auto.
Qed.

(** X4.  A returned schedule assigns every section exactly once, in the order
    in which the section ids first appear in the input, with one
    explanation per assignment; each assignment is one of the options the
    generator produced for a section with that id. *)
Theorem returned_schedule_covers_sections
    (solve : Z -> CpModel -> option valuation)
    (inp : SchedulingInput) (sol : ScheduleSolution) :
  sound_on solve inp ->
  _solve_schedule solve inp = Some (RespOk sol) ->
  map asg_section_id (assignments sol) = first_occurrences (map sec_id (sections inp))
  /\ NoDup (map asg_section_id (assignments sol))
  /\ List.length (explanations sol) = List.length (assignments sol)
  /\ forall a, In a (assignments sol) ->
       exists s o,
         In s (sections inp)
         /\ In o (section_options no_flags inp s)
         /\ a = mkAssignment (sec_id s) (opt_pattern o) (opt_slots o) (opt_room o).
Proof.
  intros Hsound Hok.
  destruct (returned_assignments Hsound Hok) as (m & v & Hm & Hsat & Hkeys & Hlen & Hasg).
  split.
  { rewrite Hkeys. unfold _build_options. rewrite build_options_fold_fst.
    now rewrite (first_occurrences_fold sec_id (section_options no_flags inp)). }
  split; [rewrite Hkeys; apply build_options_keys_NoDup|].
  split; [exact Hlen|].
  intros a Ha. destruct (Hasg a Ha) as ([[sid idx] o] & Hp & _ & ->).
  apply option_items_In in Hp as (os & Hos & Hn).
  apply build_options_entries in Hos as (s & Hs & <- & ->).
  exists s, o. split; [assumption|]. split; [now apply nth_error_In in Hn|reflexivity].
Qed.

(** X5.  A returned schedule respects the hard constraints: no instructor of
    the input teaches two assignments at a common timeslot, no two members
    of a no-overlap group meet at a common timeslot, the members of a
    cross-list group meet at the same timeslots (and in the same room when
    the group requires it), and two assignments in one room at a common
    timeslot have the same roomshare key; in particular two sections
    without a cross-list group id never share a room at a timeslot. *)
Theorem returned_schedule_is_conflict_free
    (solve : Z -> CpModel -> option valuation)
    (inp : SchedulingInput) (sol : ScheduleSolution) :
  sound_on solve inp ->
  _solve_schedule solve inp = Some (RespOk sol) ->
  (forall instr a1 a2 s1 s2,
      In instr (instructors inp) ->
      In a1 (assignments sol) -> In a2 (assignments sol) ->
      dict_get (asg_section_id a1) (sections_by_id inp) = Some s1 ->
      instructor_id s1 = inst_id instr ->
      dict_get (asg_section_id a2) (sections_by_id inp) = Some s2 ->
      instructor_id s2 = inst_id instr ->
      clash a1 a2 -> a1 = a2)
  /\ (forall grp a1 a2,
        In grp (no_overlap_groups inp) ->
        In a1 (assignments sol) -> In a2 (assignments sol) ->
        In (asg_section_id a1) (nol_member_section_ids grp) ->
        In (asg_section_id a2) (nol_member_section_ids grp) ->
        clash a1 a2 -> a1 = a2)
  /\ (forall grp a1 a2,
        In grp (crosslist_groups inp) ->
        In a1 (assignments sol) -> In a2 (assignments sol) ->
        In (asg_section_id a1) (xl_member_section_ids grp) ->
        In (asg_section_id a2) (xl_member_section_ids grp) ->
        asg_timeslot_ids a1 = asg_timeslot_ids a2
        /\ (require_same_room grp = true -> asg_room_id a1 = asg_room_id a2))
  /\ (forall a1 a2,
        In a1 (assignments sol) -> In a2 (assignments sol) ->
        asg_room_id a1 = asg_room_id a2 -> clash a1 a2 ->
        roomshare_of inp (asg_section_id a1) = roomshare_of inp (asg_section_id a2))
  /\ (forall a1 a2 s1 s2,
        In a1 (assignments sol) -> In a2 (assignments sol) ->
        dict_get (asg_section_id a1) (sections_by_id inp) = Some s1 ->
        crosslist_group_id s1 = None ->
        dict_get (asg_section_id a2) (sections_by_id inp) = Some s2 ->
        crosslist_group_id s2 = None ->
        asg_room_id a1 = asg_room_id a2 -> clash a1 a2 -> a1 = a2).
Proof.
  intros Hsound Hok.
  destruct (returned_assignments Hsound Hok) as (m & v & Hm & Hsat & Hkeys & _ & Hasg).
  assert (Hnd : NoDup (map asg_section_id (assignments sol)))
    by (rewrite Hkeys; apply build_options_keys_NoDup).
  assert (Hsame : forall a1 a2, In a1 (assignments sol) -> In a2 (assignments sol) ->
                                asg_section_id a1 = asg_section_id a2 -> a1 = a2).
  { intros a1 a2 H1 H2 E. exact (NoDup_map_inj_In asg_section_id _ _ _ Hnd H1 H2 E). }
  assert (Hroom : forall a1 a2,
            In a1 (assignments sol) -> In a2 (assignments sol) ->
            asg_room_id a1 = asg_room_id a2 -> clash a1 a2 ->
            roomshare_of inp (asg_section_id a1) = roomshare_of inp (asg_section_id a2)).
  { intros a1 a2 H1 H2 Er (t & T1 & T2).
    destruct (Hasg a1 H1) as (p1 & Hp1 & V1 & ->).
    destruct (Hasg a2 H2) as (p2 & Hp2 & V2 & ->).
    cbn [assignment_of asg_section_id asg_timeslot_ids asg_room_id] in *.
    destruct (built_item_room _ _ Hp1) as (ri & room & Hri & Hroom).
    destruct (@built_item_slot inp _ m p1 t Hm Hp1 T1) as (ti & tslot & Hti & <-).
    destruct (build_model_parts _ _ Hm) as (terms & links & _ & _ & Hv & Hc & _).
    apply model_sat_spec in Hsat as [Hdom Hcon].
    apply (@room_usage_forces_same_key inp
             (option_items (fst (_build_options no_flags inp))) v ri ti room tslot p1 p2);
      try assumption.
    - intros d Hd. apply Hdom. rewrite Hv. apply in_or_app. right. apply in_or_app.
      now left.
    - intros c Hin. apply Hcon. rewrite Hc. apply in_or_app. left.
      unfold hard_constraints. apply in_or_app. right. apply in_or_app. now left.
    - unfold uses. rewrite Hroom, String.eqb_refl. simpl. now apply mem_In.
    - unfold uses. rewrite <- Er, Hroom, String.eqb_refl. simpl. now apply mem_In. }
  split; [|split; [|split; [|split; [exact Hroom|]]]].
  - intros instr a1 a2 s1 s2 Hi H1 H2 Hs1 Hi1 Hs2 Hi2 (t & T1 & T2).
    apply Hsame; [assumption..|].
    destruct (Hasg a1 H1) as ([[sid1 i1] o1] & Hp1 & V1 & ->).
    destruct (Hasg a2 H2) as ([[sid2 i2] o2] & Hp2 & V2 & ->).
    cbn [assignment_of asg_section_id asg_timeslot_ids fst snd] in *.
    exact (proj1 (@instructor_never_double_booked inp m v instr s1 s2 sid1 sid2 i1 i2
                    o1 o2 t Hm Hsat Hi Hs1 Hi1 Hs2 Hi2 Hp1 Hp2 V1 V2 T1 T2)).
  - intros grp a1 a2 Hg H1 H2 M1 M2 (t & T1 & T2).
    apply Hsame; [assumption..|].
    destruct (Hasg a1 H1) as ([[sid1 i1] o1] & Hp1 & V1 & ->).
    destruct (Hasg a2 H2) as ([[sid2 i2] o2] & Hp2 & V2 & ->).
    cbn [assignment_of asg_section_id asg_timeslot_ids fst snd] in *.
    exact (proj1 (@no_overlap_group_respected inp m v grp sid1 sid2 i1 i2 o1 o2 t
                    Hm Hsat Hg M1 M2 Hp1 Hp2 V1 V2 T1 T2)).
  - intros grp a1 a2 Hg H1 H2 M1 M2.
    destruct (Hasg a1 H1) as ([[sid1 i1] o1] & Hp1 & V1 & ->).
    destruct (Hasg a2 H2) as ([[sid2 i2] o2] & Hp2 & V2 & ->).
    cbn [assignment_of asg_section_id asg_timeslot_ids asg_room_id fst snd] in *.
    exact (@crosslist_members_meet_together inp m v grp sid1 sid2 i1 i2 o1 o2
             Hm Hsat Hg M1 M2 Hp1 Hp2 V1 V2).
  - intros a1 a2 s1 s2 H1 H2 Hs1 Hx1 Hs2 Hx2 Er Hclash.
    apply Hsame; [assumption..|].
    pose proof (Hroom a1 a2 H1 H2 Er Hclash) as Hkey.
    destruct (Hasg a1 H1) as (p1 & Hp1 & _ & E1).
    destruct (Hasg a2 H2) as (p2 & Hp2 & _ & E2).
    assert (F1 : asg_section_id a1 = fst (fst p1)) by now rewrite E1.
    assert (F2 : asg_section_id a2 = fst (fst p2)) by now rewrite E2.
    rewrite F1, F2 in *.
    destruct (built_item_key _ _ Hp1) as (s1' & _ & Hid1 & Hg1 & K1).
    destruct (built_item_key _ _ Hp2) as (s2' & _ & Hid2 & Hg2 & K2).
    rewrite Hs1 in Hg1. injection Hg1 as <-.
    rewrite Hs2 in Hg2. injection Hg2 as <-.
    rewrite K1, K2 in Hkey. unfold roomshare_key in Hkey. rewrite Hx1, Hx2 in Hkey.
    rewrite <- Hid1, <- Hid2. simpl in Hkey. now injection Hkey.
Qed.

(** ** The properties at concrete inputs *)

Lemma propose_sound (v : valuation) (inp : SchedulingInput) :
  sound_on (Examples.propose v) inp.
Proof.
  intros m v' _ H. unfold Examples.propose in H.
  destruct (model_sat v m) eqn:E; [|discriminate]. injection H as <-. exact E.
Qed.

Lemma relaxation_adds_options_witness :
  flags_le no_flags (relax_flags ["locks"])
  /\ (forall s o,
        In o (section_options no_flags Examples.two_locks s) ->
        In o (section_options (relax_flags ["locks"]) Examples.two_locks s)).
Proof.
  assert (H : flags_le no_flags (relax_flags ["locks"])).
  { unfold flags_le. simpl. repeat split; discriminate. }
  split; [exact H|].
  exact (proj1 (@relaxation_adds_options no_flags (relax_flags ["locks"])
                  Examples.two_locks H)).
Defined.

Lemma exactly_one_option_per_section_witness :
  exists m os,
    build_model Examples.single (fst (_build_options no_flags Examples.single)) = Some m
    /\ model_sat Examples.pick_S1_room m = true
    /\ dict_get "S1" (fst (_build_options no_flags Examples.single)) = Some os
    /\ exists idx o,
         nth_error os idx = Some o
         /\ Examples.pick_S1_room (OptVar "S1" idx) = 1
         /\ chosen_idx Examples.pick_S1_room "S1" os = Some idx
         /\ forall idx' o', nth_error os idx' = Some o' ->
                            Examples.pick_S1_room (OptVar "S1" idx') = 1 -> idx' = idx.
Proof.
  eexists. eexists. split; [reflexivity|]. split; [reflexivity|]. split; [reflexivity|].
  exact (@exactly_one_option_per_section Examples.single _ Examples.pick_S1_room "S1" _
           eq_refl eq_refl eq_refl).
Defined.

Lemma returned_schedule_covers_sections_witness :
  sound_on (Examples.propose Examples.pick_both) Examples.same_room
  /\ exists sol,
       _solve_schedule (Examples.propose Examples.pick_both) Examples.same_room
       = Some (RespOk sol)
       /\ map asg_section_id (assignments sol) = ["S1"; "S2"]
       /\ NoDup (map asg_section_id (assignments sol)).
Proof.
  split; [apply propose_sound|].
  eexists. split; [vm_compute; reflexivity|].
  destruct (@returned_schedule_covers_sections
              (Examples.propose Examples.pick_both) Examples.same_room _
              (propose_sound _ _) eq_refl) as (H1 & H2 & _).
  split; [exact H1|exact H2].
Defined.

Lemma returned_schedule_is_conflict_free_witness :
  sound_on (Examples.propose Examples.pick_both) Examples.same_room
  /\ exists sol,
       _solve_schedule (Examples.propose Examples.pick_both) Examples.same_room
       = Some (RespOk sol)
       /\ forall grp a1 a2,
            In grp (crosslist_groups Examples.same_room) ->
            In a1 (assignments sol) -> In a2 (assignments sol) ->
            In (asg_section_id a1) (xl_member_section_ids grp) ->
            In (asg_section_id a2) (xl_member_section_ids grp) ->
            asg_timeslot_ids a1 = asg_timeslot_ids a2
            /\ (require_same_room grp = true -> asg_room_id a1 = asg_room_id a2).
Proof.
  split; [apply propose_sound|].
  eexists. split; [vm_compute; reflexivity|].
  exact (proj1 (proj2 (proj2 (@returned_schedule_is_conflict_free
                                (Examples.propose Examples.pick_both) Examples.same_room _
                                (propose_sound _ _) eq_refl)))).
Defined.


Lemma check_feasible_model_implies_hard_constraints_witness :
  exists m1,
    check_feasible_model Examples.single [] = Some m1
    /\ model_sat Examples.pick_S1_room m1 = true
    /\ exists v',
         (forall sid idx, v' (OptVar sid idx) = Examples.pick_S1_room (OptVar sid idx))
         /\ forall c,
              In c (hard_constraints Examples.single
                      (fst (_build_options no_flags Examples.single))) ->
              holds v' c = true.
Proof.
  eexists. split; [reflexivity|]. split; [reflexivity|].
  destruct (@check_feasible_model_implies_hard_constraints Examples.single _
              Examples.pick_S1_room eq_refl eq_refl) as (v' & H1 & _ & H3).
  exists v'. split; [exact H1|exact H3].
Defined.

Lemma check_feasible_reaches_solver_witness :
  _validate_crosslist_capacity (crosslist_groups Examples.two_locks)
    (sections Examples.two_locks) (rooms Examples.two_locks) = []
  /\ snd (_build_options no_flags Examples.two_locks) = []
  /\ exists m,
       check_feasible_model Examples.two_locks ["locks"] = Some m
       /\ _check_feasible (Examples.propose Examples.pick_S1_room) Examples.two_locks
            ["locks"]
          = match Examples.propose Examples.pick_S1_room 20 m with
            | Some _ => true
            | None => false
            end.
Proof.
  split; [reflexivity|]. split; [reflexivity|].
  destruct (@check_feasible_reaches_solver (Examples.propose Examples.pick_S1_room)
              Examples.two_locks ["locks"] eq_refl eq_refl) as (m & H1 & _ & _ & H4).
  exists m. split; [exact H1|exact H4].
Defined.

Lemma relaxing_constraint_family_weakens_witness :
  In "room_conflicts"
     ["room_conflicts"; "instructor_conflicts"; "no_overlap_groups";
      "crosslist_time_room"]
  /\ exists m,
       check_feasible_model Examples.same_room [] = Some m
       /\ exists m',
            check_feasible_model Examples.same_room ["room_conflicts"] = Some m'
            /\ cp_vars m' = cp_vars m
            /\ (forall c, In c (cp_constraints m') -> In c (cp_constraints m))
            /\ (forall v, model_sat v m = true -> model_sat v m' = true).
Proof.
  split; [now left|].
  eexists. split; [reflexivity|].
  exact (@relaxing_constraint_family_weakens Examples.same_room [] "room_conflicts" _
           (or_introl eq_refl) eq_refl).
Defined.

Lemma objective_never_negative_witness :
  exists m,
    build_model Examples.single (fst (_build_options no_flags Examples.single)) = Some m
    /\ model_sat Examples.pick_S1_room m = true
    /\ 0 <= objective_value Examples.pick_S1_room m.
Proof.
  eexists. split; [reflexivity|]. split; [reflexivity|].
  exact (proj2 (@objective_never_negative Examples.single _ Examples.pick_S1_room
                  eq_refl eq_refl)).
Defined.

Lemma adjunct_excess_counts_days_witness :
  exists m,
    build_model Examples.one_max_day
      (fst (_build_options no_flags Examples.one_max_day)) = Some m
    /\ model_sat Examples.pick_adjunct m = true
    /\ NoDup (map inst_id (instructors Examples.one_max_day))
    /\ nth_error (instructors Examples.one_max_day) 0 = Some Examples.adjunct_one
    /\ NoDup ["Mon"]
    /\ Z.of_nat (List.length ["Mon"]) - 1 <= Examples.pick_adjunct (Excess 0)
    /\ In (ADJUNCT_DAY_EXCESS_WEIGHT, Excess 0) (cp_objective m).
Proof.
  assert (Hnd : NoDup (map inst_id (instructors Examples.one_max_day))).
  { simpl. repeat constructor. simpl. tauto. }
  assert (Hds : NoDup ["Mon"]).
  { repeat constructor. simpl. tauto. }
  eexists. split; [reflexivity|]. split; [reflexivity|].
  split; [exact Hnd|]. split; [reflexivity|]. split; [exact Hds|].
  destruct (@adjunct_excess_counts_days Examples.one_max_day _ Examples.pick_adjunct
              0%nat Examples.adjunct_one 1 ["Mon"] eq_refl eq_refl Hnd eq_refl eq_refl
              eq_refl ltac:(discriminate) Hds) as (H1 & _ & H3).
  { intros d [<-|[]].
    exists "S1", 0%nat, (mkOption "P1" ["T1"] "R1" 10), Examples.S1, "T1".
    split; [now left|]. split; [reflexivity|]. split; [reflexivity|].
    split; [reflexivity|]. split; [now left|reflexivity]. }
  split; [exact H1|exact H3].
Defined.

Lemma solve_schedule_raises_on_unknown_timeslot_witness :
  _validate_crosslist_capacity (crosslist_groups Examples.unknown_slot)
    (sections Examples.unknown_slot) (rooms Examples.unknown_slot) = []
  /\ snd (_build_options no_flags Examples.unknown_slot) = []
  /\ In ("S1", 0%nat, mkOption "P1" ["T9"] "R1" 10)
        (option_items (fst (_build_options no_flags Examples.unknown_slot)))
  /\ ~ In "T9" (map slot_id (timeslots Examples.unknown_slot))
  /\ _solve_schedule (Examples.propose Examples.pick_S1_room) Examples.unknown_slot = None.
Proof.
  assert (Hns : ~ In "T9" (map slot_id (timeslots Examples.unknown_slot))).
  { intros [H|[]]. discriminate. }
  split; [reflexivity|]. split; [reflexivity|]. split; [now left|]. split; [exact Hns|].
  exact (@solve_schedule_raises_on_unknown_timeslot
           (Examples.propose Examples.pick_S1_room) Examples.unknown_slot
           "S1" 0%nat (mkOption "P1" ["T9"] "R1" 10) "T9"
           eq_refl eq_refl (or_introl eq_refl) (or_introl eq_refl) Hns).
Defined.

(** ** Score consistency within the range of exact doubles *)

Lemma adds_nonneg_refl (x : Q) : adds_nonneg x x.
Proof. exists 0. split; [lia|]. change (inject_Z 0) with 0%Q. lra. Qed.

Lemma adds_nonneg_trans (x y z : Q) :
  adds_nonneg x y -> adds_nonneg y z -> adds_nonneg x z.
Proof.
  intros (d1 & H1 & E1) (d2 & H2 & E2). exists (d1 + d2). split; [lia|].
  rewrite inject_Z_plus, E2, E1. lra.
Qed.

Lemma adds_nonneg_plus (x : Q) (d : Z) : 0 <= d -> adds_nonneg x (x + inject_Z d).
Proof. intros H. exists d. split; [assumption|reflexivity]. Qed.

Lemma breakdown_grows_refl (b : PenaltyBreakdown) : breakdown_grows b b.
Proof. repeat split; apply adds_nonneg_refl. Qed.

Lemma breakdown_grows_trans (a b c : PenaltyBreakdown) :
  breakdown_grows a b -> breakdown_grows b c -> breakdown_grows a c.
Proof.
  intros (A1 & A2 & A3 & A4 & A5 & A6) (B1 & B2 & B3 & B4 & B5 & B6).
  repeat split; eapply adds_nonneg_trans; eassumption.
Qed.

Lemma soft_amount_nonneg (inp : SchedulingInput) (sid : string) (o : AssignOption)
    (mismatch : SoftLock -> AssignOption -> bool) (x : Q) :
  integral_weights inp ->
  adds_nonneg x
    (x + match dict_get sid (soft_lock_by_section inp) with
         | Some sl =>
             if mismatch sl o then weight sl * inject_Z SOFT_LOCK_BASE_WEIGHT else 0
         | None => 0
         end).
Proof.
  intros Hint. destruct (dict_get sid (soft_lock_by_section inp)) as [sl|] eqn:Esl.
  - destruct (Hint sl (soft_lock_by_section_In _ _ Esl)) as (n & Hn & Hw).
    destruct (mismatch sl o).
    + exists n. split; [assumption|]. unfold SOFT_LOCK_BASE_WEIGHT.
      change (inject_Z 1) with 1%Q. rewrite Hw. lra.
    + exists 0. split; [lia|]. reflexivity.
  - exists 0. split; [lia|]. reflexivity.
Qed.

Lemma add_option_penalties_grows (inp : SchedulingInput) (sid : string)
    (instructor : option Instructor) (days : list string) (o : AssignOption)
    (b : PenaltyBreakdown) :
  integral_weights inp -> 0 <= opt_waste o ->
  breakdown_grows b (add_option_penalties inp sid instructor days o b).
Proof.
  intros Hint Hw. unfold breakdown_grows, add_option_penalties.
  cbn [room_waste instructor_day_preference instructor_pattern_preference
       adjunct_day_excess soft_lock_time soft_lock_room].
  split; [|split; [|split; [|split; [|split]]]].
  - apply adds_nonneg_plus. unfold ROOM_WASTE_WEIGHT. lia.
  - apply adds_nonneg_plus. unfold pref_day_penalty, PREF_DAY_WEIGHT.
    destruct (existsb _ days); lia.
  - apply adds_nonneg_plus. unfold pref_pattern_penalty, PREF_PATTERN_WEIGHT.
    destruct (mem (opt_pattern o) _); lia.
  - apply adds_nonneg_refl.
  - now apply soft_amount_nonneg.
  - now apply soft_amount_nonneg.
Qed.

Lemma assemble_step_grows (inp : SchedulingInput) (v : valuation)
    (asgs : list ScheduleAssignment) (expl : list string) (b : PenaltyBreakdown)
    (so : string * list AssignOption) :
  integral_weights inp -> entry_ready inp v so ->
  (forall o, In o (snd so) -> 0 <= opt_waste o) ->
  exists asgs' expl' b',
    assemble_step inp v (Some (asgs, expl, b)) so = Some (asgs', expl', b')
    /\ breakdown_grows b b'.
Proof.
  intros Hint (H01 & Hsum & Hterm) Hwaste. destruct so as [sid os]. cbn [fst snd] in *.
  destruct (one_hot_enumerate v sid (fun _ _ => 0) os 0 H01 Hsum)
    as (idx & o & Hin & Hfind & _).
  pose proof (proj1 (enumerate_In os idx o) Hin) as Hn.
  specialize (Hterm (idx, o) Hin). cbn [fst snd] in Hterm. unfold option_term in Hterm.
  cbn [fst snd] in Hterm.
  destruct (item_instructor inp sid) as [instr|] eqn:Ei; [|now elim Hterm].
  destruct (option_days inp o) as [days|] eqn:Ed; [|now elim Hterm].
  unfold assemble_step, chosen_idx. cbn [fst snd]. rewrite Hfind, Hn, ?Ei, ?Ed.
  eexists. eexists. eexists. split; [reflexivity|].
  apply add_option_penalties_grows; [assumption|].
  apply Hwaste. now apply nth_error_In in Hn.
Qed.

Lemma assemble_fold_grows (inp : SchedulingInput) (v : valuation)
    (l : dict (list AssignOption))
    (asgs : list ScheduleAssignment) (expl : list string) (b : PenaltyBreakdown) :
  integral_weights inp ->
  (forall so, In so l -> entry_ready inp v so) ->
  (forall so o, In so l -> In o (snd so) -> 0 <= opt_waste o) ->
  exists asgs' expl' b',
    fold_left (assemble_step inp v) l (Some (asgs, expl, b)) = Some (asgs', expl', b')
    /\ breakdown_grows b b'.
Proof.
  intros Hint. revert asgs expl b.
  induction l as [|so r IH]; intros asgs expl b Hready Hwaste.
  - exists asgs, expl, b. split; [reflexivity|apply breakdown_grows_refl].
  - destruct (@assemble_step_grows inp v asgs expl b so Hint
                (Hready so (or_introl eq_refl))
                (fun o Ho => Hwaste so o (or_introl eq_refl) Ho))
      as (a1 & e1 & b1 & Hstep & Hg1).
    destruct (IH a1 e1 b1 (fun so' H => Hready so' (or_intror H))
                (fun so' o H => Hwaste so' o (or_intror H)))
      as (a2 & e2 & b2 & Hfold & Hg2).
    exists a2, e2, b2. cbn [fold_left]. rewrite Hstep. split; [exact Hfold|].
    exact (breakdown_grows_trans Hg1 Hg2).
Qed.

Lemma add_excess_fold_grows (v : valuation) (d : dict var) (b : PenaltyBreakdown) :
  (forall kv, In kv d -> 0 <= v (snd kv)) ->
  breakdown_grows b (fold_left (add_excess_step v) d b).
Proof.
  revert b. induction d as [|kv r IH]; intros b Hpos; [apply breakdown_grows_refl|].
  cbn [fold_left].
  apply (@breakdown_grows_trans b (add_excess_step v b kv)).
  - unfold add_excess_step. cbv zeta. destruct (v (snd kv) =? 0).
    + apply breakdown_grows_refl.
    + unfold breakdown_grows.
      cbn [room_waste instructor_day_preference instructor_pattern_preference
           adjunct_day_excess soft_lock_time soft_lock_room].
      split; [|split; [|split; [|split; [|split]]]]; try apply adds_nonneg_refl.
      apply adds_nonneg_plus. specialize (Hpos kv (or_introl eq_refl)).
      unfold ADJUNCT_DAY_EXCESS_WEIGHT. lia.
  - apply IH. intros kv' H. apply Hpos. now right.
Qed.

Lemma excess_vars_nonneg (inp : SchedulingInput) (m : CpModel) (v : valuation)
    (opts : dict (list AssignOption)) :
  build_model inp opts = Some m -> model_sat v m = true ->
  NoDup (map inst_id (instructors inp)) ->
  forall kv, In kv (adjunct_day_excess_vars inp) -> 0 <= v (snd kv).
Proof.
  intros Hm Hsat Hnd kv Hin.
  destruct (build_model_parts _ _ Hm) as (terms & links & _ & _ & _ & Hc & _).
  apply model_sat_spec in Hsat as [_ Hcon].
  unfold adjunct_day_excess_vars in Hin.
  rewrite adjunct_day_excess_vars_fold in Hin.
  - simpl in Hin. apply in_flat_map in Hin as ([ii i] & Hii & Hkv).
    cbn [fst snd] in Hkv.
    destruct (adjunct_max_days i) as [M|] eqn:Hadj; [|contradiction].
    destruct Hkv as [<-|[]]. cbn [snd].
    apply enumerate_In in Hii.
    destruct (@adjunct_constraints_In inp ii i M Hii Hadj) as [_ Hnn].
    assert (Hh : holds v (NonNeg (Excess ii)) = true).
    { apply Hcon. rewrite Hc. apply in_or_app. right. apply in_or_app. now left. }
    cbn [holds] in Hh. lia.
  - simpl. unfold enumerate.
    rewrite <- (map_map snd inst_id), map_snd_enumerate_from. exact Hnd.
Qed.

(** An intermediate breakdown between the initial one and a final one
    whose sum is an integer of at most 2^53 has exact entries. *)
Lemma breakdown_exact_between (b bf : PenaltyBreakdown) (T : Z) :
  breakdown_grows zero_breakdown b -> breakdown_grows b bf ->
  (breakdown_sum bf == inject_Z T)%Q -> T <= 2 ^ 53 ->
  breakdown_exact b.
Proof.
  intros (A1 & A2 & A3 & A4 & A5 & A6) (B1 & B2 & B3 & B4 & B5 & B6) Hsum HT.
  unfold zero_breakdown in *.
  cbn [room_waste instructor_day_preference instructor_pattern_preference
       adjunct_day_excess soft_lock_time soft_lock_room] in *.
  destruct A1 as (a1 & Ha1 & Ea1), A2 as (a2 & Ha2 & Ea2), A3 as (a3 & Ha3 & Ea3),
    A4 as (a4 & Ha4 & Ea4), A5 as (a5 & Ha5 & Ea5), A6 as (a6 & Ha6 & Ea6).
  destruct B1 as (d1 & Hd1 & Ed1), B2 as (d2 & Hd2 & Ed2), B3 as (d3 & Hd3 & Ed3),
    B4 as (d4 & Hd4 & Ed4), B5 as (d5 & Hd5 & Ed5), B6 as (d6 & Hd6 & Ed6).
  assert (HsumZ : a1 + d1 + (a2 + d2) + (a3 + d3) + (a4 + d4) + (a5 + d5) + (a6 + d6) = T).
  { apply inject_Z_injective. rewrite <- Hsum. unfold breakdown_sum.
    rewrite Ed1, Ed2, Ed3, Ed4, Ed5, Ed6, Ea1, Ea2, Ea3, Ea4, Ea5, Ea6.
    rewrite !inject_Z_plus. lra. }
  unfold breakdown_exact, double_exact.
  split; [|split; [|split; [|split; [|split]]]].
  - exists a1. split; [lia|]. rewrite Ea1. lra.
  - exists a2. split; [lia|]. rewrite Ea2. lra.
  - exists a3. split; [lia|]. rewrite Ea3. lra.
  - exists a4. split; [lia|]. rewrite Ea4. lra.
  - exists a5. split; [lia|]. rewrite Ea5. lra.
  - exists a6. split; [lia|]. rewrite Ea6. lra.
Qed.

Lemma In_firstn {A} (n : nat) (l : list A) (x : A) : In x (firstn n l) -> In x l.
Proof.
  intros H. rewrite <- (firstn_skipn n l). apply in_or_app. now left.
Qed.

Lemma In_skipn {A} (n : nat) (l : list A) (x : A) : In x (skipn n l) -> In x l.
Proof.
  intros H. rewrite <- (firstn_skipn n l). apply in_or_app. now right.
Qed.

(** X8.  Score consistency where the float arithmetic of the assembler is
    exact.  For every solution of the model of the solve, with soft-lock
    weights that are non-negative integers, distinct instructor ids and an
    objective value of at most 2^53, the assembler succeeds, [total_score]
    is the objective value, and every value the assembler computes on the
    way is an integer between 0 and 2^53: the breakdown after each
    iteration of the loop over the option map, after each iteration of the
    loop over the excess variables, and the final breakdown and total.
    Since every term added is a non-negative integer, no sum of these
    values leaves the range in which doubles are exact. *)
Theorem score_consistency_in_double_range (inp : SchedulingInput) (m : CpModel)
    (v : valuation) :
  build_model inp (fst (_build_options no_flags inp)) = Some m ->
  model_sat v m = true ->
  NoDup (map inst_id (instructors inp)) ->
  integral_weights inp ->
  objective_value v m <= 2 ^ 53 ->
  exists sol,
    assemble inp (fst (_build_options no_flags inp)) v = Some sol
    /\ (total_score sol == inject_Z (objective_value v m))%Q
    /\ double_exact (total_score sol)
    /\ breakdown_exact (penalty_breakdown sol)
    /\ (forall n, exists asgs expl b,
          fold_left (assemble_step inp v)
            (firstn n (fst (_build_options no_flags inp)))
            (Some ([], [], zero_breakdown)) = Some (asgs, expl, b)
          /\ breakdown_exact b)
    /\ (forall asgs expl b k,
          fold_left (assemble_step inp v) (fst (_build_options no_flags inp))
            (Some ([], [], zero_breakdown)) = Some (asgs, expl, b) ->
          breakdown_exact
            (fold_left (add_excess_step v) (firstn k (adjunct_day_excess_vars inp)) b)).
Proof.
  intros Hm Hsat Hnd Hint HT.
  set (opts := fst (_build_options no_flags inp)) in *.
  pose proof (@entries_ready inp opts m v Hm Hsat) as Hready.
  assert (Hwaste : forall so o, In so opts -> In o (snd so) -> 0 <= opt_waste o).
  { intros [sid os] o Hso Ho. cbn [snd] in Ho. apply In_nth_error in Ho as [idx Hn].
    apply (@built_item_waste inp (sid, idx, o)). apply option_items_In.
    exists os. auto. }
  pose proof (@excess_vars_nonneg inp m v opts Hm Hsat Hnd) as Hpos.
  destruct (@score_consistency_integral inp opts m v Hm Hsat Hnd Hint)
    as (sol & Hasm & Htot).
  unfold assemble in Hasm.
  destruct (fold_left (assemble_step inp v) opts (Some ([], [], zero_breakdown)))
    as [[[asgs expl] bN]|] eqn:Hfold; [|discriminate].
  injection Hasm as <-. cbn [total_score penalty_breakdown] in *.
  unfold add_excess in *.
  set (bf := fold_left (add_excess_step v) (adjunct_day_excess_vars inp) bN) in *.
  assert (G0N : breakdown_grows zero_breakdown bN).
  { destruct (@assemble_fold_grows inp v opts [] [] zero_breakdown Hint Hready Hwaste)
      as (a & e & b & Hf & Hg).
    rewrite Hfold in Hf. now injection Hf as _ _ <-. }
  assert (GNf : breakdown_grows bN bf) by (apply add_excess_fold_grows; exact Hpos).
  assert (Hfinal : breakdown_exact bf).
  { apply (@breakdown_exact_between bf bf (objective_value v m)); auto.
    - exact (breakdown_grows_trans G0N GNf).
    - apply breakdown_grows_refl. }
  unfold assemble. rewrite Hfold. eexists. split; [reflexivity|].
  cbv zeta. cbn [total_score penalty_breakdown]. unfold add_excess. fold bf.
  split; [exact Htot|]. split.
  { destruct Hfinal as ((k1 & [H1 _] & _) & (k2 & [H2 _] & _) & (k3 & [H3 _] & _)
                        & (k4 & [H4 _] & _) & (k5 & [H5 _] & _) & (k6 & [H6 _] & _)).
    exists (objective_value v m). split; [|exact Htot]. split; [|exact HT].
    destruct (breakdown_grows_trans G0N GNf)
      as ((a1 & A1 & E1) & (a2 & A2 & E2) & (a3 & A3 & E3) & (a4 & A4 & E4)
          & (a5 & A5 & E5) & (a6 & A6 & E6)).
    unfold zero_breakdown in *.
    cbn [room_waste instructor_day_preference instructor_pattern_preference
         adjunct_day_excess soft_lock_time soft_lock_room] in *.
    assert (E : a1 + a2 + a3 + a4 + a5 + a6 = objective_value v m).
    { apply inject_Z_injective. rewrite <- Htot. unfold breakdown_sum.
      rewrite E1, E2, E3, E4, E5, E6, !inject_Z_plus. lra. }
    lia. }
  split; [exact Hfinal|]. split.
  - intros n.
    destruct (@assemble_fold_grows inp v (firstn n opts) [] [] zero_breakdown Hint
                (fun so H => Hready so (In_firstn n opts so H))
                (fun so o H => Hwaste so o (In_firstn n opts so H)))
      as (a1 & e1 & bn & Hf1 & Hg1).
    exists a1, e1, bn. split; [exact Hf1|].
    destruct (@assemble_fold_grows inp v (skipn n opts) a1 e1 bn Hint
                (fun so H => Hready so (In_skipn n opts so H))
                (fun so o H => Hwaste so o (In_skipn n opts so H)))
      as (a2 & e2 & b2 & Hf2 & Hg2).
    assert (E : b2 = bN).
    { rewrite <- (firstn_skipn n opts), fold_left_app, Hf1, Hf2 in Hfold.
      now injection Hfold. }
    subst b2.
    apply (@breakdown_exact_between bn bf (objective_value v m)); auto.
    exact (breakdown_grows_trans Hg2 GNf).
  - intros asgs0 expl0 b0 k [= _ _ <-].
    set (bk := fold_left (add_excess_step v) (firstn k (adjunct_day_excess_vars inp)) bN).
    assert (GNk : breakdown_grows bN bk).
    { apply add_excess_fold_grows. intros kv H. apply Hpos.
      exact (In_firstn k _ kv H). }
    assert (Gkf : breakdown_grows bk bf).
    { assert (Ebf : bf = fold_left (add_excess_step v)
                           (skipn k (adjunct_day_excess_vars inp)) bk).
      { unfold bf, bk. rewrite <- fold_left_app. now rewrite firstn_skipn. }
      rewrite Ebf. apply add_excess_fold_grows. intros kv H. apply Hpos.
      exact (In_skipn k _ kv H). }
    apply (@breakdown_exact_between bk bf (objective_value v m)); auto.
    exact (breakdown_grows_trans G0N GNk).
Qed.

Lemma score_consistency_in_double_range_witness :
  exists m,
    build_model (Examples.with_soft_lock Examples.integral_lock)
      (fst (_build_options no_flags (Examples.with_soft_lock Examples.integral_lock)))
    = Some m
    /\ model_sat Examples.pick_S1_room m = true
    /\ NoDup (map inst_id (instructors (Examples.with_soft_lock Examples.integral_lock)))
    /\ integral_weights (Examples.with_soft_lock Examples.integral_lock)
    /\ room_mismatch Examples.integral_lock (mkOption "P1" ["T1"] "R1" 10) = true
    /\ objective_value Examples.pick_S1_room m = 27
    /\ exists sol,
         assemble (Examples.with_soft_lock Examples.integral_lock)
           (fst (_build_options no_flags (Examples.with_soft_lock Examples.integral_lock)))
           Examples.pick_S1_room = Some sol
         /\ (total_score sol == inject_Z 27)%Q
         /\ breakdown_exact (penalty_breakdown sol).
Proof.
  assert (Hnd : NoDup (map inst_id
                         (instructors (Examples.with_soft_lock Examples.integral_lock)))).
  { simpl. repeat constructor. simpl. tauto. }
  assert (Hint : integral_weights (Examples.with_soft_lock Examples.integral_lock)).
  { intros sl [<-|[]]. exists 2. split; [lia|reflexivity]. }
  eexists. split; [reflexivity|]. split; [reflexivity|].
  split; [exact Hnd|]. split; [exact Hint|]. split; [reflexivity|].
  split; [reflexivity|].
  destruct (@score_consistency_in_double_range
              (Examples.with_soft_lock Examples.integral_lock) _ Examples.pick_S1_room
              eq_refl eq_refl Hnd Hint) as (sol & H1 & H2 & _ & H4 & _).
  { apply Z.leb_le. reflexivity. }
  exists sol. split; [exact H1|]. split; [exact H2|exact H4].
Defined.
